(** * Substitution engine of the pharmacy inventory manager

    A shallow embedding of the class [SubstitutionEngine] (the module
    [services/substitutionEngine] that [SubstitutionPanel] imports) and of
    the records of [types/pharmacy] it works on, followed by the properties
    of the engine.  The values the page [App] derives from its state, its
    handlers, the stock badge of [DrugCard] and the effect of
    [SubstitutionPanel] are embedded after the engine, with their
    properties at the end.

    Conventions of the embedding.
    - A JavaScript string is a [string] holding its UTF-8 bytes.
    - A JavaScript number is an IEEE 754 binary64 value: a rational (the
      exact value of the double), one of the two infinities, or NaN.  Every
      arithmetic operation rounds its exact result to the nearest double,
      ties to even, with overflow to an infinity and underflow through the
      subnormals to zero.  The sign of zero is not represented; nothing in
      the engine observes it.
    - A value that may be [null] or [undefined] is an [option]. *)

From Stdlib Require Import ZArith QArith Qround Qabs Bool List String Ascii Lia Permutation.
From Stdlib Require Import DecimalString.
From stdpp Require Import gmap strings.
Import ListNotations.

(** ** Numbers *)

Module JSNumber.

Inductive number : Type :=
| Finite (q : Q)
| PosInf
| NegInf
| NaN.

Local Open Scope Z_scope.

(** The integer nearest to [n / d], the even one of the two on a tie
    ([0 <= n], [0 < d]). *)
Definition round_half_even (n d : Z) : Z :=
  let q := n / d in
  match 2 * (n mod d) ?= d with
  | Lt => q
  | Gt => q + 1
  | Eq => if Z.even q then q else q + 1
  end.

(** [d * 2^e <= n], for an exponent of either sign. *)
Definition pow2_leb (d e n : Z) : bool :=
  if 0 <=? e then d * 2 ^ e <=? n else d <=? n * 2 ^ (- e).

(** The binary exponent of the positive rational [n / d]: the [e] with
    [2^e <= n / d < 2^(e+1)]. *)
Definition floor_log2 (n d : positive) : Z :=
  let e := Z.log2 (Zpos n) - Z.log2 (Zpos d) in
  if pow2_leb (Zpos d) e (Zpos n) then e else e - 1.

(** Rounding of the positive rational [n / d] to binary64: a significand of
    53 bits above the exponent [-1022], the fixed quantum [2^-1074] below.
    [None] is overflow. *)
Definition round_magnitude (n d : positive) : option Q :=
  let e := floor_log2 n d in
  let k := Z.max e (-1022) - 52 in
  if 0 <=? k then
    let m := round_half_even (Zpos n) (Zpos d * 2 ^ k) in
    if 2 ^ 1024 <=? m * 2 ^ k then None else Some (inject_Z (m * 2 ^ k))
  else
    let m := round_half_even (Zpos n * 2 ^ (- k)) (Zpos d) in
    Some (Qred (m # Z.to_pos (2 ^ (- k)))).

(** The Number value of a real (here: rational) number. *)
Definition round64 (q : Q) : number :=
  match Qnum q with
  | Z0 => Finite 0
  | Zpos n =>
      match round_magnitude n (Qden q) with
      | Some r => Finite r
      | None => PosInf
      end
  | Zneg n =>
      match round_magnitude n (Qden q) with
      | Some r => Finite (Qopp r)
      | None => NegInf
      end
  end.

Local Close Scope Z_scope.

(** The sign of a rational as a comparison with zero. *)
Definition Qsign (q : Q) : comparison := (Qnum q ?= 0)%Z.

Definition add (a b : number) : number :=
  match a, b with
  | NaN, _ | _, NaN => NaN
  | PosInf, NegInf | NegInf, PosInf => NaN
  | PosInf, _ | _, PosInf => PosInf
  | NegInf, _ | _, NegInf => NegInf
  | Finite x, Finite y => round64 (x + y)
  end.

Definition neg (a : number) : number :=
  match a with
  | Finite x => Finite (Qopp x)
  | PosInf => NegInf
  | NegInf => PosInf
  | NaN => NaN
  end.

Definition sub (a b : number) : number := add a (neg b).

(** The infinity whose sign is the product of two signs; NaN when one
    factor is zero. *)
Definition signed_inf (s t : comparison) : number :=
  match s, t with
  | Eq, _ | _, Eq => NaN
  | Gt, Gt | Lt, Lt => PosInf
  | _, _ => NegInf
  end.

Definition sign (a : number) : comparison :=
  match a with
  | Finite x => Qsign x
  | PosInf => Gt
  | NegInf => Lt
  | NaN => Eq
  end.

Definition mul (a b : number) : number :=
  match a, b with
  | NaN, _ | _, NaN => NaN
  | Finite x, Finite y => round64 (x * y)
  | _, _ => signed_inf (sign a) (sign b)
  end.

(** Division.  A zero divisor is the positive zero: [x / 0] is the infinity
    of the sign of [x], and [0 / 0] is NaN. *)
Definition div (a b : number) : number :=
  match a, b with
  | NaN, _ | _, NaN => NaN
  | Finite x, Finite y =>
      match Qsign y with
      | Eq => signed_inf (Qsign x) Gt
      | _ => round64 (x / y)
      end
  | Finite _, _ => Finite 0
  | _, Finite y =>
      match Qsign y with
      | Eq => a
      | s => signed_inf (sign a) s
      end
  | _, _ => NaN
  end.

(** Comparison; [None] when an operand is NaN. *)
Definition compare (a b : number) : option comparison :=
  match a, b with
  | NaN, _ | _, NaN => None
  | Finite x, Finite y => Some (Qcompare x y)
  | PosInf, PosInf | NegInf, NegInf => Some Eq
  | PosInf, _ | _, NegInf => Some Gt
  | NegInf, _ | _, PosInf => Some Lt
  end.

Definition ltb (a b : number) : bool :=
  match compare a b with Some Lt => true | _ => false end.
Definition gtb (a b : number) : bool := ltb b a.
Definition leb (a b : number) : bool :=
  match compare a b with Some Lt | Some Eq => true | _ => false end.
Definition geb (a b : number) : bool := leb b a.

(** [a === b] on numbers. *)
Definition strict_eqb (a b : number) : bool :=
  match compare a b with Some Eq => true | _ => false end.

(** ToBoolean on a number: false for zero and NaN. *)
Definition ToBoolean (a : number) : bool :=
  match a with
  | Finite x => negb (Qeq_bool x 0)
  | PosInf | NegInf => true
  | NaN => false
  end.

(** [Math.min], [Math.max] and [Math.floor]. *)
Definition min (a b : number) : number :=
  match compare a b with
  | None => NaN
  | Some Gt => b
  | Some _ => a
  end.

Definition max (a b : number) : number :=
  match compare a b with
  | None => NaN
  | Some Lt => b
  | Some _ => a
  end.

Definition floor (a : number) : number :=
  match a with
  | Finite x => Finite (inject_Z (Qfloor x))
  | _ => a
  end.

(** An integer literal of the program text. *)
Definition int (z : Z) : number := round64 (inject_Z z).
Arguments int z%_Z.

Definition is_NaN (a : number) : bool :=
  match a with NaN => true | _ => false end.

End JSNumber.

Import JSNumber.

(** ** Strings *)

Module JSString.

Definition byte (c : ascii) : N := N_of_ascii c.

Definition is_upper (c : ascii) : bool := (65 <=? byte c)%N && (byte c <=? 90)%N.
Definition is_lower (c : ascii) : bool := (97 <=? byte c)%N && (byte c <=? 122)%N.
Definition is_digit (c : ascii) : bool := (48 <=? byte c)%N && (byte c <=? 57)%N.

Definition lower_ascii (c : ascii) : ascii :=
  if is_upper c then ascii_of_N (byte c + 32) else c.

(** *** Code points and the lower-case mapping

    [String.prototype.toLowerCase] maps the code points of the string by the
    lower-case mapping of the Unicode Character Database, its unconditional
    special casing included (U+0130 becomes "i" followed by U+0307), with
    the one rule that depends on the context: a capital sigma becomes the
    final sigma when a cased letter stands before it and none after it,
    case-ignorable characters set aside.  The tables are those of version
    14.0 of the database. *)

Local Open Scope N_scope.

(** [(first, last, step, lower)]: the code points [first], [first + step],
    ... up to [last] map to [lower], [lower + step], ... *)
Definition lowerTable : list (N * N * N * N) := [
  (0x41, 0x5A, 1, 0x61); (0xC0, 0xD6, 1, 0xE0); (0xD8, 0xDE, 1, 0xF8);
  (0x100, 0x12E, 2, 0x101); (0x132, 0x136, 2, 0x133); (0x139, 0x147, 2, 0x13A);
  (0x14A, 0x176, 2, 0x14B); (0x178, 0x178, 1, 0xFF); (0x179, 0x17D, 2, 0x17A);
  (0x181, 0x181, 1, 0x253); (0x182, 0x184, 2, 0x183); (0x186, 0x186, 1, 0x254);
  (0x187, 0x187, 1, 0x188); (0x189, 0x18A, 1, 0x256); (0x18B, 0x18B, 1, 0x18C);
  (0x18E, 0x18E, 1, 0x1DD); (0x18F, 0x18F, 1, 0x259); (0x190, 0x190, 1, 0x25B);
  (0x191, 0x191, 1, 0x192); (0x193, 0x193, 1, 0x260); (0x194, 0x194, 1, 0x263);
  (0x196, 0x196, 1, 0x269); (0x197, 0x197, 1, 0x268); (0x198, 0x198, 1, 0x199);
  (0x19C, 0x19C, 1, 0x26F); (0x19D, 0x19D, 1, 0x272); (0x19F, 0x19F, 1, 0x275);
  (0x1A0, 0x1A4, 2, 0x1A1); (0x1A6, 0x1A6, 1, 0x280); (0x1A7, 0x1A7, 1, 0x1A8);
  (0x1A9, 0x1A9, 1, 0x283); (0x1AC, 0x1AC, 1, 0x1AD); (0x1AE, 0x1AE, 1, 0x288);
  (0x1AF, 0x1AF, 1, 0x1B0); (0x1B1, 0x1B2, 1, 0x28A); (0x1B3, 0x1B5, 2, 0x1B4);
  (0x1B7, 0x1B7, 1, 0x292); (0x1B8, 0x1B8, 1, 0x1B9); (0x1BC, 0x1BC, 1, 0x1BD);
  (0x1C4, 0x1C4, 1, 0x1C6); (0x1C5, 0x1C5, 1, 0x1C6); (0x1C7, 0x1C7, 1, 0x1C9);
  (0x1C8, 0x1C8, 1, 0x1C9); (0x1CA, 0x1CA, 1, 0x1CC); (0x1CB, 0x1DB, 2, 0x1CC);
  (0x1DE, 0x1EE, 2, 0x1DF); (0x1F1, 0x1F1, 1, 0x1F3); (0x1F2, 0x1F4, 2, 0x1F3);
  (0x1F6, 0x1F6, 1, 0x195); (0x1F7, 0x1F7, 1, 0x1BF); (0x1F8, 0x21E, 2, 0x1F9);
  (0x220, 0x220, 1, 0x19E); (0x222, 0x232, 2, 0x223); (0x23A, 0x23A, 1, 0x2C65);
  (0x23B, 0x23B, 1, 0x23C); (0x23D, 0x23D, 1, 0x19A); (0x23E, 0x23E, 1, 0x2C66);
  (0x241, 0x241, 1, 0x242); (0x243, 0x243, 1, 0x180); (0x244, 0x244, 1, 0x289);
  (0x245, 0x245, 1, 0x28C); (0x246, 0x24E, 2, 0x247); (0x370, 0x372, 2, 0x371);
  (0x376, 0x376, 1, 0x377); (0x37F, 0x37F, 1, 0x3F3); (0x386, 0x386, 1, 0x3AC);
  (0x388, 0x38A, 1, 0x3AD); (0x38C, 0x38C, 1, 0x3CC); (0x38E, 0x38F, 1, 0x3CD);
  (0x391, 0x3A1, 1, 0x3B1); (0x3A3, 0x3AB, 1, 0x3C3); (0x3CF, 0x3CF, 1, 0x3D7);
  (0x3D8, 0x3EE, 2, 0x3D9); (0x3F4, 0x3F4, 1, 0x3B8); (0x3F7, 0x3F7, 1, 0x3F8);
  (0x3F9, 0x3F9, 1, 0x3F2); (0x3FA, 0x3FA, 1, 0x3FB); (0x3FD, 0x3FF, 1, 0x37B);
  (0x400, 0x40F, 1, 0x450); (0x410, 0x42F, 1, 0x430); (0x460, 0x480, 2, 0x461);
  (0x48A, 0x4BE, 2, 0x48B); (0x4C0, 0x4C0, 1, 0x4CF); (0x4C1, 0x4CD, 2, 0x4C2);
  (0x4D0, 0x52E, 2, 0x4D1); (0x531, 0x556, 1, 0x561); (0x10A0, 0x10C5, 1, 0x2D00);
  (0x10C7, 0x10C7, 1, 0x2D27); (0x10CD, 0x10CD, 1, 0x2D2D); (0x13A0, 0x13EF, 1, 0xAB70);
  (0x13F0, 0x13F5, 1, 0x13F8); (0x1C90, 0x1CBA, 1, 0x10D0); (0x1CBD, 0x1CBF, 1, 0x10FD);
  (0x1E00, 0x1E94, 2, 0x1E01); (0x1E9E, 0x1E9E, 1, 0xDF); (0x1EA0, 0x1EFE, 2, 0x1EA1);
  (0x1F08, 0x1F0F, 1, 0x1F00); (0x1F18, 0x1F1D, 1, 0x1F10); (0x1F28, 0x1F2F, 1, 0x1F20);
  (0x1F38, 0x1F3F, 1, 0x1F30); (0x1F48, 0x1F4D, 1, 0x1F40); (0x1F59, 0x1F5F, 2, 0x1F51);
  (0x1F68, 0x1F6F, 1, 0x1F60); (0x1F88, 0x1F8F, 1, 0x1F80); (0x1F98, 0x1F9F, 1, 0x1F90);
  (0x1FA8, 0x1FAF, 1, 0x1FA0); (0x1FB8, 0x1FB9, 1, 0x1FB0); (0x1FBA, 0x1FBB, 1, 0x1F70);
  (0x1FBC, 0x1FBC, 1, 0x1FB3); (0x1FC8, 0x1FCB, 1, 0x1F72); (0x1FCC, 0x1FCC, 1, 0x1FC3);
  (0x1FD8, 0x1FD9, 1, 0x1FD0); (0x1FDA, 0x1FDB, 1, 0x1F76); (0x1FE8, 0x1FE9, 1, 0x1FE0);
  (0x1FEA, 0x1FEB, 1, 0x1F7A); (0x1FEC, 0x1FEC, 1, 0x1FE5); (0x1FF8, 0x1FF9, 1, 0x1F78);
  (0x1FFA, 0x1FFB, 1, 0x1F7C); (0x1FFC, 0x1FFC, 1, 0x1FF3); (0x2126, 0x2126, 1, 0x3C9);
  (0x212A, 0x212A, 1, 0x6B); (0x212B, 0x212B, 1, 0xE5); (0x2132, 0x2132, 1, 0x214E);
  (0x2160, 0x216F, 1, 0x2170); (0x2183, 0x2183, 1, 0x2184); (0x24B6, 0x24CF, 1, 0x24D0);
  (0x2C00, 0x2C2F, 1, 0x2C30); (0x2C60, 0x2C60, 1, 0x2C61); (0x2C62, 0x2C62, 1, 0x26B);
  (0x2C63, 0x2C63, 1, 0x1D7D); (0x2C64, 0x2C64, 1, 0x27D); (0x2C67, 0x2C6B, 2, 0x2C68);
  (0x2C6D, 0x2C6D, 1, 0x251); (0x2C6E, 0x2C6E, 1, 0x271); (0x2C6F, 0x2C6F, 1, 0x250);
  (0x2C70, 0x2C70, 1, 0x252); (0x2C72, 0x2C72, 1, 0x2C73); (0x2C75, 0x2C75, 1, 0x2C76);
  (0x2C7E, 0x2C7F, 1, 0x23F); (0x2C80, 0x2CE2, 2, 0x2C81); (0x2CEB, 0x2CED, 2, 0x2CEC);
  (0x2CF2, 0x2CF2, 1, 0x2CF3); (0xA640, 0xA66C, 2, 0xA641); (0xA680, 0xA69A, 2, 0xA681);
  (0xA722, 0xA72E, 2, 0xA723); (0xA732, 0xA76E, 2, 0xA733); (0xA779, 0xA77B, 2, 0xA77A);
  (0xA77D, 0xA77D, 1, 0x1D79); (0xA77E, 0xA786, 2, 0xA77F); (0xA78B, 0xA78B, 1, 0xA78C);
  (0xA78D, 0xA78D, 1, 0x265); (0xA790, 0xA792, 2, 0xA791); (0xA796, 0xA7A8, 2, 0xA797);
  (0xA7AA, 0xA7AA, 1, 0x266); (0xA7AB, 0xA7AB, 1, 0x25C); (0xA7AC, 0xA7AC, 1, 0x261);
  (0xA7AD, 0xA7AD, 1, 0x26C); (0xA7AE, 0xA7AE, 1, 0x26A); (0xA7B0, 0xA7B0, 1, 0x29E);
  (0xA7B1, 0xA7B1, 1, 0x287); (0xA7B2, 0xA7B2, 1, 0x29D); (0xA7B3, 0xA7B3, 1, 0xAB53);
  (0xA7B4, 0xA7C2, 2, 0xA7B5); (0xA7C4, 0xA7C4, 1, 0xA794); (0xA7C5, 0xA7C5, 1, 0x282);
  (0xA7C6, 0xA7C6, 1, 0x1D8E); (0xA7C7, 0xA7C9, 2, 0xA7C8); (0xA7D0, 0xA7D0, 1, 0xA7D1);
  (0xA7D6, 0xA7D8, 2, 0xA7D7); (0xA7F5, 0xA7F5, 1, 0xA7F6); (0xFF21, 0xFF3A, 1, 0xFF41);
  (0x10400, 0x10427, 1, 0x10428); (0x104B0, 0x104D3, 1, 0x104D8); (0x10570, 0x10594, 2, 0x10597);
  (0x10571, 0x1057A, 1, 0x10598); (0x1057D, 0x1058A, 1, 0x105A4); (0x1058D, 0x10592, 1, 0x105B4);
  (0x10595, 0x10595, 1, 0x105BC); (0x10C80, 0x10CB2, 1, 0x10CC0); (0x118A0, 0x118BF, 1, 0x118C0);
  (0x16E40, 0x16E5F, 1, 0x16E60); (0x1E900, 0x1E921, 1, 0x1E922) ].

(** The cased letters that are not case-ignorable, as ranges. *)
Definition casedTable : list (N * N) := [
  (0x41, 0x5A); (0x61, 0x7A); (0xAA, 0xAA); (0xB5, 0xB5); (0xBA, 0xBA);
  (0xC0, 0xD6); (0xD8, 0xF6); (0xF8, 0x1BA); (0x1BC, 0x1BF); (0x1C4, 0x293);
  (0x295, 0x2AF); (0x370, 0x373); (0x376, 0x377); (0x37B, 0x37D); (0x37F, 0x37F);
  (0x386, 0x386); (0x388, 0x38A); (0x38C, 0x38C); (0x38E, 0x3A1); (0x3A3, 0x3F5);
  (0x3F7, 0x481); (0x48A, 0x52F); (0x531, 0x556); (0x560, 0x588); (0x10A0, 0x10C5);
  (0x10C7, 0x10C7); (0x10CD, 0x10CD); (0x10D0, 0x10FA); (0x10FD, 0x10FF); (0x13A0, 0x13F5);
  (0x13F8, 0x13FD); (0x1C80, 0x1C88); (0x1C90, 0x1CBA); (0x1CBD, 0x1CBF); (0x1D00, 0x1D2B);
  (0x1D6B, 0x1D77); (0x1D79, 0x1D9A); (0x1E00, 0x1F15); (0x1F18, 0x1F1D); (0x1F20, 0x1F45);
  (0x1F48, 0x1F4D); (0x1F50, 0x1F57); (0x1F59, 0x1F59); (0x1F5B, 0x1F5B); (0x1F5D, 0x1F5D);
  (0x1F5F, 0x1F7D); (0x1F80, 0x1FB4); (0x1FB6, 0x1FBC); (0x1FBE, 0x1FBE); (0x1FC2, 0x1FC4);
  (0x1FC6, 0x1FCC); (0x1FD0, 0x1FD3); (0x1FD6, 0x1FDB); (0x1FE0, 0x1FEC); (0x1FF2, 0x1FF4);
  (0x1FF6, 0x1FFC); (0x2102, 0x2102); (0x2107, 0x2107); (0x210A, 0x2113); (0x2115, 0x2115);
  (0x2119, 0x211D); (0x2124, 0x2124); (0x2126, 0x2126); (0x2128, 0x2128); (0x212A, 0x212D);
  (0x212F, 0x2134); (0x2139, 0x2139); (0x213C, 0x213F); (0x2145, 0x2149); (0x214E, 0x214E);
  (0x2160, 0x217F); (0x2183, 0x2184); (0x24B6, 0x24E9); (0x2C00, 0x2C7B); (0x2C7E, 0x2CE4);
  (0x2CEB, 0x2CEE); (0x2CF2, 0x2CF3); (0x2D00, 0x2D25); (0x2D27, 0x2D27); (0x2D2D, 0x2D2D);
  (0xA640, 0xA66D); (0xA680, 0xA69B); (0xA722, 0xA76F); (0xA771, 0xA787); (0xA78B, 0xA78E);
  (0xA790, 0xA7CA); (0xA7D0, 0xA7D1); (0xA7D3, 0xA7D3); (0xA7D5, 0xA7D9); (0xA7F5, 0xA7F6);
  (0xA7FA, 0xA7FA); (0xAB30, 0xAB5A); (0xAB60, 0xAB68); (0xAB70, 0xABBF); (0xFB00, 0xFB06);
  (0xFB13, 0xFB17); (0xFF21, 0xFF3A); (0xFF41, 0xFF5A); (0x10400, 0x1044F); (0x104B0, 0x104D3);
  (0x104D8, 0x104FB); (0x10570, 0x1057A); (0x1057C, 0x1058A); (0x1058C, 0x10592); (0x10594, 0x10595);
  (0x10597, 0x105A1); (0x105A3, 0x105B1); (0x105B3, 0x105B9); (0x105BB, 0x105BC); (0x10C80, 0x10CB2);
  (0x10CC0, 0x10CF2); (0x118A0, 0x118DF); (0x16E40, 0x16E7F); (0x1D400, 0x1D454); (0x1D456, 0x1D49C);
  (0x1D49E, 0x1D49F); (0x1D4A2, 0x1D4A2); (0x1D4A5, 0x1D4A6); (0x1D4A9, 0x1D4AC); (0x1D4AE, 0x1D4B9);
  (0x1D4BB, 0x1D4BB); (0x1D4BD, 0x1D4C3); (0x1D4C5, 0x1D505); (0x1D507, 0x1D50A); (0x1D50D, 0x1D514);
  (0x1D516, 0x1D51C); (0x1D51E, 0x1D539); (0x1D53B, 0x1D53E); (0x1D540, 0x1D544); (0x1D546, 0x1D546);
  (0x1D54A, 0x1D550); (0x1D552, 0x1D6A5); (0x1D6A8, 0x1D6C0); (0x1D6C2, 0x1D6DA); (0x1D6DC, 0x1D6FA);
  (0x1D6FC, 0x1D714); (0x1D716, 0x1D734); (0x1D736, 0x1D74E); (0x1D750, 0x1D76E); (0x1D770, 0x1D788);
  (0x1D78A, 0x1D7A8); (0x1D7AA, 0x1D7C2); (0x1D7C4, 0x1D7CB); (0x1DF00, 0x1DF09); (0x1DF0B, 0x1DF1E);
  (0x1E900, 0x1E943); (0x1F130, 0x1F149); (0x1F150, 0x1F169); (0x1F170, 0x1F189) ].

(** The case-ignorable characters, as ranges. *)
Definition caseIgnorableTable : list (N * N) := [
  (0x27, 0x27); (0x2E, 0x2E); (0x3A, 0x3A); (0x5E, 0x5E); (0x60, 0x60);
  (0xA8, 0xA8); (0xAD, 0xAD); (0xAF, 0xAF); (0xB4, 0xB4); (0xB7, 0xB8);
  (0x2B0, 0x36F); (0x374, 0x375); (0x37A, 0x37A); (0x384, 0x385); (0x387, 0x387);
  (0x483, 0x489); (0x559, 0x559); (0x55F, 0x55F); (0x591, 0x5BD); (0x5BF, 0x5BF);
  (0x5C1, 0x5C2); (0x5C4, 0x5C5); (0x5C7, 0x5C7); (0x5F4, 0x5F4); (0x600, 0x605);
  (0x610, 0x61A); (0x61C, 0x61C); (0x640, 0x640); (0x64B, 0x65F); (0x670, 0x670);
  (0x6D6, 0x6DD); (0x6DF, 0x6E8); (0x6EA, 0x6ED); (0x70F, 0x70F); (0x711, 0x711);
  (0x730, 0x74A); (0x7A6, 0x7B0); (0x7EB, 0x7F5); (0x7FA, 0x7FA); (0x7FD, 0x7FD);
  (0x816, 0x82D); (0x859, 0x85B); (0x888, 0x888); (0x890, 0x891); (0x898, 0x89F);
  (0x8C9, 0x902); (0x93A, 0x93A); (0x93C, 0x93C); (0x941, 0x948); (0x94D, 0x94D);
  (0x951, 0x957); (0x962, 0x963); (0x971, 0x971); (0x981, 0x981); (0x9BC, 0x9BC);
  (0x9C1, 0x9C4); (0x9CD, 0x9CD); (0x9E2, 0x9E3); (0x9FE, 0x9FE); (0xA01, 0xA02);
  (0xA3C, 0xA3C); (0xA41, 0xA42); (0xA47, 0xA48); (0xA4B, 0xA4D); (0xA51, 0xA51);
  (0xA70, 0xA71); (0xA75, 0xA75); (0xA81, 0xA82); (0xABC, 0xABC); (0xAC1, 0xAC5);
  (0xAC7, 0xAC8); (0xACD, 0xACD); (0xAE2, 0xAE3); (0xAFA, 0xAFF); (0xB01, 0xB01);
  (0xB3C, 0xB3C); (0xB3F, 0xB3F); (0xB41, 0xB44); (0xB4D, 0xB4D); (0xB55, 0xB56);
  (0xB62, 0xB63); (0xB82, 0xB82); (0xBC0, 0xBC0); (0xBCD, 0xBCD); (0xC00, 0xC00);
  (0xC04, 0xC04); (0xC3C, 0xC3C); (0xC3E, 0xC40); (0xC46, 0xC48); (0xC4A, 0xC4D);
  (0xC55, 0xC56); (0xC62, 0xC63); (0xC81, 0xC81); (0xCBC, 0xCBC); (0xCBF, 0xCBF);
  (0xCC6, 0xCC6); (0xCCC, 0xCCD); (0xCE2, 0xCE3); (0xD00, 0xD01); (0xD3B, 0xD3C);
  (0xD41, 0xD44); (0xD4D, 0xD4D); (0xD62, 0xD63); (0xD81, 0xD81); (0xDCA, 0xDCA);
  (0xDD2, 0xDD4); (0xDD6, 0xDD6); (0xE31, 0xE31); (0xE34, 0xE3A); (0xE46, 0xE4E);
  (0xEB1, 0xEB1); (0xEB4, 0xEBC); (0xEC6, 0xEC6); (0xEC8, 0xECD); (0xF18, 0xF19);
  (0xF35, 0xF35); (0xF37, 0xF37); (0xF39, 0xF39); (0xF71, 0xF7E); (0xF80, 0xF84);
  (0xF86, 0xF87); (0xF8D, 0xF97); (0xF99, 0xFBC); (0xFC6, 0xFC6); (0x102D, 0x1030);
  (0x1032, 0x1037); (0x1039, 0x103A); (0x103D, 0x103E); (0x1058, 0x1059); (0x105E, 0x1060);
  (0x1071, 0x1074); (0x1082, 0x1082); (0x1085, 0x1086); (0x108D, 0x108D); (0x109D, 0x109D);
  (0x10FC, 0x10FC); (0x135D, 0x135F); (0x1712, 0x1714); (0x1732, 0x1733); (0x1752, 0x1753);
  (0x1772, 0x1773); (0x17B4, 0x17B5); (0x17B7, 0x17BD); (0x17C6, 0x17C6); (0x17C9, 0x17D3);
  (0x17D7, 0x17D7); (0x17DD, 0x17DD); (0x180B, 0x180F); (0x1843, 0x1843); (0x1885, 0x1886);
  (0x18A9, 0x18A9); (0x1920, 0x1922); (0x1927, 0x1928); (0x1932, 0x1932); (0x1939, 0x193B);
  (0x1A17, 0x1A18); (0x1A1B, 0x1A1B); (0x1A56, 0x1A56); (0x1A58, 0x1A5E); (0x1A60, 0x1A60);
  (0x1A62, 0x1A62); (0x1A65, 0x1A6C); (0x1A73, 0x1A7C); (0x1A7F, 0x1A7F); (0x1AA7, 0x1AA7);
  (0x1AB0, 0x1ACE); (0x1B00, 0x1B03); (0x1B34, 0x1B34); (0x1B36, 0x1B3A); (0x1B3C, 0x1B3C);
  (0x1B42, 0x1B42); (0x1B6B, 0x1B73); (0x1B80, 0x1B81); (0x1BA2, 0x1BA5); (0x1BA8, 0x1BA9);
  (0x1BAB, 0x1BAD); (0x1BE6, 0x1BE6); (0x1BE8, 0x1BE9); (0x1BED, 0x1BED); (0x1BEF, 0x1BF1);
  (0x1C2C, 0x1C33); (0x1C36, 0x1C37); (0x1C78, 0x1C7D); (0x1CD0, 0x1CD2); (0x1CD4, 0x1CE0);
  (0x1CE2, 0x1CE8); (0x1CED, 0x1CED); (0x1CF4, 0x1CF4); (0x1CF8, 0x1CF9); (0x1D2C, 0x1D6A);
  (0x1D78, 0x1D78); (0x1D9B, 0x1DFF); (0x1FBD, 0x1FBD); (0x1FBF, 0x1FC1); (0x1FCD, 0x1FCF);
  (0x1FDD, 0x1FDF); (0x1FED, 0x1FEF); (0x1FFD, 0x1FFE); (0x200B, 0x200F); (0x2018, 0x2019);
  (0x2024, 0x2024); (0x2027, 0x2027); (0x202A, 0x202E); (0x2060, 0x2064); (0x2066, 0x206F);
  (0x2071, 0x2071); (0x207F, 0x207F); (0x2090, 0x209C); (0x20D0, 0x20F0); (0x2C7C, 0x2C7D);
  (0x2CEF, 0x2CF1); (0x2D6F, 0x2D6F); (0x2D7F, 0x2D7F); (0x2DE0, 0x2DFF); (0x2E2F, 0x2E2F);
  (0x3005, 0x3005); (0x302A, 0x302D); (0x3031, 0x3035); (0x303B, 0x303B); (0x3099, 0x309E);
  (0x30FC, 0x30FE); (0xA015, 0xA015); (0xA4F8, 0xA4FD); (0xA60C, 0xA60C); (0xA66F, 0xA672);
  (0xA674, 0xA67D); (0xA67F, 0xA67F); (0xA69C, 0xA69F); (0xA6F0, 0xA6F1); (0xA700, 0xA721);
  (0xA770, 0xA770); (0xA788, 0xA78A); (0xA7F2, 0xA7F4); (0xA7F8, 0xA7F9); (0xA802, 0xA802);
  (0xA806, 0xA806); (0xA80B, 0xA80B); (0xA825, 0xA826); (0xA82C, 0xA82C); (0xA8C4, 0xA8C5);
  (0xA8E0, 0xA8F1); (0xA8FF, 0xA8FF); (0xA926, 0xA92D); (0xA947, 0xA951); (0xA980, 0xA982);
  (0xA9B3, 0xA9B3); (0xA9B6, 0xA9B9); (0xA9BC, 0xA9BD); (0xA9CF, 0xA9CF); (0xA9E5, 0xA9E6);
  (0xAA29, 0xAA2E); (0xAA31, 0xAA32); (0xAA35, 0xAA36); (0xAA43, 0xAA43); (0xAA4C, 0xAA4C);
  (0xAA70, 0xAA70); (0xAA7C, 0xAA7C); (0xAAB0, 0xAAB0); (0xAAB2, 0xAAB4); (0xAAB7, 0xAAB8);
  (0xAABE, 0xAABF); (0xAAC1, 0xAAC1); (0xAADD, 0xAADD); (0xAAEC, 0xAAED); (0xAAF3, 0xAAF4);
  (0xAAF6, 0xAAF6); (0xAB5B, 0xAB5F); (0xAB69, 0xAB6B); (0xABE5, 0xABE5); (0xABE8, 0xABE8);
  (0xABED, 0xABED); (0xFB1E, 0xFB1E); (0xFBB2, 0xFBC2); (0xFE00, 0xFE0F); (0xFE13, 0xFE13);
  (0xFE20, 0xFE2F); (0xFE52, 0xFE52); (0xFE55, 0xFE55); (0xFEFF, 0xFEFF); (0xFF07, 0xFF07);
  (0xFF0E, 0xFF0E); (0xFF1A, 0xFF1A); (0xFF3E, 0xFF3E); (0xFF40, 0xFF40); (0xFF70, 0xFF70);
  (0xFF9E, 0xFF9F); (0xFFE3, 0xFFE3); (0xFFF9, 0xFFFB); (0x101FD, 0x101FD); (0x102E0, 0x102E0);
  (0x10376, 0x1037A); (0x10780, 0x10785); (0x10787, 0x107B0); (0x107B2, 0x107BA); (0x10A01, 0x10A03);
  (0x10A05, 0x10A06); (0x10A0C, 0x10A0F); (0x10A38, 0x10A3A); (0x10A3F, 0x10A3F); (0x10AE5, 0x10AE6);
  (0x10D24, 0x10D27); (0x10EAB, 0x10EAC); (0x10F46, 0x10F50); (0x10F82, 0x10F85); (0x11001, 0x11001);
  (0x11038, 0x11046); (0x11070, 0x11070); (0x11073, 0x11074); (0x1107F, 0x11081); (0x110B3, 0x110B6);
  (0x110B9, 0x110BA); (0x110BD, 0x110BD); (0x110C2, 0x110C2); (0x110CD, 0x110CD); (0x11100, 0x11102);
  (0x11127, 0x1112B); (0x1112D, 0x11134); (0x11173, 0x11173); (0x11180, 0x11181); (0x111B6, 0x111BE);
  (0x111C9, 0x111CC); (0x111CF, 0x111CF); (0x1122F, 0x11231); (0x11234, 0x11234); (0x11236, 0x11237);
  (0x1123E, 0x1123E); (0x112DF, 0x112DF); (0x112E3, 0x112EA); (0x11300, 0x11301); (0x1133B, 0x1133C);
  (0x11340, 0x11340); (0x11366, 0x1136C); (0x11370, 0x11374); (0x11438, 0x1143F); (0x11442, 0x11444);
  (0x11446, 0x11446); (0x1145E, 0x1145E); (0x114B3, 0x114B8); (0x114BA, 0x114BA); (0x114BF, 0x114C0);
  (0x114C2, 0x114C3); (0x115B2, 0x115B5); (0x115BC, 0x115BD); (0x115BF, 0x115C0); (0x115DC, 0x115DD);
  (0x11633, 0x1163A); (0x1163D, 0x1163D); (0x1163F, 0x11640); (0x116AB, 0x116AB); (0x116AD, 0x116AD);
  (0x116B0, 0x116B5); (0x116B7, 0x116B7); (0x1171D, 0x1171F); (0x11722, 0x11725); (0x11727, 0x1172B);
  (0x1182F, 0x11837); (0x11839, 0x1183A); (0x1193B, 0x1193C); (0x1193E, 0x1193E); (0x11943, 0x11943);
  (0x119D4, 0x119D7); (0x119DA, 0x119DB); (0x119E0, 0x119E0); (0x11A01, 0x11A0A); (0x11A33, 0x11A38);
  (0x11A3B, 0x11A3E); (0x11A47, 0x11A47); (0x11A51, 0x11A56); (0x11A59, 0x11A5B); (0x11A8A, 0x11A96);
  (0x11A98, 0x11A99); (0x11C30, 0x11C36); (0x11C38, 0x11C3D); (0x11C3F, 0x11C3F); (0x11C92, 0x11CA7);
  (0x11CAA, 0x11CB0); (0x11CB2, 0x11CB3); (0x11CB5, 0x11CB6); (0x11D31, 0x11D36); (0x11D3A, 0x11D3A);
  (0x11D3C, 0x11D3D); (0x11D3F, 0x11D45); (0x11D47, 0x11D47); (0x11D90, 0x11D91); (0x11D95, 0x11D95);
  (0x11D97, 0x11D97); (0x11EF3, 0x11EF4); (0x13430, 0x13438); (0x16AF0, 0x16AF4); (0x16B30, 0x16B36);
  (0x16B40, 0x16B43); (0x16F4F, 0x16F4F); (0x16F8F, 0x16F9F); (0x16FE0, 0x16FE1); (0x16FE3, 0x16FE4);
  (0x1AFF0, 0x1AFF3); (0x1AFF5, 0x1AFFB); (0x1AFFD, 0x1AFFE); (0x1BC9D, 0x1BC9E); (0x1BCA0, 0x1BCA3);
  (0x1CF00, 0x1CF2D); (0x1CF30, 0x1CF46); (0x1D167, 0x1D169); (0x1D173, 0x1D182); (0x1D185, 0x1D18B);
  (0x1D1AA, 0x1D1AD); (0x1D242, 0x1D244); (0x1DA00, 0x1DA36); (0x1DA3B, 0x1DA6C); (0x1DA75, 0x1DA75);
  (0x1DA84, 0x1DA84); (0x1DA9B, 0x1DA9F); (0x1DAA1, 0x1DAAF); (0x1E000, 0x1E006); (0x1E008, 0x1E018);
  (0x1E01B, 0x1E021); (0x1E023, 0x1E024); (0x1E026, 0x1E02A); (0x1E130, 0x1E13D); (0x1E2AE, 0x1E2AE);
  (0x1E2EC, 0x1E2EF); (0x1E8D0, 0x1E8D6); (0x1E944, 0x1E94B); (0x1F3FB, 0x1F3FF); (0xE0001, 0xE0001);
  (0xE0020, 0xE007F); (0xE0100, 0xE01EF) ].

Fixpoint in_ranges (table : list (N * N)) (cp : N) : bool :=
  match table with
  | [] => false
  | (first, last) :: table' => (first <=? cp) && (cp <=? last) || in_ranges table' cp
  end.

Fixpoint lookup_lower (table : list (N * N * N * N)) (cp : N) : N :=
  match table with
  | [] => cp
  | (first, last, step, lower) :: table' =>
      if (first <=? cp) && (cp <=? last) && ((cp - first) mod step =? 0)
      then lower + (cp - first)
      else lookup_lower table' cp
  end.

Definition case_ignorable (cp : N) : bool := in_ranges caseIgnorableTable cp.
Definition cased (cp : N) : bool := in_ranges casedTable cp.

Definition is_continuation (c : ascii) : bool := (0x80 <=? byte c) && (byte c <=? 0xBF).

(** The code points of a string.  A byte that is not part of a well-formed
    UTF-8 sequence (no text of the program holds one) is kept as the value
    [0x110000 + byte], which no mapping touches. *)
Fixpoint code_points (s : string) : list N :=
  match s with
  | EmptyString => []
  | String c r =>
      let b := byte c in
      let stray := (0x110000 + b) :: code_points r in
      if b <? 0x80 then b :: code_points r
      else
        match r with
        | String c2 r2 =>
            if (0xC2 <=? b) && (b <=? 0xDF) && is_continuation c2
            then ((b - 0xC0) * 64 + (byte c2 - 0x80)) :: code_points r2
            else
              match r2 with
              | String c3 r3 =>
                  let cp3 := (b - 0xE0) * 4096 + (byte c2 - 0x80) * 64 + (byte c3 - 0x80) in
                  if (0xE0 <=? b) && (b <=? 0xEF) && is_continuation c2 && is_continuation c3
                     && (0x800 <=? cp3) && negb ((0xD800 <=? cp3) && (cp3 <=? 0xDFFF))
                  then cp3 :: code_points r3
                  else
                    match r3 with
                    | String c4 r4 =>
                        let cp4 := (b - 0xF0) * 262144 + (byte c2 - 0x80) * 4096
                                   + (byte c3 - 0x80) * 64 + (byte c4 - 0x80) in
                        if (0xF0 <=? b) && (b <=? 0xF4) && is_continuation c2
                           && is_continuation c3 && is_continuation c4
                           && (0x10000 <=? cp4) && (cp4 <=? 0x10FFFF)
                        then cp4 :: code_points r4
                        else stray
                    | EmptyString => stray
                    end
              | EmptyString => stray
              end
        | EmptyString => stray
        end
  end.

Definition bytes (l : list N) : string :=
  fold_right (fun b s => String (ascii_of_N b) s) EmptyString l.

(** The UTF-8 bytes of a code point. *)
Definition utf8 (cp : N) : string :=
  if cp <? 0x80 then bytes [cp]
  else if cp <? 0x800 then bytes [0xC0 + cp / 64; 0x80 + cp mod 64]
  else if cp <? 0x10000 then bytes [0xE0 + cp / 4096; 0x80 + cp / 64 mod 64; 0x80 + cp mod 64]
  else if cp <? 0x110000
  then bytes [0xF0 + cp / 262144; 0x80 + cp / 4096 mod 64; 0x80 + cp / 64 mod 64;
              0x80 + cp mod 64]
  else bytes [cp - 0x110000].

(** After zero or more case-ignorable characters comes a cased letter. *)
Fixpoint followed_by_cased (l : list N) : bool :=
  match l with
  | [] => false
  | cp :: l' => if case_ignorable cp then followed_by_cased l' else cased cp
  end.

(** [before]: the nearest character before that is not case-ignorable is a
    cased letter. *)
Fixpoint lower_code_points (before : bool) (l : list N) : list N :=
  match l with
  | [] => []
  | cp :: l' =>
      (if cp =? 0x3A3 then [if before && negb (followed_by_cased l') then 0x3C2 else 0x3C3]
       else if cp =? 0x130 then [0x69; 0x307]
       else [lookup_lower lowerTable cp])
      ++ lower_code_points (if case_ignorable cp then before else cased cp) l'
  end.

Local Close Scope N_scope.

(** [String.prototype.toLowerCase]. *)
Definition toLowerCase (s : string) : string :=
  String.concat "" (List.map utf8 (lower_code_points false (code_points s))).

(** [s.includes(needle)]. *)
Fixpoint includes (s needle : string) : bool :=
  if String.prefix needle s then true
  else match s with
       | EmptyString => false
       | String _ r => includes r needle
       end.

(** [s.substring(0, n)]. *)
Definition substring_to (n : nat) (s : string) : string := String.substring 0 n s.

(** [s.replace(/[^a-z]/g, '')]. *)
Fixpoint strip_non_letters (s : string) : string :=
  match s with
  | EmptyString => EmptyString
  | String c r => if is_lower c then String c (strip_non_letters r) else strip_non_letters r
  end.

(** The longest prefix matched by [\d*], and what follows it. *)
Fixpoint span_digits (s : string) : string * string :=
  match s with
  | String c r =>
      if is_digit c then let (d, rest) := span_digits r in (String c d, rest)
      else (EmptyString, s)
  | EmptyString => (EmptyString, EmptyString)
  end.

Definition is_ascii_space (c : ascii) : bool :=
  ((9 <=? byte c)%N && (byte c <=? 13)%N) || (byte c =? 32)%N.

(** The three-byte encodings of the white space and line terminator code
    points: U+1680, U+2000..U+200A, U+2028, U+2029, U+202F, U+205F, U+3000
    and U+FEFF. *)
Definition is_space3 (a b c : N) : bool :=
  ((a =? 0xE1) && (b =? 0x9A) && (c =? 0x80)
   || (a =? 0xE2) && (b =? 0x80)
        && ((0x80 <=? c) && (c <=? 0x8A) || (c =? 0xA8) || (c =? 0xA9) || (c =? 0xAF))
   || (a =? 0xE2) && (b =? 0x81) && (c =? 0x9F)
   || (a =? 0xE3) && (b =? 0x80) && (c =? 0x80)
   || (a =? 0xEF) && (b =? 0xBB) && (c =? 0xBF))%N.

(** What follows the longest prefix matched by [\s*] (U+00A0 is C2 A0). *)
Fixpoint skip_whitespace (s : string) : string :=
  match s with
  | EmptyString => s
  | String c r =>
      if is_ascii_space c then skip_whitespace r
      else
        match r with
        | EmptyString => s
        | String c2 r2 =>
            if (byte c =? 0xC2)%N && (byte c2 =? 0xA0)%N then skip_whitespace r2
            else
              match r2 with
              | EmptyString => s
              | String c3 r3 =>
                  if is_space3 (byte c) (byte c2) (byte c3) then skip_whitespace r3 else s
              end
        end
  end.

(** [pat], made of lower-case ASCII letters, matches a prefix of [s] under
    the flag [i]; the result is the text matched. *)
Fixpoint match_letters (pat s : string) : option string :=
  match pat, s with
  | EmptyString, _ => Some EmptyString
  | String p pat', String c r =>
      if Ascii.eqb (lower_ascii c) p then
        match match_letters pat' r with
        | Some m => Some (String c m)
        | None => None
        end
      else None
  | String _ _, EmptyString => None
  end.

(** The micro sign U+00B5 (C2 B5) under the flag [i]: it is matched by
    itself and by the two letters with the same upper-case form, U+039C
    (CE 9C) and U+03BC (CE BC). *)
Definition match_micro_g (s : string) : option string :=
  match s with
  | String c1 (String c2 (String c3 _)) =>
      if ((byte c1 =? 0xC2) && (byte c2 =? 0xB5)
          || (byte c1 =? 0xCE) && ((byte c2 =? 0x9C) || (byte c2 =? 0xBC)))%N
         && Ascii.eqb (lower_ascii c3) "g"
      then Some (String c1 (String c2 (String c3 EmptyString)))
      else None
  | _ => None
  end.

(** The alternation [(mg|g|ml|mcg|µg)] at the head of [s], first alternative
    first. *)
Definition match_unit (s : string) : option string :=
  match match_letters "mg" s with
  | Some u => Some u
  | None =>
  match match_letters "g" s with
  | Some u => Some u
  | None =>
  match match_letters "ml" s with
  | Some u => Some u
  | None =>
  match match_letters "mcg" s with
  | Some u => Some u
  | None => match_micro_g s
  end end end end.

(** A match of [/(\d+(?:\.\d+)?)\s*(mg|g|ml|mcg|µg)/i] starting at the head
    of [s]: the two captured groups.  Each quantifier takes all it can: the
    unit cannot start with a digit, a dot or white space, so no shorter
    choice of the matcher can succeed where the longest one fails. *)
Definition match_strength_here (s : string) : option (string * string) :=
  let (int_part, r1) := span_digits s in
  match int_part with
  | EmptyString => None
  | _ =>
      let (number_text, r2) :=
        match r1 with
        | String "." r =>
            let (frac_part, r') := span_digits r in
            match frac_part with
            | EmptyString => (int_part, r1)
            | _ => (int_part +:+ "." +:+ frac_part, r')
            end
        | _ => (int_part, r1)
        end in
      match match_unit (skip_whitespace r2) with
      | Some u => Some (number_text, u)
      | None => None
      end
  end.

(** [s.match(/(\d+(?:\.\d+)?)\s*(mg|g|ml|mcg|µg)/i)]: the leftmost match,
    [None] for [null]. *)
Fixpoint match_strength (s : string) : option (string * string) :=
  match match_strength_here s with
  | Some m => Some m
  | None =>
      match s with
      | EmptyString => None
      | String _ r => match_strength r
      end
  end.

(** The value of a run of decimal digits. *)
Fixpoint digits_value (acc : Z) (s : string) : Z :=
  match s with
  | EmptyString => acc
  | String c r => digits_value (10 * acc + Z.of_N (byte c - 48))%Z r
  end.

(** [parseFloat] on the texts the first group captures, [digits] or
    [digits.digits]: the decimal value, rounded to a Number.  Other inputs of
    [parseFloat] (signs, exponents, leading white space) do not occur. *)
Definition parseFloat (s : string) : number :=
  let (int_part, r) := span_digits s in
  match int_part with
  | EmptyString => NaN
  | _ =>
      let frac_part := match r with String "." f => fst (span_digits f) | _ => EmptyString end in
      round64 (digits_value 0 (int_part +:+ frac_part)
                 # Z.to_pos (10 ^ Z.of_nat (String.length frac_part)))
  end.

End JSString.

Import JSString.

(** ** The records of [types/pharmacy.ts] *)

#[global] Instance Q_eq_dec : EqDecision Q.
Proof. solve_decision. Defined.

#[global] Instance number_eq_dec : EqDecision number.
Proof. solve_decision. Defined.

Module Drug.
Record t : Type := mk {
  id : string;
  name : string;
  genericName : string;
  brandName : string;
  activeMolecule : string;
  dosage : string;
  dosageForm : string;
  strength : string;
  manufacturer : string;
  barcode : option string;
  category : string;
  isControlled : bool;
  requiresPrescription : bool;
  expiryDate : option string;
  batchNumber : option string;
  stockLevel : number;
  minStockLevel : number;
  maxStockLevel : number;
  unitPrice : number;
  isCustom : bool;
  createdAt : string;
  updatedAt : string;
  userId : string
}.

#[global] Instance eq_dec : EqDecision t.
Proof. solve_decision. Defined.
End Drug.

Module SubstitutionRule.
Record t : Type := mk {
  id : string;
  activeMolecule : string;
  dosage : string;
  dosageForm : string;
  equivalentDrugs : list string;
  substitutionRatio : number;
  notes : option string;
  isActive : bool;
  createdAt : string;
  userId : string
}.
End SubstitutionRule.

Module MatchType.
Inductive t : Type := exact | equivalent | similar.
End MatchType.

Module SubstitutionSuggestion.
Record t : Type := mk {
  drug : Drug.t;
  matchType : MatchType.t;
  confidence : number;
  reason : string;
  dosageAdjustment : option string;
  warnings : option (list string)
}.
End SubstitutionSuggestion.

Import SubstitutionSuggestion.

(** ** Completions

    A call either returns a value or throws.  The engine has no [throw]
    statement; the one exception it can raise is the [TypeError] of reading a
    property of [null] or [undefined]. *)

Inductive exn : Type := TypeError.

Inductive completion (A : Type) : Type :=
| Normal (a : A)
| Throw (e : exn).
Arguments Normal {A} a.
Arguments Throw {A} e.

Definition bind {A B : Type} (c : completion A) (k : A -> completion B) : completion B :=
  match c with
  | Normal a => k a
  | Throw e => Throw e
  end.

Notation "x <- c ;; k" := (bind c (fun x => k))
  (at level 100, c at next level, right associativity).

(** [l.filter(f)] and [l.map(f)] for a callback that may throw: the callback
    runs on the elements in order and the first exception ends the call. *)
Fixpoint filterC {A : Type} (f : A -> completion bool) (l : list A) : completion (list A) :=
  match l with
  | [] => Normal []
  | x :: l' =>
      b <- f x ;;
      r <- filterC f l' ;;
      Normal (if b : bool then x :: r else r)
  end.

Fixpoint mapC {A B : Type} (f : A -> completion B) (l : list A) : completion (list B) :=
  match l with
  | [] => Normal []
  | x :: l' =>
      y <- f x ;;
      r <- mapC f l' ;;
      Normal (y :: r)
  end.

(** Reading a property of a value that may be [null]. *)
Definition deref {A : Type} (o : option A) : completion A :=
  match o with
  | Some a => Normal a
  | None => Throw TypeError
  end.

(** ** [Array.prototype.sort]

    The sort is stable.  [comparefn a b > 0] places [a] after [b]; a result
    that is NaN counts as zero.  For a comparator that orders the elements
    consistently the result is the same for every stable algorithm; this is
    insertion from the right.  When the comparator is not consistent, as
    [b.confidence - a.confidence] is once a confidence is NaN, the standard
    leaves the order to the implementation: the list this function gives is
    then one of the orders the standard allows, a permutation of its
    argument, and need not be the order of a given engine.  No property
    below relies on the order in that case beyond a list of two elements,
    where both orders are covered. *)

Section Sort.
Context {A : Type} (comparefn : A -> A -> number).

Fixpoint sort_insert (x : A) (l : list A) : list A :=
  match l with
  | [] => [x]
  | y :: l' => if gtb (comparefn x y) (int 0) then y :: sort_insert x l' else x :: l
  end.

Definition sort (l : list A) : list A := fold_right sort_insert [] l.
End Sort.

(** ** The engine *)

Record SubstitutionEngine : Type := {
  drugs : list Drug.t;
  substitutionRules : list SubstitutionRule.t
}.

(** [new SubstitutionEngine(drugs, rules = [])]. *)
Definition new (drugs : list Drug.t) (rules : option (list SubstitutionRule.t)) : SubstitutionEngine :=
  {| drugs := drugs; substitutionRules := default [] rules |}.

(** [updateData(drugs, rules = [])]. *)
Definition updateData (this : SubstitutionEngine) (drugs : list Drug.t)
    (rules : option (list SubstitutionRule.t)) : SubstitutionEngine :=
  {| drugs := drugs; substitutionRules := default [] rules |}.

(** [parseStrength]: the strength in milligrams, [None] for [null]. *)
Definition parseStrength (dosage : string) : option number :=
  match match_strength dosage with
  | None => None
  | Some (m1, m2) =>
      let value := parseFloat m1 in
      let unit := toLowerCase m2 in
      Some (if (unit =? "g")%string then mul value (int 1000)
            else if (unit =? "mcg")%string || (unit =? "µg")%string then div value (int 1000)
            else value)
  end.

(** [haveSimilarNames]. *)
Definition haveSimilarNames (name1 name2 : string) : bool :=
  let clean1 := strip_non_letters (toLowerCase name1) in
  let clean2 := strip_non_letters (toLowerCase name2) in
  includes clean1 (substring_to 4 clean2) || includes clean2 (substring_to 4 clean1).

(** [calculateEquivalentConfidence]. *)
Definition calculateEquivalentConfidence (target candidate : Drug.t) : number :=
  let confidence := int 80 in
  let confidence :=
    if (toLowerCase (Drug.dosageForm target) =? toLowerCase (Drug.dosageForm candidate))%string
    then add confidence (int 10) else confidence in
  let confidence :=
    match parseStrength (Drug.dosage target), parseStrength (Drug.dosage candidate) with
    | Some targetStrength, Some candidateStrength =>
        if ToBoolean targetStrength && ToBoolean candidateStrength then
          let ratio := div (min targetStrength candidateStrength)
                           (max targetStrength candidateStrength) in
          add confidence (floor (mul ratio (int 10)))
        else confidence
    | _, _ => confidence
    end in
  let confidence :=
    if negb (Drug.brandName target =? "")%string && negb (Drug.brandName candidate =? "")%string
    then add confidence (int 5)
    else if (Drug.brandName target =? "")%string && (Drug.brandName candidate =? "")%string
    then add confidence (int 5)
    else confidence in
  min confidence (int 90).

(** [getSubstitutionWarnings]. *)
Definition getSubstitutionWarnings (target candidate : Drug.t) : list string :=
  let warnings := [] in
  let warnings :=
    if negb (toLowerCase (Drug.dosageForm target) =? toLowerCase (Drug.dosageForm candidate))%string
    then warnings ++ ["Different dosage form: " +:+ Drug.dosageForm target +:+ " → "
                        +:+ Drug.dosageForm candidate]
    else warnings in
  let warnings :=
    if Drug.isControlled target || Drug.isControlled candidate
    then warnings ++ ["Controlled substance - verify prescription requirements"]
    else warnings in
  let warnings :=
    if negb (Drug.manufacturer target =? Drug.manufacturer candidate)%string
       && includes (toLowerCase (Drug.category target)) "cardiac"
    then warnings ++ ["Different manufacturer - monitor patient response"]
    else warnings in
  warnings.

(** [calculateTherapeuticSimilarity]. *)
Definition calculateTherapeuticSimilarity (target candidate : Drug.t) : number :=
  let similarity := int 40 in
  let similarity :=
    if (toLowerCase (Drug.dosageForm target) =? toLowerCase (Drug.dosageForm candidate))%string
    then add similarity (int 20) else similarity in
  let similarity :=
    if haveSimilarNames (Drug.genericName target) (Drug.genericName candidate)
    then add similarity (int 15) else similarity in
  min similarity (int 75).

(** [findSimilarByTherapeuticClass]: the pairs [{drug, similarity}]. *)
Definition findSimilarByTherapeuticClass (target : Drug.t) (searchPool : list Drug.t)
    : list (Drug.t * number) :=
  List.filter (fun item => geb (snd item) (int 30))
    (List.map (fun drug => (drug, calculateTherapeuticSimilarity target drug))
       (List.filter
          (fun drug =>
             (toLowerCase (Drug.category drug) =? toLowerCase (Drug.category target))%string
             && negb (toLowerCase (Drug.activeMolecule drug)
                        =? toLowerCase (Drug.activeMolecule target))%string)
          searchPool)).

(** [deduplicateAndSort].  The callback of [filter] reads and extends the
    set [seen]; the set is threaded through the traversal. *)
Fixpoint filter_unseen (seen : gset string) (suggestions : list SubstitutionSuggestion.t)
    : list SubstitutionSuggestion.t :=
  match suggestions with
  | [] => []
  | suggestion :: rest =>
      if bool_decide (Drug.id (drug suggestion) ∈ seen) then filter_unseen seen rest
      else suggestion :: filter_unseen ({[Drug.id (drug suggestion)]} ∪ seen) rest
  end.

Definition deduplicateAndSort (suggestions : list SubstitutionSuggestion.t)
    : list SubstitutionSuggestion.t :=
  let unique := filter_unseen ∅ suggestions in
  sort (fun a b => sub (confidence b) (confidence a)) unique.

(** ** Objects at run time

    The declared types are not checked at run time.  [AddDrugModal] builds
    the drugs it adds with a property [form] and without [dosageForm] and
    casts them to [Drug]; the page appends them to the catalog it hands to
    the panel and so to the engine.  A drug object holds the properties the
    engine reads, each present or absent; an absent property reads as
    [undefined]. *)

Module DrugObject.
Record t : Type := mk {
  id : option string;
  genericName : option string;
  brandName : option string;
  activeMolecule : option string;
  dosage : option string;
  dosageForm : option string;
  manufacturer : option string;
  category : option string;
  isControlled : option bool;
  stockLevel : option number
}.

#[global] Instance eq_dec : EqDecision t.
Proof. solve_decision. Defined.
End DrugObject.

Module SuggestionObject.
Record t : Type := mk {
  drug : DrugObject.t;
  matchType : MatchType.t;
  confidence : number;
  reason : string;
  dosageAdjustment : option string;
  warnings : option (list string)
}.
End SuggestionObject.

(** [a === b] on two strings that may be [undefined]. *)
Definition same_string (a b : option string) : bool :=
  match a, b with
  | Some x, Some y => (x =? y)%string
  | None, None => true
  | _, _ => false
  end.

(** A value in a template literal. *)
Definition template (x : option string) : string := default "undefined" x.

(** ToBoolean on a string or a boolean that may be [undefined]. *)
Definition truthy_string (x : option string) : bool :=
  match x with
  | Some s => negb (s =? "")%string
  | None => false
  end.

Definition truthy_bool (x : option bool) : bool := default false x.

(** [x > 0] on a number that may be [undefined]. *)
Definition above_zero (x : option number) : bool :=
  match x with
  | Some n => gtb n (int 0)
  | None => false
  end.

(** [x.toLowerCase()] on a string that may be [undefined]. *)
Definition lowered (x : option string) : completion string :=
  s <- deref x ;; Normal (toLowerCase s).

Module Runtime.
Record SubstitutionEngine : Type := {
  drugs : list DrugObject.t;
  substitutionRules : list SubstitutionRule.t
}.

Definition new (drugs : list DrugObject.t) (rules : option (list SubstitutionRule.t))
    : SubstitutionEngine :=
  {| drugs := drugs; substitutionRules := default [] rules |}.
End Runtime.

(** [Number::toString] on a finite Number prints the shortest decimal that
    reads back as the same double; where several qualify the standard leaves
    the last digit to the implementation.  The conversion is an interface of
    the host. *)
Class NumberToString : Type := finiteToString : Q -> string.

Section Engine.
Context `{printer : NumberToString}.

Definition ToString (x : number) : string :=
  match x with
  | Finite q => finiteToString q
  | PosInf => "Infinity"
  | NegInf => "-Infinity"
  | NaN => "NaN"
  end.

(** [x.toFixed(f)]: the decimal with [f] digits after the point nearest to
    [x], the larger one on a tie. *)
Definition toFixed (x : number) (f : nat) : string :=
  match x with
  | Finite q =>
      let s := if Qle_bool 0 q then "" else "-" in
      let a := Qabs q in
      if Qle_bool (inject_Z (10 ^ 21)) a then s +:+ finiteToString a
      else
        let n := Qfloor (a * inject_Z (10 ^ Z.of_nat f) + (1 # 2)) in
        let m := NilZero.string_of_uint (N.to_uint (Z.to_N n)) in
        let m :=
          match f with
          | O => m
          | _ =>
              let m := String.concat "" (repeat "0" (S f - String.length m)) +:+ m in
              let k := String.length m in
              String.substring 0 (k - f) m +:+ "." +:+ String.substring (k - f) f m
          end in
        s +:+ m
  | _ => ToString x
  end.

(** [calculateDosageAdjustment]; [None] for [undefined]. *)
Definition calculateDosageAdjustment (target candidate : Drug.t) : option string :=
  match parseStrength (Drug.dosage target), parseStrength (Drug.dosage candidate) with
  | Some targetStrength, Some candidateStrength =>
      if negb (ToBoolean targetStrength) || negb (ToBoolean candidateStrength) then None
      else
        let ratio := div targetStrength candidateStrength in
        if strict_eqb ratio (int 1) then None
        else if gtb ratio (int 1) then
          Some ("Take " +:+ toFixed ratio 1 +:+ "x the usual dose (" +:+ Drug.dosage candidate
                  +:+ " → equivalent to " +:+ Drug.dosage target +:+ ")")
        else
          Some ("Take " +:+ toFixed (div (int 1) ratio) 1 +:+ "x less (" +:+ Drug.dosage candidate
                  +:+ " → equivalent to " +:+ Drug.dosage target +:+ ")")
  | _, _ => None
  end.

(** The objects pushed on [suggestions] by the four [forEach] callbacks. *)
Definition exactSuggestion (drug : Drug.t) : SubstitutionSuggestion.t :=
  {| drug := drug;
     matchType := MatchType.exact;
     confidence := int 95;
     reason := "Same active molecule (" +:+ Drug.activeMolecule drug +:+ "), dosage ("
               +:+ Drug.dosage drug +:+ "), and form (" +:+ Drug.dosageForm drug +:+ ")";
     dosageAdjustment := None;
     warnings := None |}.

Definition equivalentSuggestion (targetDrug drug : Drug.t) : SubstitutionSuggestion.t :=
  let confidence := calculateEquivalentConfidence targetDrug drug in
  let dosageAdjustment := calculateDosageAdjustment targetDrug drug in
  let warnings := getSubstitutionWarnings targetDrug drug in
  {| drug := drug;
     matchType := MatchType.equivalent;
     confidence := confidence;
     reason := "Same active molecule (" +:+ Drug.activeMolecule drug +:+ ") with "
               +:+ Drug.dosage drug +:+ " " +:+ Drug.dosageForm drug;
     dosageAdjustment := dosageAdjustment;
     warnings := Some warnings |}.

Definition similarSuggestion (item : Drug.t * number) : SubstitutionSuggestion.t :=
  let '(drug, similarity) := item in
  {| drug := drug;
     matchType := MatchType.similar;
     confidence := similarity;
     reason := "Similar therapeutic class (" +:+ Drug.category drug +:+ ")";
     dosageAdjustment := None;
     warnings := Some ["Different active molecule - consult pharmacist before substitution"] |}.

Definition ruleSuggestion (rule : SubstitutionRule.t) (drug : Drug.t) : SubstitutionSuggestion.t :=
  {| drug := drug;
     matchType := MatchType.equivalent;
     confidence := int 85;
     reason :=
       "Custom substitution rule: "
       +:+ match SubstitutionRule.notes rule with
           | Some text => if (text =? "")%string then "Pharmacy-approved equivalent" else text
           | None => "Pharmacy-approved equivalent"
           end;
     dosageAdjustment :=
       if negb (strict_eqb (SubstitutionRule.substitutionRatio rule) (int 1))
       then Some ("Adjust dose by factor of "
                    +:+ ToString (SubstitutionRule.substitutionRatio rule))
       else None;
     warnings := None |}.

(** The two nested [forEach] of [applySubstitutionRules]: for each rule and
    each listed identifier, the first drug of the pool with that
    identifier, if there is one. *)
Definition resolveRules (applicableRules : list SubstitutionRule.t) (searchPool : list Drug.t)
    : list SubstitutionSuggestion.t :=
  flat_map
    (fun rule =>
       flat_map
         (fun drugId =>
            match List.find (fun d => (Drug.id d =? drugId)%string) searchPool with
            | Some drug => [ruleSuggestion rule drug]
            | None => []
            end)
         (SubstitutionRule.equivalentDrugs rule))
    applicableRules.

(** [applySubstitutionRules]. *)
Definition applySubstitutionRules (this : SubstitutionEngine) (target : Drug.t)
    (searchPool : list Drug.t) : list SubstitutionSuggestion.t :=
  let applicableRules :=
    List.filter
      (fun rule =>
         SubstitutionRule.isActive rule
         && (toLowerCase (SubstitutionRule.activeMolecule rule)
               =? toLowerCase (Drug.activeMolecule target))%string
         && (SubstitutionRule.dosage rule =? Drug.dosage target)%string
         && (toLowerCase (SubstitutionRule.dosageForm rule)
               =? toLowerCase (Drug.dosageForm target))%string)
      (substitutionRules this) in
  resolveRules applicableRules searchPool.

(** [findSubstitutes(targetDrug, availableOnly = true)], for a target of the
    declared type [Drug].  Each [forEach] that pushes on [suggestions] is the
    concatenation of the objects it pushes.  [exactMatches.includes(drug)]
    compares references; it is rendered by membership up to equality of
    values, which gives the same answer on the drugs of the pool (lemma
    [includes_exactMatches]). *)
Definition findSubstitutes (this : SubstitutionEngine) (targetDrug : Drug.t)
    (availableOnly : option bool) : list SubstitutionSuggestion.t :=
  let availableOnly := default true availableOnly in
  let suggestions := [] in
  let searchPool :=
    if availableOnly
    then List.filter
           (fun drug => gtb (Drug.stockLevel drug) (int 0)
                        && negb (Drug.id drug =? Drug.id targetDrug)%string)
           (drugs this)
    else List.filter (fun drug => negb (Drug.id drug =? Drug.id targetDrug)%string)
           (drugs this) in
  (* 1. Exact matches *)
  let exactMatches :=
    List.filter
      (fun drug =>
         (toLowerCase (Drug.activeMolecule drug)
            =? toLowerCase (Drug.activeMolecule targetDrug))%string
         && (Drug.dosage drug =? Drug.dosage targetDrug)%string
         && (toLowerCase (Drug.dosageForm drug)
               =? toLowerCase (Drug.dosageForm targetDrug))%string)
      searchPool in
  let suggestions := suggestions ++ List.map exactSuggestion exactMatches in
  (* 2. Equivalent matches *)
  let equivalentMatches :=
    List.filter
      (fun drug =>
         (toLowerCase (Drug.activeMolecule drug)
            =? toLowerCase (Drug.activeMolecule targetDrug))%string
         && negb (bool_decide (drug ∈ exactMatches)))
      searchPool in
  let suggestions := suggestions ++ List.map (equivalentSuggestion targetDrug) equivalentMatches in
  (* 3. Similar matches *)
  let similarMatches := findSimilarByTherapeuticClass targetDrug searchPool in
  let suggestions := suggestions ++ List.map similarSuggestion similarMatches in
  (* 4. Custom substitution rules *)
  let ruleBasedSuggestions := applySubstitutionRules this targetDrug searchPool in
  let suggestions := suggestions ++ ruleBasedSuggestions in
  deduplicateAndSort suggestions.

(** *** The methods on the objects of run time

    The signature declares [targetDrug: Drug], and the caller
    ([SubstitutionPanel]) only calls with a target that is not [null].  At
    run time nothing checks the argument or the catalog: a read of a
    property of a missing target, and a call of [toLowerCase] or [match] on
    a property that is absent, throw [TypeError] at the point where they are
    evaluated; [&&] and [||] evaluate their second operand only when the
    first does not decide. *)

Definition parseStrengthJS (dosage : option string) : completion (option number) :=
  text <- deref dosage ;; Normal (parseStrength text).

Definition haveSimilarNamesJS (name1 name2 : option string) : completion bool :=
  n1 <- deref name1 ;;
  n2 <- deref name2 ;;
  Normal (haveSimilarNames n1 n2).

Definition calculateEquivalentConfidenceJS (target candidate : DrugObject.t)
    : completion number :=
  let confidence := int 80 in
  targetForm <- lowered (DrugObject.dosageForm target) ;;
  candidateForm <- lowered (DrugObject.dosageForm candidate) ;;
  let confidence :=
    if (targetForm =? candidateForm)%string then add confidence (int 10) else confidence in
  targetStrength <- parseStrengthJS (DrugObject.dosage target) ;;
  candidateStrength <- parseStrengthJS (DrugObject.dosage candidate) ;;
  let confidence :=
    match targetStrength, candidateStrength with
    | Some targetStrength, Some candidateStrength =>
        if ToBoolean targetStrength && ToBoolean candidateStrength then
          let ratio := div (min targetStrength candidateStrength)
                           (max targetStrength candidateStrength) in
          add confidence (floor (mul ratio (int 10)))
        else confidence
    | _, _ => confidence
    end in
  let confidence :=
    if truthy_string (DrugObject.brandName target)
       && truthy_string (DrugObject.brandName candidate)
    then add confidence (int 5)
    else if negb (truthy_string (DrugObject.brandName target))
            && negb (truthy_string (DrugObject.brandName candidate))
    then add confidence (int 5)
    else confidence in
  Normal (min confidence (int 90)).

Definition calculateDosageAdjustmentJS (target candidate : DrugObject.t)
    : completion (option string) :=
  targetStrength <- parseStrengthJS (DrugObject.dosage target) ;;
  candidateStrength <- parseStrengthJS (DrugObject.dosage candidate) ;;
  Normal
    match targetStrength, candidateStrength with
    | Some targetStrength, Some candidateStrength =>
        if negb (ToBoolean targetStrength) || negb (ToBoolean candidateStrength) then None
        else
          let ratio := div targetStrength candidateStrength in
          if strict_eqb ratio (int 1) then None
          else if gtb ratio (int 1) then
            Some ("Take " +:+ toFixed ratio 1 +:+ "x the usual dose ("
                    +:+ template (DrugObject.dosage candidate)
                    +:+ " → equivalent to " +:+ template (DrugObject.dosage target) +:+ ")")
          else
            Some ("Take " +:+ toFixed (div (int 1) ratio) 1 +:+ "x less ("
                    +:+ template (DrugObject.dosage candidate)
                    +:+ " → equivalent to " +:+ template (DrugObject.dosage target) +:+ ")")
    | _, _ => None
    end.

Definition getSubstitutionWarningsJS (target candidate : DrugObject.t)
    : completion (list string) :=
  let warnings := [] in
  targetForm <- lowered (DrugObject.dosageForm target) ;;
  candidateForm <- lowered (DrugObject.dosageForm candidate) ;;
  let warnings :=
    if negb (targetForm =? candidateForm)%string
    then warnings ++ ["Different dosage form: " +:+ template (DrugObject.dosageForm target)
                        +:+ " → " +:+ template (DrugObject.dosageForm candidate)]
    else warnings in
  let warnings :=
    if truthy_bool (DrugObject.isControlled target)
       || truthy_bool (DrugObject.isControlled candidate)
    then warnings ++ ["Controlled substance - verify prescription requirements"]
    else warnings in
  critical <-
    (if negb (same_string (DrugObject.manufacturer target) (DrugObject.manufacturer candidate))
     then category <- lowered (DrugObject.category target) ;;
          Normal (includes category "cardiac")
     else Normal false) ;;
  let warnings :=
    if critical : bool
    then warnings ++ ["Different manufacturer - monitor patient response"]
    else warnings in
  Normal warnings.

Definition calculateTherapeuticSimilarityJS (target candidate : DrugObject.t)
    : completion number :=
  let similarity := int 40 in
  targetForm <- lowered (DrugObject.dosageForm target) ;;
  candidateForm <- lowered (DrugObject.dosageForm candidate) ;;
  let similarity :=
    if (targetForm =? candidateForm)%string then add similarity (int 20) else similarity in
  similar <-
    haveSimilarNamesJS (DrugObject.genericName target) (DrugObject.genericName candidate) ;;
  let similarity := if similar : bool then add similarity (int 15) else similarity in
  Normal (min similarity (int 75)).

Definition findSimilarByTherapeuticClassJS (target : option DrugObject.t)
    (searchPool : list DrugObject.t) : completion (list (DrugObject.t * number)) :=
  filtered <-
    filterC
      (fun drug =>
         category <- lowered (DrugObject.category drug) ;;
         t <- deref target ;;
         targetCategory <- lowered (DrugObject.category t) ;;
         if (category =? targetCategory)%string then
           molecule <- lowered (DrugObject.activeMolecule drug) ;;
           targetMolecule <- lowered (DrugObject.activeMolecule t) ;;
           Normal (negb (molecule =? targetMolecule)%string)
         else Normal false)
      searchPool ;;
  mapped <-
    mapC (fun drug =>
            t <- deref target ;;
            similarity <- calculateTherapeuticSimilarityJS t drug ;;
            Normal (drug, similarity))
      filtered ;;
  Normal (List.filter (fun item => geb (snd item) (int 30)) mapped).

Definition ruleSuggestionJS (rule : SubstitutionRule.t) (drug : DrugObject.t)
    : SuggestionObject.t :=
  {| SuggestionObject.drug := drug;
     SuggestionObject.matchType := MatchType.equivalent;
     SuggestionObject.confidence := int 85;
     SuggestionObject.reason :=
       "Custom substitution rule: "
       +:+ match SubstitutionRule.notes rule with
           | Some text => if (text =? "")%string then "Pharmacy-approved equivalent" else text
           | None => "Pharmacy-approved equivalent"
           end;
     SuggestionObject.dosageAdjustment :=
       if negb (strict_eqb (SubstitutionRule.substitutionRatio rule) (int 1))
       then Some ("Adjust dose by factor of "
                    +:+ ToString (SubstitutionRule.substitutionRatio rule))
       else None;
     SuggestionObject.warnings := None |}.

Definition resolveRulesJS (applicableRules : list SubstitutionRule.t)
    (searchPool : list DrugObject.t) : list SuggestionObject.t :=
  flat_map
    (fun rule =>
       flat_map
         (fun drugId =>
            match List.find (fun d => same_string (DrugObject.id d) (Some drugId)) searchPool with
            | Some drug => [ruleSuggestionJS rule drug]
            | None => []
            end)
         (SubstitutionRule.equivalentDrugs rule))
    applicableRules.

Definition applySubstitutionRulesJS (this : Runtime.SubstitutionEngine)
    (target : option DrugObject.t) (searchPool : list DrugObject.t)
    : completion (list SuggestionObject.t) :=
  applicableRules <-
    filterC
      (fun rule =>
         if SubstitutionRule.isActive rule then
           t <- deref target ;;
           targetMolecule <- lowered (DrugObject.activeMolecule t) ;;
           if (toLowerCase (SubstitutionRule.activeMolecule rule) =? targetMolecule)%string
              && same_string (Some (SubstitutionRule.dosage rule)) (DrugObject.dosage t)
           then
             targetForm <- lowered (DrugObject.dosageForm t) ;;
             Normal (toLowerCase (SubstitutionRule.dosageForm rule) =? targetForm)%string
           else Normal false
         else Normal false)
      (Runtime.substitutionRules this) ;;
  Normal (resolveRulesJS applicableRules searchPool).

Fixpoint filter_unseenJS (seen : gset (option string)) (suggestions : list SuggestionObject.t)
    : list SuggestionObject.t :=
  match suggestions with
  | [] => []
  | suggestion :: rest =>
      let id := DrugObject.id (SuggestionObject.drug suggestion) in
      if bool_decide (id ∈ seen) then filter_unseenJS seen rest
      else suggestion :: filter_unseenJS ({[id]} ∪ seen) rest
  end.

Definition deduplicateAndSortJS (suggestions : list SuggestionObject.t)
    : list SuggestionObject.t :=
  let unique := filter_unseenJS ∅ suggestions in
  sort (fun a b => sub (SuggestionObject.confidence b) (SuggestionObject.confidence a)) unique.

Definition exactSuggestionJS (drug : DrugObject.t) : SuggestionObject.t :=
  {| SuggestionObject.drug := drug;
     SuggestionObject.matchType := MatchType.exact;
     SuggestionObject.confidence := int 95;
     SuggestionObject.reason :=
       "Same active molecule (" +:+ template (DrugObject.activeMolecule drug) +:+ "), dosage ("
       +:+ template (DrugObject.dosage drug) +:+ "), and form ("
       +:+ template (DrugObject.dosageForm drug) +:+ ")";
     SuggestionObject.dosageAdjustment := None;
     SuggestionObject.warnings := None |}.

Definition equivalentSuggestionJS (targetDrug drug : DrugObject.t)
    : completion SuggestionObject.t :=
  confidence <- calculateEquivalentConfidenceJS targetDrug drug ;;
  dosageAdjustment <- calculateDosageAdjustmentJS targetDrug drug ;;
  warnings <- getSubstitutionWarningsJS targetDrug drug ;;
  Normal
    {| SuggestionObject.drug := drug;
       SuggestionObject.matchType := MatchType.equivalent;
       SuggestionObject.confidence := confidence;
       SuggestionObject.reason :=
         "Same active molecule (" +:+ template (DrugObject.activeMolecule drug) +:+ ") with "
         +:+ template (DrugObject.dosage drug) +:+ " "
         +:+ template (DrugObject.dosageForm drug);
       SuggestionObject.dosageAdjustment := dosageAdjustment;
       SuggestionObject.warnings := Some warnings |}.

Definition similarSuggestionJS (item : DrugObject.t * number) : SuggestionObject.t :=
  let '(drug, similarity) := item in
  {| SuggestionObject.drug := drug;
     SuggestionObject.matchType := MatchType.similar;
     SuggestionObject.confidence := similarity;
     SuggestionObject.reason :=
       "Similar therapeutic class (" +:+ template (DrugObject.category drug) +:+ ")";
     SuggestionObject.dosageAdjustment := None;
     SuggestionObject.warnings :=
       Some ["Different active molecule - consult pharmacist before substitution"] |}.

(** The first operand of the two filters on the active molecule. *)
Definition sameMoleculeJS (drug : DrugObject.t) (targetDrug : option DrugObject.t)
    : completion bool :=
  molecule <- lowered (DrugObject.activeMolecule drug) ;;
  t <- deref targetDrug ;;
  targetMolecule <- lowered (DrugObject.activeMolecule t) ;;
  Normal (molecule =? targetMolecule)%string.

Definition findSubstitutesJS (this : Runtime.SubstitutionEngine)
    (targetDrug : option DrugObject.t) (availableOnly : option bool)
    : completion (list SuggestionObject.t) :=
  let availableOnly := default true availableOnly in
  let suggestions := [] in
  searchPool <-
    (if availableOnly
     then filterC
            (fun drug =>
               if above_zero (DrugObject.stockLevel drug)
               then t <- deref targetDrug ;;
                    Normal (negb (same_string (DrugObject.id drug) (DrugObject.id t)))
               else Normal false)
            (Runtime.drugs this)
     else filterC
            (fun drug =>
               t <- deref targetDrug ;;
               Normal (negb (same_string (DrugObject.id drug) (DrugObject.id t))))
            (Runtime.drugs this)) ;;
  (* 1. Exact matches *)
  exactMatches <-
    filterC
      (fun drug =>
         sameMolecule <- sameMoleculeJS drug targetDrug ;;
         if sameMolecule : bool then
           t <- deref targetDrug ;;
           if same_string (DrugObject.dosage drug) (DrugObject.dosage t) then
             form <- lowered (DrugObject.dosageForm drug) ;;
             targetForm <- lowered (DrugObject.dosageForm t) ;;
             Normal (form =? targetForm)%string
           else Normal false
         else Normal false)
      searchPool ;;
  let suggestions := suggestions ++ List.map exactSuggestionJS exactMatches in
  (* 2. Equivalent matches *)
  equivalentMatches <-
    filterC
      (fun drug =>
         sameMolecule <- sameMoleculeJS drug targetDrug ;;
         Normal (sameMolecule && negb (bool_decide (drug ∈ exactMatches))))
      searchPool ;;
  equivalentSuggestions <-
    mapC (fun drug => t <- deref targetDrug ;; equivalentSuggestionJS t drug)
      equivalentMatches ;;
  let suggestions := suggestions ++ equivalentSuggestions in
  (* 3. Similar matches *)
  similarMatches <- findSimilarByTherapeuticClassJS targetDrug searchPool ;;
  let suggestions := suggestions ++ List.map similarSuggestionJS similarMatches in
  (* 4. Custom substitution rules *)
  ruleBasedSuggestions <- applySubstitutionRulesJS this targetDrug searchPool ;;
  let suggestions := suggestions ++ ruleBasedSuggestions in
  Normal (deduplicateAndSortJS suggestions).

(** *** The values [findSubstitutes] builds, named

    The search pool, the outcome of each of the four passes and their
    concatenation, as functions of the engine and of the arguments of the
    call. *)

Section Passes.
Variables (this : SubstitutionEngine) (targetDrug : Drug.t) (availableOnly : option bool).

Definition searchPool : list Drug.t :=
  if default true availableOnly
  then List.filter
         (fun drug => gtb (Drug.stockLevel drug) (int 0)
                      && negb (Drug.id drug =? Drug.id targetDrug)%string)
         (drugs this)
  else List.filter (fun drug => negb (Drug.id drug =? Drug.id targetDrug)%string)
         (drugs this).

Definition isExactMatch (drug : Drug.t) : bool :=
  (toLowerCase (Drug.activeMolecule drug) =? toLowerCase (Drug.activeMolecule targetDrug))%string
  && (Drug.dosage drug =? Drug.dosage targetDrug)%string
  && (toLowerCase (Drug.dosageForm drug) =? toLowerCase (Drug.dosageForm targetDrug))%string.

Definition exactMatches : list Drug.t := List.filter isExactMatch searchPool.

Definition equivalentMatches : list Drug.t :=
  List.filter
    (fun drug =>
       (toLowerCase (Drug.activeMolecule drug)
          =? toLowerCase (Drug.activeMolecule targetDrug))%string
       && negb (bool_decide (drug ∈ exactMatches)))
    searchPool.

Definition exactSuggestions : list SubstitutionSuggestion.t :=
  List.map exactSuggestion exactMatches.

Definition equivalentSuggestions : list SubstitutionSuggestion.t :=
  List.map (equivalentSuggestion targetDrug) equivalentMatches.

Definition similarSuggestions : list SubstitutionSuggestion.t :=
  List.map similarSuggestion (findSimilarByTherapeuticClass targetDrug searchPool).

Definition ruleBasedSuggestions : list SubstitutionSuggestion.t :=
  applySubstitutionRules this targetDrug searchPool.

Definition allSuggestions : list SubstitutionSuggestion.t :=
  exactSuggestions ++ equivalentSuggestions ++ similarSuggestions ++ ruleBasedSuggestions.
End Passes.

End Engine.

(** ** Vocabulary of the properties *)

(** The identifier a suggestion is about. *)
Definition key (s : SubstitutionSuggestion.t) : string := Drug.id (drug s).

(** [s] stands in [l] and no element before it has its identifier. *)
Definition first_with_key (l : list SubstitutionSuggestion.t) (s : SubstitutionSuggestion.t)
    : Prop :=
  exists pre post, l = pre ++ s :: post /\ ~ In (key s) (map key pre).

(** Each confidence is at least the next one, under [>=] of the language
    (false when an operand is NaN). *)
Fixpoint confidenceDescending (l : list SubstitutionSuggestion.t) : bool :=
  match l with
  | a :: (b :: _) as rest => geb (confidence a) (confidence b) && confidenceDescending rest
  | _ => true
  end.

(** A number that is not below zero: NaN is allowed, [-Infinity] is not. *)
Definition nonneg (x : number) : Prop :=
  match x with
  | Finite r => (0 <= r)%Q
  | PosInf | NaN => True
  | NegInf => False
  end.

(** [Math.floor(Math.min(a, b) / Math.max(a, b) * 10)]. *)
Definition ratioBonus (a b : number) : number :=
  floor (mul (div (min a b) (max a b)) (int 10)).

Definition sameDosageForm (target candidate : Drug.t) : bool :=
  (toLowerCase (Drug.dosageForm target) =? toLowerCase (Drug.dosageForm candidate))%string.

(** Both brand names are non-empty, or both are empty. *)
Definition brandsAlike (target candidate : Drug.t) : bool :=
  negb (Drug.brandName target =? "")%string && negb (Drug.brandName candidate =? "")%string
  || (Drug.brandName target =? "")%string && (Drug.brandName candidate =? "")%string.

(** The confidence of an equivalent match as the specification words it:
    [min(90, 80 + form bonus + strength bonus + brand bonus)]. *)
Definition confidenceFormula (formBonus strengthBonus brandBonus : number) : number :=
  min (int 90) (add (add (add (int 80) formBonus) strengthBonus) brandBonus).

(** The strength bonus is present "when both dosage strengths parse". *)
Definition equivalentConfidenceAsStated (target candidate : Drug.t) : number :=
  confidenceFormula
    (if sameDosageForm target candidate then int 10 else int 0)
    (match parseStrength (Drug.dosage target), parseStrength (Drug.dosage candidate) with
     | Some a, Some b => ratioBonus a b
     | _, _ => int 0
     end)
    (if brandsAlike target candidate then int 5 else int 0).

(** The strength bonus is present when both strengths parse and neither is
    zero. *)
Definition equivalentConfidenceAmended (target candidate : Drug.t) : number :=
  confidenceFormula
    (if sameDosageForm target candidate then int 10 else int 0)
    (match parseStrength (Drug.dosage target), parseStrength (Drug.dosage candidate) with
     | Some a, Some b => if ToBoolean a && ToBoolean b then ratioBonus a b else int 0
     | _, _ => int 0
     end)
    (if brandsAlike target candidate then int 5 else int 0).

(** Both dosages parse to [Infinity]. *)
Definition bothInfinite (target candidate : Drug.t) : Prop :=
  parseStrength (Drug.dosage target) = Some PosInf
  /\ parseStrength (Drug.dosage candidate) = Some PosInf.

(** The assignments of [calculateEquivalentConfidence] in their order, on
    the outcome of its three tests. *)
Definition confidenceSteps (formsMatch : bool) (bonus : option number) (brands : bool) : number :=
  let confidence := int 80 in
  let confidence := if formsMatch then add confidence (int 10) else confidence in
  let confidence := match bonus with Some b => add confidence b | None => confidence end in
  let confidence := if brands then add confidence (int 5) else confidence in
  min confidence (int 90).

(** The similarity of a similar match as the specification words it: base
    40, plus 20, plus 15, capped at 75. *)
Definition similarityFormula (formsMatch namesSimilar : bool) : number :=
  min (int 75)
    (add (add (int 40) (if formsMatch then int 20 else int 0))
       (if namesSimilar then int 15 else int 0)).

Definition similarWarning : string :=
  "Different active molecule - consult pharmacist before substitution".

(** A drug of the declared type as an object: every property is present. *)
Definition ofDrug (d : Drug.t) : DrugObject.t :=
  {| DrugObject.id := Some (Drug.id d);
     DrugObject.genericName := Some (Drug.genericName d);
     DrugObject.brandName := Some (Drug.brandName d);
     DrugObject.activeMolecule := Some (Drug.activeMolecule d);
     DrugObject.dosage := Some (Drug.dosage d);
     DrugObject.dosageForm := Some (Drug.dosageForm d);
     DrugObject.manufacturer := Some (Drug.manufacturer d);
     DrugObject.category := Some (Drug.category d);
     DrugObject.isControlled := Some (Drug.isControlled d);
     DrugObject.stockLevel := Some (Drug.stockLevel d) |}.

(** The object [AddDrugModal] builds: it has no [dosageForm]. *)
Definition withoutDosageForm (o : DrugObject.t) : DrugObject.t :=
  {| DrugObject.id := DrugObject.id o;
     DrugObject.genericName := DrugObject.genericName o;
     DrugObject.brandName := DrugObject.brandName o;
     DrugObject.activeMolecule := DrugObject.activeMolecule o;
     DrugObject.dosage := DrugObject.dosage o;
     DrugObject.dosageForm := None;
     DrugObject.manufacturer := DrugObject.manufacturer o;
     DrugObject.category := DrugObject.category o;
     DrugObject.isControlled := DrugObject.isControlled o;
     DrugObject.stockLevel := DrugObject.stockLevel o |}.

Definition ofSuggestion (s : SubstitutionSuggestion.t) : SuggestionObject.t :=
  {| SuggestionObject.drug := ofDrug (drug s);
     SuggestionObject.matchType := matchType s;
     SuggestionObject.confidence := confidence s;
     SuggestionObject.reason := reason s;
     SuggestionObject.dosageAdjustment := dosageAdjustment s;
     SuggestionObject.warnings := warnings s |}.

(** An engine of the declared types as it is at run time. *)
Definition objectsOf (this : SubstitutionEngine) : Runtime.SubstitutionEngine :=
  {| Runtime.drugs := List.map ofDrug (drugs this);
     Runtime.substitutionRules := substitutionRules this |}.

(** A call on a missing target reads a property of it: some drug reaches
    the comparison of identifiers, or some rule is active. *)
Definition readsTarget (this : Runtime.SubstitutionEngine) (availableOnly : option bool)
    : bool :=
  (if default true availableOnly
   then existsb (fun drug => above_zero (DrugObject.stockLevel drug)) (Runtime.drugs this)
   else existsb (fun _ => true) (Runtime.drugs this))
  || existsb SubstitutionRule.isActive (Runtime.substitutionRules this).

(** What holds of a suggestion of pass 3 for the target [t]. *)
Definition similarScored (t : Drug.t) (s : SubstitutionSuggestion.t) : Prop :=
  matchType s = MatchType.similar
  /\ warnings s = Some [similarWarning]
  /\ confidence s
     = similarityFormula (sameDosageForm t (drug s))
         (haveSimilarNames (Drug.genericName t) (Drug.genericName (drug s)))
  /\ geb (confidence s) (int 30) = true
  /\ exists n, (30 <= n <= 75)%Z /\ confidence s = Finite (inject_Z n).

(** The confidence of [s] is the integer [n], within 0 and 100. *)
Definition scored (s : SubstitutionSuggestion.t) (n : Z) : Prop :=
  confidence s = Finite (inject_Z n) /\ (0 <= n <= 100)%Z.

Definition allScored (l : list SubstitutionSuggestion.t) : Prop :=
  Forall (fun s => exists n, scored s n) l.

(** The comparator [deduplicateAndSort] passes to [sort]. *)
Definition byConfidence (a b : SubstitutionSuggestion.t) : number :=
  sub (confidence b) (confidence a).

(** The suggestions of [l] whose confidence is [n], in the order of [l]. *)
Definition withConfidence (n : Z) (l : list SubstitutionSuggestion.t)
    : list SubstitutionSuggestion.t :=
  List.filter (fun s => strict_eqb (confidence s) (Finite (inject_Z n))) l.

(** A strength the two helpers use: parsed, and neither zero nor NaN. *)
Definition usable (strength : option number) : bool :=
  match strength with
  | Some x => ToBoolean x
  | None => false
  end.

(** ** Sample data *)

Module Sample.

(** A printer for the examples: exact on the integers from 0 to 10^21, the
    only numbers the examples print. *)
Definition integerToString : NumberToString :=
  fun q => NilZero.string_of_uint (N.to_uint (Z.to_N (Qfloor q))).

Definition mkDrug (id activeMolecule dosage dosageForm brandName genericName category : string)
    (stockLevel : Z) : Drug.t :=
  {| Drug.id := id;
     Drug.name := genericName +:+ " " +:+ dosage;
     Drug.genericName := genericName;
     Drug.brandName := brandName;
     Drug.activeMolecule := activeMolecule;
     Drug.dosage := dosage;
     Drug.dosageForm := dosageForm;
     Drug.strength := dosage;
     Drug.manufacturer := "GSK";
     Drug.barcode := None;
     Drug.category := category;
     Drug.isControlled := false;
     Drug.requiresPrescription := false;
     Drug.expiryDate := None;
     Drug.batchNumber := None;
     Drug.stockLevel := int stockLevel;
     Drug.minStockLevel := int 10;
     Drug.maxStockLevel := int 500;
     Drug.unitPrice := int 2;
     Drug.isCustom := false;
     Drug.createdAt := "2024-01-01";
     Drug.updatedAt := "2024-01-01";
     Drug.userId := "u1" |}.

Definition mkRule (activeMolecule dosage dosageForm : string) (equivalentDrugs : list string)
    (notes : option string) : SubstitutionRule.t :=
  {| SubstitutionRule.id := "r1";
     SubstitutionRule.activeMolecule := activeMolecule;
     SubstitutionRule.dosage := dosage;
     SubstitutionRule.dosageForm := dosageForm;
     SubstitutionRule.equivalentDrugs := equivalentDrugs;
     SubstitutionRule.substitutionRatio := int 1;
     SubstitutionRule.notes := notes;
     SubstitutionRule.isActive := true;
     SubstitutionRule.createdAt := "2024-01-01";
     SubstitutionRule.userId := "u1" |}.

Definition panadol : Drug.t :=
  mkDrug "d1" "Paracetamol" "500mg" "Tablet" "Panadol" "Paracetamol" "Analgesic" 40.
Definition paracetamolGeneric : Drug.t :=
  mkDrug "d2" "paracetamol" "500mg" "tablet" "" "Paracetamol" "Analgesic" 25.
Definition paracetamol250 : Drug.t :=
  mkDrug "d3" "Paracetamol" "250mg" "Tablet" "Calpol" "Paracetamol" "Analgesic" 12.
Definition ibuprofen : Drug.t :=
  mkDrug "d4" "Ibuprofen" "200mg" "Tablet" "Nurofen" "Ibuprofen" "analgesic" 7.
Definition paracetamolSyrup : Drug.t :=
  mkDrug "d5" "Paracetamol" "as needed" "Syrup" "" "Paracetamol" "Analgesic" 3.
Definition unnamedAnalgesic : Drug.t :=
  mkDrug "d6" "Metamizole" "500mg" "Capsule" "" "123" "Analgesic" 3.

Definition catalog : list Drug.t :=
  [panadol; paracetamolGeneric; paracetamol250; ibuprofen; paracetamolSyrup; unnamedAnalgesic].

(** A rule for Panadol that lists Panadol itself, a drug pass 2 also finds
    and an identifier that is in no catalog. *)
Definition panadolRule : SubstitutionRule.t :=
  mkRule "paracetamol" "500mg" "TABLET" ["d1"; "d3"; "d404"] (Some "Half strength").

Definition engine : SubstitutionEngine := new catalog (Some [panadolRule]).

(** Two dosages without strength. *)
Definition zeroTablet : Drug.t :=
  mkDrug "z1" "Placebo" "0mg" "Tablet" "" "Placebo" "Inert" 5.
Definition zeroSyrup : Drug.t :=
  mkDrug "z2" "Placebo" "0mg" "Syrup" "" "Placebo" "Inert" 5.

(** Dosages of 309 digits: their values are above the largest double. *)
Definition digits309 (d : string) : string := String.concat "" (repeat d 309).

Definition hugeTarget : Drug.t :=
  mkDrug "h1" "Iodine" (digits309 "9" +:+ "mg") "Tablet" "" "Iodine" "Mineral" 5.
Definition hugeExact : Drug.t :=
  mkDrug "h2" "Iodine" (digits309 "9" +:+ "mg") "Tablet" "" "Iodine" "Mineral" 5.
Definition hugeOther : Drug.t :=
  mkDrug "h3" "Iodine" (digits309 "8" +:+ "mg") "Tablet" "" "Iodine" "Mineral" 5.

Definition hugeEngine : SubstitutionEngine := new [hugeOther; hugeExact] None.

End Sample.

(** ** The inventory page: [App]

    The values the component derives from its state (the list [drugs], the
    search term and the filters) and the state updates of its handlers.  An
    [alert] is the text it shows. *)

Module SearchFilters.
Record t : Type := mk {
  category : string;
  stockStatus : string;
  requiresPrescription : option bool;
  isControlled : option bool;
  manufacturer : string
}.
End SearchFilters.

(** [x < y] on strings compares UTF-16 code units.  On UTF-8 bytes this is
    the order of the bytes, except that a code point above U+FFFF (lead
    bytes F0 to F4), which UTF-16 writes with surrogates, comes before the
    code points from U+E000 to U+FFFF (lead bytes EE and EF). *)
Definition unitKey (c : ascii) : N :=
  let b := byte c in
  if ((b =? 0xEE) || (b =? 0xEF))%N then (b + 5)%N
  else if ((0xF0 <=? b) && (b <=? 0xF4))%N then (b - 2)%N
  else b.

Fixpoint stringCompare (x y : string) : comparison :=
  match x, y with
  | EmptyString, EmptyString => Eq
  | EmptyString, String _ _ => Lt
  | String _ _, EmptyString => Gt
  | String a x', String b y' =>
      match (unitKey a ?= unitKey b)%N with
      | Eq => stringCompare x' y'
      | c => c
      end
  end.

Definition stringLt (x y : string) : bool :=
  match stringCompare x y with Lt => true | _ => false end.

(** The comparison of [sort()] without a comparator, on strings. *)
Definition defaultCompare (x y : string) : number :=
  if stringLt x y then int (-1) else if stringLt y x then int 1 else int 0.

(** [[...new Set(l)]]: the elements of [l] in the order of their first
    occurrence. *)
Fixpoint distinct (seen : gset string) (l : list string) : list string :=
  match l with
  | [] => []
  | x :: rest =>
      if bool_decide (x ∈ seen) then distinct seen rest
      else x :: distinct ({[x]} ∪ seen) rest
  end.

Module App.

(** The callback of [drugs.filter] in [filteredDrugs]. *)
Definition matchesFilters (searchTerm : string) (filters : SearchFilters.t) (drug : Drug.t)
    : bool :=
  let searchLower := toLowerCase searchTerm in
  let matchesSearch :=
    (searchTerm =? "")%string
    || includes (toLowerCase (Drug.name drug)) searchLower
    || includes (toLowerCase (Drug.genericName drug)) searchLower
    || includes (toLowerCase (Drug.brandName drug)) searchLower
    || includes (toLowerCase (Drug.activeMolecule drug)) searchLower
    || includes (toLowerCase (Drug.manufacturer drug)) searchLower
    || match Drug.barcode drug with
       | Some barcode => includes barcode searchTerm
       | None => false
       end in
  let matchesCategory :=
    (SearchFilters.category filters =? "")%string
    || (Drug.category drug =? SearchFilters.category filters)%string in
  let matchesStock :=
    if (SearchFilters.stockStatus filters =? "in-stock")%string
    then gtb (Drug.stockLevel drug) (Drug.minStockLevel drug)
    else if (SearchFilters.stockStatus filters =? "low-stock")%string
    then gtb (Drug.stockLevel drug) (int 0)
         && leb (Drug.stockLevel drug) (Drug.minStockLevel drug)
    else if (SearchFilters.stockStatus filters =? "out-of-stock")%string
    then strict_eqb (Drug.stockLevel drug) (int 0)
    else true in
  let matchesPrescription :=
    match SearchFilters.requiresPrescription filters with
    | None => true
    | Some wanted => Bool.eqb (Drug.requiresPrescription drug) wanted
    end in
  let matchesControlled :=
    match SearchFilters.isControlled filters with
    | None => true
    | Some wanted => Bool.eqb (Drug.isControlled drug) wanted
    end in
  let matchesManufacturer :=
    (SearchFilters.manufacturer filters =? "")%string
    || (Drug.manufacturer drug =? SearchFilters.manufacturer filters)%string in
  matchesSearch && matchesCategory && matchesStock
  && matchesPrescription && matchesControlled && matchesManufacturer.

Definition filteredDrugs (drugs : list Drug.t) (searchTerm : string)
    (filters : SearchFilters.t) : list Drug.t :=
  List.filter (matchesFilters searchTerm filters) drugs.

(** [categories] and [manufacturers]. *)
Definition categories (drugs : list Drug.t) : list string :=
  sort defaultCompare (distinct ∅ (List.map Drug.category drugs)).

Definition manufacturers (drugs : list Drug.t) : list string :=
  sort defaultCompare (distinct ∅ (List.map Drug.manufacturer drugs)).

(** [activeFiltersCount]. *)
Definition activeFiltersCount (filters : SearchFilters.t) : nat :=
  let count := 0 in
  let count := if negb (SearchFilters.category filters =? "")%string then S count else count in
  let count :=
    if negb (SearchFilters.stockStatus filters =? "")%string then S count else count in
  let count :=
    match SearchFilters.requiresPrescription filters with Some _ => S count | None => count end in
  let count :=
    match SearchFilters.isControlled filters with Some _ => S count | None => count end in
  let count :=
    if negb (SearchFilters.manufacturer filters =? "")%string then S count else count in
  count.

(** [stats]. *)
Record Stats : Type := {
  totalDrugs : nat;
  inStock : nat;
  lowStock : nat;
  outOfStock : nat;
  totalValue : number
}.

Definition stats (drugs : list Drug.t) : Stats :=
  {| totalDrugs := length drugs;
     inStock := length (List.filter (fun d => gtb (Drug.stockLevel d) (int 0)) drugs);
     lowStock :=
       length (List.filter
                 (fun d => gtb (Drug.stockLevel d) (int 0)
                           && leb (Drug.stockLevel d) (Drug.minStockLevel d))
                 drugs);
     outOfStock := length (List.filter (fun d => strict_eqb (Drug.stockLevel d) (int 0)) drugs);
     totalValue :=
       fold_left (fun sum drug => add sum (mul (Drug.stockLevel drug) (Drug.unitPrice drug)))
         drugs (int 0) |}.

(** [handleAddDrug] and [handleUpdateDrug]: the new list and the alert. *)
Definition handleAddDrug (prev : list Drug.t) (newDrug : Drug.t) : list Drug.t * string :=
  (prev ++ [newDrug], "Successfully added " +:+ Drug.name newDrug +:+ " to inventory!").

Definition handleUpdateDrug (prev : list Drug.t) (updatedDrug : Drug.t)
    : list Drug.t * string :=
  (List.map (fun drug => if (Drug.id drug =? Drug.id updatedDrug)%string
                         then updatedDrug else drug) prev,
   "Successfully updated " +:+ Drug.name updatedDrug +:+ "!").

End App.

(** [clearFilters] of the search bar: the filters it hands to
    [onFiltersChange]. *)
Definition clearFilters : SearchFilters.t :=
  {| SearchFilters.category := "";
     SearchFilters.stockStatus := "";
     SearchFilters.requiresPrescription := None;
     SearchFilters.isControlled := None;
     SearchFilters.manufacturer := "" |}.

(** ** The card of a drug: [DrugCard] *)

Module DrugCard.

Inductive StockStatus : Type := out | low | high | normal.

Definition getStockStatus (drug : Drug.t) : StockStatus :=
  if strict_eqb (Drug.stockLevel drug) (int 0) then out
  else if leb (Drug.stockLevel drug) (Drug.minStockLevel drug) then low
  else if geb (Drug.stockLevel drug) (mul (Drug.maxStockLevel drug) (round64 (8 # 10))) then high
  else normal.

End DrugCard.

(** ** The panel of suggestions: [SubstitutionPanel] *)

Section Panel.
Context `{printer : NumberToString}.


End Panel.

Definition getConfidenceColor (confidence : number) : string :=
  if geb confidence (int 90) then "text-green-600"
  else if geb confidence (int 70) then "text-blue-600"
  else if geb confidence (int 50) then "text-yellow-600"
  else "text-red-600".

(** ** Vocabulary of the further properties *)

(** The test of a rule against the target, after [rule.isActive]. *)
Definition ruleMatches (rule : SubstitutionRule.t) (target : Drug.t) : bool :=
  (toLowerCase (SubstitutionRule.activeMolecule rule)
     =? toLowerCase (Drug.activeMolecule target))%string
  && (SubstitutionRule.dosage rule =? Drug.dosage target)%string
  && (toLowerCase (SubstitutionRule.dosageForm rule)
        =? toLowerCase (Drug.dosageForm target))%string.

Definition sameMolecule (target drug : Drug.t) : bool :=
  (toLowerCase (Drug.activeMolecule drug) =? toLowerCase (Drug.activeMolecule target))%string.

Definition sameCategory (target drug : Drug.t) : bool :=
  (toLowerCase (Drug.category drug) =? toLowerCase (Drug.category target))%string.

(** The first three tests of a rule: it is active and names the target's
    molecule and dosage. *)
Definition ruleReachesForm (rule : SubstitutionRule.t) (target : Drug.t) : bool :=
  SubstitutionRule.isActive rule
  && (toLowerCase (SubstitutionRule.activeMolecule rule)
        =? toLowerCase (Drug.activeMolecule target))%string
  && (SubstitutionRule.dosage rule =? Drug.dosage target)%string.

(** A call on a target without [dosageForm] reads it: some drug of the pool
    has the target's molecule, or its category and another molecule, or some
    rule passes its first three tests. *)
Definition readsDosageForm (this : SubstitutionEngine) (target : Drug.t)
    (availableOnly : option bool) : bool :=
  existsb (sameMolecule target) (searchPool this target availableOnly)
  || existsb (fun d => sameCategory target d && negb (sameMolecule target d))
       (searchPool this target availableOnly)
  || existsb (fun rule => ruleReachesForm rule target) (substitutionRules this).

(** No pass finds a candidate: no drug of the pool has the target's molecule
    or its category, and no rule that applies lists a drug of the pool. *)
Definition noMatches (this : SubstitutionEngine) (target : Drug.t)
    (availableOnly : option bool) : bool :=
  forallb (fun d => negb (sameMolecule target d) && negb (sameCategory target d))
    (searchPool this target availableOnly)
  && forallb
       (fun rule =>
          negb (SubstitutionRule.isActive rule && ruleMatches rule target)
          || forallb
               (fun drugId =>
                  negb (existsb (fun d => (Drug.id d =? drugId)%string)
                          (searchPool this target availableOnly)))
               (SubstitutionRule.equivalentDrugs rule))
       (substitutionRules this).

(** The number of values a call returns; [None] when it throws. *)
Definition returned {A : Type} (c : completion (list A)) : option nat :=
  match c with
  | Normal l => Some (length l)
  | Throw _ => None
  end.

(** A number that is zero or above, or [Infinity]: not NaN. *)
Definition atLeastZero (x : number) : Prop :=
  match x with
  | Finite r => (0 <= r)%Q
  | PosInf => True
  | NegInf | NaN => False
  end.

(** Each string is before the next one. *)
Fixpoint increasing (l : list string) : bool :=
  match l with
  | a :: (b :: _) as rest => stringLt a b && increasing rest
  | _ => true
  end.

(** The filters with one stock status and nothing else. *)
Definition onlyStockStatus (status : string) : SearchFilters.t :=
  {| SearchFilters.category := "";
     SearchFilters.stockStatus := status;
     SearchFilters.requiresPrescription := None;
     SearchFilters.isControlled := None;
     SearchFilters.manufacturer := "" |}.

Definition isNumber (x : number) : bool := negb (is_NaN x).

(** A finite number that is zero or above. *)
Definition finiteAtLeastZero (x : number) : bool := geb x (int 0) && ltb x PosInf.

(** ** Further sample data *)

Module Shelf.

(** One gram and a thousand milligrams; a generic name in capitals with a
    strength in brackets. *)
Definition paracetamolGram : Drug.t :=
  Sample.mkDrug "d7" "Paracetamol" "1g" "Tablet" "Panadol Forte" "Paracetamol" "Analgesic" 0.
Definition paracetamol1000 : Drug.t :=
  Sample.mkDrug "d8" "Paracetamol" "1000mg" "Tablet" "" "PARACETAMOL (1000)" "Analgesic" 4.

(** A drug of another molecule and another category than Panadol, and a rule
    for Panadol that lists it. *)
Definition codeine : Drug.t :=
  Sample.mkDrug "d9" "Codeine" "30mg" "Tablet" "" "Codeine" "Opioid" 9.

Definition codeineRule : SubstitutionRule.t :=
  Sample.mkRule "PARACETAMOL" "500mg" "tablet" ["d9"] None.

Definition engine : SubstitutionEngine :=
  new (Sample.catalog ++ [codeine]) (Some [codeineRule]).

(** Panadol as an object without identifier, and the catalog of the samples
    followed by an object without [dosageForm], as [AddDrugModal] builds
    them. *)
Definition panadolWithoutId : DrugObject.t :=
  {| DrugObject.id := None;
     DrugObject.genericName := Some "Paracetamol";
     DrugObject.brandName := Some "Panadol";
     DrugObject.activeMolecule := Some "Paracetamol";
     DrugObject.dosage := Some "500mg";
     DrugObject.dosageForm := Some "Tablet";
     DrugObject.manufacturer := Some "GSK";
     DrugObject.category := Some "Analgesic";
     DrugObject.isControlled := Some false;
     DrugObject.stockLevel := Some (int 40) |}.



End Shelf.

(** ** Deduplication and sorting *)

Lemma first_with_key_In l s : first_with_key l s -> In s l.
Proof. intros (pre & post & -> & _). apply in_elt. Qed.

Lemma first_with_key_cons x l s :
  first_with_key (x :: l) s <-> s = x \/ (key s <> key x /\ first_with_key l s).
Proof.
  split.
  - intros (pre & post & E & Hn). destruct pre as [|y pre]; simpl in E; injection E as -> ->.
    + left; reflexivity.
    + right. simpl in Hn. split; [intros E; apply Hn; left; congruence|].
      exists pre, post. split; [reflexivity|]. tauto.
  - intros [->|[Hne (pre & post & -> & Hn)]].
    + exists [], l. split; [reflexivity|]. simpl; tauto.
    + exists (x :: pre), post. split; [reflexivity|]. simpl. intros [E|E]; [congruence|tauto].
Qed.

Lemma first_with_key_prefix l1 l2 s :
  first_with_key (l1 ++ l2) s -> In (key s) (map key l1) -> first_with_key l1 s.
Proof.
  induction l1 as [|x l1 IH]; simpl; [tauto|].
  rewrite !first_with_key_cons. intros [->|[Hne Hf]] Hin; [tauto|].
  right. split; [assumption|]. apply IH; [assumption|].
  destruct Hin as [E|Hin]; [congruence|assumption].
Qed.

(** The traversal keeps exactly the first suggestion of each identifier
    that is not in [seen] at the start. *)
Lemma filter_unseen_first seen l s :
  In s (filter_unseen seen l) <-> first_with_key l s /\ key s ∉ seen.
Proof.
  revert seen. induction l as [|x l IH]; intros seen; simpl.
  - split; [tauto|]. intros [H _]. apply first_with_key_In in H. destruct H.
  - rewrite first_with_key_cons.
    destruct (bool_decide_reflect (Drug.id (drug x) ∈ seen)) as [Hx|Hx].
    + rewrite IH. split.
      * intros [Hf Hs]. split; [|assumption]. right. split; [|assumption].
        intros E. apply Hs. unfold key in *. rewrite E. exact Hx.
      * intros [[->|[_ Hf]] Hs]; [contradiction|tauto].
    + simpl. rewrite IH, not_elem_of_union, not_elem_of_singleton. split.
      * intros [<-|[Hf [Hne Hs]]]; [tauto|]. tauto.
      * intros [[->|[Hne Hf]] Hs]; [tauto|]. right. tauto.
Qed.

Lemma filter_unseen_NoDup seen l : List.NoDup (map key (filter_unseen seen l)).
Proof.
  revert seen. induction l as [|x l IH]; intros seen; simpl; [constructor|].
  destruct (bool_decide_reflect (Drug.id (drug x) ∈ seen)) as [Hx|Hx]; [apply IH|].
  simpl. constructor; [|apply IH].
  intros Hin. apply in_map_iff in Hin. destruct Hin as (s & Hk & Hs).
  apply filter_unseen_first in Hs. destruct Hs as [_ Hs].
  apply not_elem_of_union in Hs. destruct Hs as [Hs _].
  apply not_elem_of_singleton in Hs. apply Hs. exact Hk.
Qed.

Lemma sort_insert_perm {A : Type} (cmp : A -> A -> number) x l :
  Permutation (sort_insert cmp x l) (x :: l).
Proof.
  induction l as [|y l IH]; simpl; [reflexivity|].
  destruct (gtb _ _); [|reflexivity].
  rewrite IH. apply perm_swap.
Qed.

Lemma sort_perm {A : Type} (cmp : A -> A -> number) l : Permutation (sort cmp l) l.
Proof.
  induction l as [|x l IH]; simpl; [reflexivity|].
  rewrite sort_insert_perm. now constructor.
Qed.

Lemma deduplicateAndSort_In l s : In s (deduplicateAndSort l) <-> first_with_key l s.
Proof.
  unfold deduplicateAndSort. split.
  - intros H. apply (Permutation_in _ (sort_perm _ _)) in H.
    apply filter_unseen_first in H. tauto.
  - intros H. apply (Permutation_in _ (Permutation_sym (sort_perm _ _))).
    apply filter_unseen_first. split; [assumption|]. apply not_elem_of_empty.
Qed.

Lemma deduplicateAndSort_NoDup l : List.NoDup (map key (deduplicateAndSort l)).
Proof.
  unfold deduplicateAndSort.
  eapply Permutation_NoDup; [|apply (filter_unseen_NoDup ∅ l)].
  apply Permutation_map, Permutation_sym, sort_perm.
Qed.

(** ** Rounding to a double *)

Section Rounding.
Local Open Scope Z_scope.

Lemma round_half_even_nonneg n d : 0 <= n -> 0 < d -> 0 <= round_half_even n d.
Proof.
  intros Hn Hd. unfold round_half_even.
  pose proof (Z.div_pos n d Hn Hd) as Hq.
  destruct (_ ?= _); [destruct (Z.even _)|..]; lia.
Qed.

Lemma round_half_even_le n d M : 0 < d -> n <= M * d -> round_half_even n d <= M.
Proof.
  intros Hd Hn. unfold round_half_even.
  pose proof (Z.div_mod n d ltac:(lia)) as Hdm.
  pose proof (Z.mod_pos_bound n d Hd) as Hr.
  assert (n / d <= M) as Hq by (apply Z.div_le_upper_bound; lia).
  destruct (2 * (n mod d) ?= d) eqn:Hc.
  - apply Z.compare_eq in Hc. destruct (Z.even _); [lia|]. nia.
  - lia.
  - apply Z.compare_gt_iff in Hc. nia.
Qed.

Lemma round_half_even_ge n d M : 0 < d -> M * d <= n -> M <= round_half_even n d.
Proof.
  intros Hd Hn. unfold round_half_even.
  assert (M <= n / d) as Hq by (apply Z.div_le_lower_bound; lia).
  destruct (_ ?= _); [destruct (Z.even _)|..]; lia.
Qed.

Lemma floor_log2_le n d : floor_log2 n d <= Z.log2 (Zpos n) - Z.log2 (Zpos d).
Proof. unfold floor_log2. destruct (pow2_leb _ _ _); lia. Qed.

(** Up to 1024 the quantum of the rounding is below one. *)
Lemma floor_log2_small n d c :
  1 <= c <= 1024 -> Zpos n <= c * Zpos d -> floor_log2 n d <= 11.
Proof.
  intros Hc Hn.
  pose proof (floor_log2_le n d).
  pose proof (Z.log2_le_mono _ _ Hn).
  pose proof (Z.log2_mul_above c (Zpos d) ltac:(lia) ltac:(lia)).
  pose proof (Z.log2_le_mono c 1024 ltac:(lia)) as H10.
  change (Z.log2 1024) with 10 in H10. lia.
Qed.

Lemma round_magnitude_nonneg n d r : round_magnitude n d = Some r -> (0 <= r)%Q.
Proof.
  unfold round_magnitude.
  set (k := Z.max (floor_log2 n d) (-1022) - 52).
  destruct (0 <=? k) eqn:Hk.
  - apply Z.leb_le in Hk.
    assert (0 < 2 ^ k) by (apply Z.pow_pos_nonneg; lia).
    pose proof (round_half_even_nonneg (Zpos n) (Zpos d * 2 ^ k) ltac:(lia) ltac:(nia)) as Hm.
    destruct (_ <=? _); [discriminate|]. intros [= <-].
    unfold Qle; simpl. nia.
  - apply Z.leb_gt in Hk.
    assert (0 < 2 ^ (- k)) by (apply Z.pow_pos_nonneg; lia).
    pose proof (round_half_even_nonneg (Zpos n * 2 ^ (- k)) (Zpos d) ltac:(nia) ltac:(lia)) as Hm.
    intros [= <-]. rewrite Qred_correct. unfold Qle; simpl. lia.
Qed.

(** Rounding does not cross an integer: a value between the integers [b]
    and [c] rounds to a double between them. *)
Lemma round_magnitude_between n d b c :
  0 <= b -> 1 <= c <= 1024 -> b * Zpos d <= Zpos n <= c * Zpos d ->
  exists r, round_magnitude n d = Some r /\ (inject_Z b <= r <= inject_Z c)%Q.
Proof.
  intros Hb Hc [Hbn Hn].
  pose proof (floor_log2_small n d c Hc Hn) as He.
  unfold round_magnitude.
  set (k := Z.max (floor_log2 n d) (-1022) - 52).
  destruct (0 <=? k) eqn:Hk; [apply Z.leb_le in Hk; lia|].
  apply Z.leb_gt in Hk.
  assert (0 < 2 ^ (- k)) as Hp by (apply Z.pow_pos_nonneg; lia).
  eexists. split; [reflexivity|]. rewrite Qred_correct.
  pose proof (round_half_even_le (Zpos n * 2 ^ (- k)) (Zpos d) (c * 2 ^ (- k))
                ltac:(lia) ltac:(nia)).
  pose proof (round_half_even_ge (Zpos n * 2 ^ (- k)) (Zpos d) (b * 2 ^ (- k))
                ltac:(lia) ltac:(nia)).
  unfold Qle; simpl. rewrite Z2Pos.id by assumption. lia.
Qed.

End Rounding.

Section NumberFacts.
Local Open Scope Q_scope.

Lemma round64_nonneg q : 0 <= q -> nonneg (round64 q).
Proof.
  intros Hq. unfold round64. destruct q as [[|n|n] d]; simpl.
  - apply Qle_refl.
  - destruct (round_magnitude n d) as [r|] eqn:Hr; [|exact I].
    eapply round_magnitude_nonneg; eassumption.
  - unfold Qle in Hq; simpl in Hq. lia.
Qed.

Lemma round64_between q b c :
  (0 <= b)%Z -> (1 <= c <= 1024)%Z -> inject_Z b <= q <= inject_Z c ->
  exists r, round64 q = Finite r /\ inject_Z b <= r <= inject_Z c.
Proof.
  intros Hb Hc [Hq0 Hq]. unfold round64. destruct q as [[|n|n] d]; simpl.
  - exists 0. split; [reflexivity|]. revert Hq0 Hq. unfold Qle; simpl. lia.
  - destruct (round_magnitude_between n d b c Hb Hc) as (r & -> & Hr).
    + revert Hq0 Hq. unfold Qle; simpl. lia.
    + exists r. tauto.
  - revert Hq0. unfold Qle; simpl. lia.
Qed.

Lemma round64_le q c :
  (1 <= c <= 1024)%Z -> 0 <= q <= inject_Z c ->
  exists r, round64 q = Finite r /\ 0 <= r <= inject_Z c.
Proof. intros Hc Hq. apply (round64_between q 0 c); [lia|assumption|exact Hq]. Qed.

Lemma Qsign_pos q : 0 < q -> Qsign q = Gt.
Proof. unfold Qlt, Qsign; simpl. intros H. apply Z.compare_gt_iff. lia. Qed.

Lemma int_10 : int 10 = Finite 10.
Proof. reflexivity. Qed.

Lemma int_1000 : int 1000 = Finite 1000.
Proof. reflexivity. Qed.

Lemma truthy_pos r : 0 <= r -> ToBoolean (Finite r) = true -> 0 < r.
Proof.
  intros H0 Ht. simpl in Ht. apply negb_true_iff in Ht. apply Qeq_bool_neq in Ht.
  apply Qle_lt_or_eq in H0. destruct H0 as [H0|H0]; [assumption|].
  exfalso. apply Ht. symmetry. assumption.
Qed.

Lemma floor_times_ten r :
  0 <= r <= 1 ->
  exists z, (0 <= z <= 10)%Z /\ floor (mul (Finite r) (int 10)) = Finite (inject_Z z).
Proof.
  intros [H0 H1]. rewrite int_10. cbn [mul].
  destruct (round64_le (r * 10) 10 ltac:(lia)) as (r' & -> & Hr0 & Hr1).
  { split.
    - apply Qmult_le_0_compat; [assumption|]. unfold Qle; simpl; lia.
    - revert H1. unfold Qle; cbn. rewrite Pos.mul_1_r. lia. }
  exists (Qfloor r'). split; [|reflexivity].
  split.
  - change 0%Z with (Qfloor 0). apply Qfloor_resp_le. assumption.
  - rewrite <- (Qfloor_Z 10). apply Qfloor_resp_le. assumption.
Qed.

Lemma ratio_finite x y :
  0 < x -> x <= y ->
  exists z, (0 <= z <= 10)%Z
    /\ floor (mul (div (Finite x) (Finite y)) (int 10)) = Finite (inject_Z z).
Proof.
  intros Hx Hxy. assert (0 < y) as Hy by (eapply Qlt_le_trans; eassumption).
  cbn [div]. rewrite (Qsign_pos y Hy).
  destruct (round64_le (x / y) 1 ltac:(lia)) as (r & -> & Hr).
  { split.
    - apply Qle_shift_div_l; [assumption|]. rewrite Qmult_0_l. apply Qlt_le_weak. assumption.
    - apply Qle_shift_div_r; [assumption|]. change (inject_Z 1) with 1. rewrite Qmult_1_l.
      assumption. }
  apply floor_times_ten. exact Hr.
Qed.

(** The strength bonus is an integer from 0 to 10, except that it is NaN
    when both strengths are infinite. *)
Lemma ratioBonus_cases a b :
  nonneg a -> nonneg b -> ToBoolean a = true -> ToBoolean b = true ->
  (a = PosInf /\ b = PosInf /\ ratioBonus a b = NaN)
  \/ (~ (a = PosInf /\ b = PosInf)
      /\ exists z, (0 <= z <= 10)%Z /\ ratioBonus a b = Finite (inject_Z z)).
Proof.
  intros Ha Hb Hta Htb. unfold ratioBonus.
  destruct a as [x| | |], b as [y| | |]; simpl in Ha, Hb; try contradiction; try discriminate.
  - right. split; [intros [? _]; discriminate|].
    pose proof (truthy_pos x Ha Hta) as Hx. pose proof (truthy_pos y Hb Htb) as Hy.
    unfold min, max, compare. destruct (Qcompare_spec x y) as [E|L|G].
    + apply ratio_finite; [assumption|]. apply Qle_refl.
    + apply ratio_finite; [assumption|]. apply Qlt_le_weak. assumption.
    + apply ratio_finite; [assumption|]. apply Qlt_le_weak. assumption.
  - right. split; [intros [? _]; discriminate|]. exists 0%Z. split; [lia|reflexivity].
  - right. split; [intros [_ ?]; discriminate|]. exists 0%Z. split; [lia|reflexivity].
  - left. auto.
Qed.

End NumberFacts.

(** The arithmetic is that of doubles: 0.1 is not one tenth, three times
    0.1 is not 0.3, and a quotient just below three tenths rounds, times ten,
    to three. *)
Example round64_tenth :
  round64 (1 # 10) = Finite (3602879701896397 # 36028797018963968).
Proof. vm_compute. reflexivity. Qed.

Example three_tenths :
  strict_eqb (mul (round64 (1 # 10)) (int 3)) (round64 (3 # 10)) = false.
Proof. vm_compute. reflexivity. Qed.

Example ratioBonus_rounds :
  ratioBonus (int 2702159776422296) (int 9007199254740987) = int 3
  /\ Qfloor ((2702159776422296 # 9007199254740987) * 10) = 2%Z.
Proof. vm_compute. split; reflexivity. Qed.

(** ** Parsing a strength *)

Lemma digits_value_nonneg s acc : (0 <= acc)%Z -> (0 <= digits_value acc s)%Z.
Proof.
  revert acc. induction s as [|c s IH]; intros acc Hacc; simpl; [assumption|].
  apply IH. lia.
Qed.

Lemma parseFloat_nonneg s : nonneg (parseFloat s).
Proof.
  unfold parseFloat. destruct (span_digits s) as [i r]. destruct i as [|c i]; [exact I|].
  apply round64_nonneg. unfold Qle; cbn [Qnum Qden].
  match goal with |- context [digits_value 0 ?t] =>
    pose proof (digits_value_nonneg t 0 ltac:(lia)) end.
  lia.
Qed.

Lemma mul_1000_nonneg x : nonneg x -> nonneg (mul x (int 1000)).
Proof.
  rewrite int_1000. destruct x as [r| | |]; simpl; auto.
  intros Hr. apply round64_nonneg. apply Qmult_le_0_compat; [assumption|].
  unfold Qle; simpl; lia.
Qed.

Lemma div_1000_nonneg x : nonneg x -> nonneg (div x (int 1000)).
Proof.
  rewrite int_1000. destruct x as [r| | |]; simpl; auto.
  intros Hr. apply round64_nonneg. apply Qle_shift_div_l; [reflexivity|].
  rewrite Qmult_0_l. assumption.
Qed.

(** A parsed strength is never negative. *)
Lemma parseStrength_nonneg d s : parseStrength d = Some s -> nonneg s.
Proof.
  unfold parseStrength. destruct (match_strength d) as [[m1 m2]|]; [|discriminate].
  intros [= <-].
  destruct (_ =? _)%string; [apply mul_1000_nonneg, parseFloat_nonneg|].
  destruct (_ || _); [apply div_1000_nonneg|]; apply parseFloat_nonneg.
Qed.

(** ** The confidence of an equivalent match *)

Lemma calculateEquivalentConfidence_steps t c :
  calculateEquivalentConfidence t c =
  confidenceSteps (sameDosageForm t c)
    (match parseStrength (Drug.dosage t), parseStrength (Drug.dosage c) with
     | Some a, Some b => if ToBoolean a && ToBoolean b then Some (ratioBonus a b) else None
     | _, _ => None
     end)
    (brandsAlike t c).
Proof.
  unfold calculateEquivalentConfidence, confidenceSteps, sameDosageForm, brandsAlike, ratioBonus.
  destruct (parseStrength (Drug.dosage t)) as [a|], (parseStrength (Drug.dosage c)) as [b|];
    try destruct (ToBoolean a && ToBoolean b);
    destruct (Drug.brandName t =? "")%string, (Drug.brandName c =? "")%string;
    reflexivity.
Qed.

Lemma confidenceSteps_skip fm ba :
  exists n, (80 <= n <= 90)%Z
    /\ confidenceSteps fm None ba = Finite (inject_Z n)
    /\ confidenceFormula (if fm then int 10 else int 0) (int 0) (if ba then int 5 else int 0)
       = Finite (inject_Z n).
Proof.
  exists (Z.min 90 (80 + (if fm then 10 else 0) + (if ba then 5 else 0))).
  destruct fm, ba; (split; [vm_compute; split; discriminate|split; vm_compute; reflexivity]).
Qed.

Lemma confidenceSteps_bonus fm ba z :
  (0 <= z <= 10)%Z ->
  exists n, (80 <= n <= 90)%Z
    /\ confidenceSteps fm (Some (Finite (inject_Z z))) ba = Finite (inject_Z n)
    /\ confidenceFormula (if fm then int 10 else int 0) (Finite (inject_Z z))
         (if ba then int 5 else int 0) = Finite (inject_Z n).
Proof.
  intros Hz.
  exists (Z.min 90 (80 + (if fm then 10 else 0) + z + (if ba then 5 else 0))).
  assert (z = 0 \/ z = 1 \/ z = 2 \/ z = 3 \/ z = 4 \/ z = 5 \/ z = 6 \/ z = 7 \/ z = 8
          \/ z = 9 \/ z = 10)%Z as Hcases by lia.
  repeat (destruct Hcases as [->|Hcases]); try subst z;
    destruct fm, ba; (split; [vm_compute; split; discriminate|split; vm_compute; reflexivity]).
Qed.

Lemma confidenceSteps_NaN fm ba : confidenceSteps fm (Some NaN) ba = NaN.
Proof. destruct fm, ba; reflexivity. Qed.

(** The confidence of an equivalent match, case by case: NaN when both
    strengths are infinite; otherwise the amended formula, an integer from
    80 to 90. *)
Lemma calculateEquivalentConfidence_cases t c :
  (bothInfinite t c /\ calculateEquivalentConfidence t c = NaN)
  \/ (~ bothInfinite t c
      /\ calculateEquivalentConfidence t c = equivalentConfidenceAmended t c
      /\ exists n, (80 <= n <= 90)%Z
           /\ calculateEquivalentConfidence t c = Finite (inject_Z n)).
Proof.
  rewrite calculateEquivalentConfidence_steps.
  unfold equivalentConfidenceAmended, bothInfinite.
  destruct (parseStrength (Drug.dosage t)) as [a|] eqn:Ha;
    [destruct (parseStrength (Drug.dosage c)) as [b|] eqn:Hb|].
  - destruct (ToBoolean a && ToBoolean b) eqn:Ht.
    + apply andb_true_iff in Ht. destruct Ht as [Hta Htb].
      destruct (ratioBonus_cases a b (parseStrength_nonneg _ _ Ha) (parseStrength_nonneg _ _ Hb)
                  Hta Htb)
        as [(-> & -> & ->)|(Hfin & z & Hz & ->)].
      * left. split; [split; reflexivity|apply confidenceSteps_NaN].
      * right. split; [intros [[= ->] [= ->]]; apply Hfin; split; reflexivity|].
        destruct (confidenceSteps_bonus (sameDosageForm t c) (brandsAlike t c) z Hz)
          as (n & Hn & -> & ->).
        split; [reflexivity|]. exists n. auto.
    + right. split.
      { intros [[= ->] [= ->]]. discriminate. }
      destruct (confidenceSteps_skip (sameDosageForm t c) (brandsAlike t c))
        as (n & Hn & -> & ->).
      split; [reflexivity|]. exists n. auto.
  - right. split; [intros [_ ?]; discriminate|].
    destruct (confidenceSteps_skip (sameDosageForm t c) (brandsAlike t c)) as (n & Hn & -> & ->).
    split; [reflexivity|]. exists n. auto.
  - right. split; [intros [? _]; discriminate|].
    destruct (confidenceSteps_skip (sameDosageForm t c) (brandsAlike t c)) as (n & Hn & -> & ->).
    split; [reflexivity|]. exists n. auto.
Qed.

(** ** The similarity of a similar match *)

Lemma calculateTherapeuticSimilarity_formula t c :
  calculateTherapeuticSimilarity t c
  = similarityFormula (sameDosageForm t c)
      (haveSimilarNames (Drug.genericName t) (Drug.genericName c))
  /\ exists n, (40 <= n <= 75)%Z /\ calculateTherapeuticSimilarity t c = Finite (inject_Z n).
Proof.
  unfold calculateTherapeuticSimilarity, similarityFormula, sameDosageForm.
  destruct (_ =? _)%string, (haveSimilarNames _ _).
  - split; [reflexivity|]. exists 75%Z. split; [lia|reflexivity].
  - split; [reflexivity|]. exists 60%Z. split; [lia|reflexivity].
  - split; [reflexivity|]. exists 55%Z. split; [lia|reflexivity].
  - split; [reflexivity|]. exists 40%Z. split; [lia|reflexivity].
Qed.

Lemma includes_empty s : includes s "" = true.
Proof. destruct s; reflexivity. Qed.

(** ** Sorting integer confidences *)

Lemma Qcompare_inject_Z a b : Qcompare (inject_Z a) (inject_Z b) = Z.compare a b.
Proof. unfold Qcompare; cbn. rewrite !Z.mul_1_r. reflexivity. Qed.

(** The difference of two small integers is positive as a Number exactly
    when it is positive as an integer. *)
Lemma gtb_zero_round64 (z : Z) :
  (-1024 <= z <= 1024)%Z -> forall q, Qnum q = z -> Qden q = 1%positive ->
  gtb (round64 q) (int 0) = (0 <? z)%Z.
Proof.
  intros Hz [n d] Hn Hd. simpl in Hn, Hd. subst n d. unfold round64. cbn [Qnum Qden].
  destruct z as [|p|p].
  - reflexivity.
  - destruct (round_magnitude_between p 1 1 1024) as (r & -> & Hr1 & _); try lia.
    change (int 0) with (Finite 0). unfold gtb, ltb, compare.
    assert (0 < r)%Q as Hr by (eapply Qlt_le_trans; [|exact Hr1]; reflexivity).
    destruct (Qcompare_spec 0 r) as [E|L|G]; try reflexivity.
    + exfalso. rewrite <- E in Hr. exact (Qlt_irrefl _ Hr).
    + exfalso. exact (Qlt_irrefl _ (Qlt_trans _ _ _ Hr G)).
  - destruct (round_magnitude p 1) as [r|] eqn:Hr; [|reflexivity].
    apply round_magnitude_nonneg in Hr.
    change (int 0) with (Finite 0). unfold gtb, ltb, compare.
    destruct (Qcompare_spec 0 (- r)) as [E|L|G]; try reflexivity.
    exfalso. apply (Qlt_not_le _ _ L). apply (Qopp_le_compat 0 r) in Hr. exact Hr.
Qed.

Lemma byConfidence_gtb a b m n :
  scored a m -> scored b n -> gtb (byConfidence a b) (int 0) = (m <? n)%Z.
Proof.
  intros [Ha Hm] [Hb Hn]. unfold byConfidence, sub. rewrite Ha, Hb. cbn [neg add].
  rewrite (gtb_zero_round64 (n - m)); [|lia|cbn; lia|reflexivity].
  destruct (Z.ltb_spec 0 (n - m)), (Z.ltb_spec m n); lia || reflexivity.
Qed.

Lemma geb_scored a b m n :
  scored a m -> scored b n -> geb (confidence a) (confidence b) = (n <=? m)%Z.
Proof.
  intros [Ha _] [Hb _]. rewrite Ha, Hb. unfold geb, leb, compare.
  rewrite Qcompare_inject_Z.
  destruct (Z.leb_spec n m) as [L|L].
  - destruct (Z.compare_spec n m); try reflexivity; lia.
  - apply Z.lt_gt, Z.gt_lt, Z.compare_gt_iff in L. rewrite L. reflexivity.
Qed.

Lemma strict_eqb_scored s m n :
  scored s m -> strict_eqb (confidence s) (Finite (inject_Z n)) = (m =? n)%Z.
Proof.
  intros [Hs _]. rewrite Hs. unfold strict_eqb, compare. rewrite Qcompare_inject_Z.
  destruct (Z.eqb_spec m n) as [->|Hne].
  - rewrite Z.compare_refl. reflexivity.
  - destruct (Z.compare_spec m n); try reflexivity; lia.
Qed.

Lemma confidenceDescending_cons a b l :
  confidenceDescending (a :: b :: l)
  = geb (confidence a) (confidence b) && confidenceDescending (b :: l).
Proof. reflexivity. Qed.

Lemma confidenceDescending_tail a l :
  confidenceDescending (a :: l) = true -> confidenceDescending l = true.
Proof.
  destruct l as [|b l]; [reflexivity|]. rewrite confidenceDescending_cons.
  intros Hd. apply andb_true_iff in Hd. tauto.
Qed.

Lemma sort_insert_descending x l :
  allScored (x :: l) -> confidenceDescending l = true ->
  confidenceDescending (sort_insert byConfidence x l) = true.
Proof.
  intros Hall. apply List.Forall_cons_iff in Hall. destruct Hall as [(m & Hx) Hl].
  induction l as [|y l IH]; [reflexivity|].
  apply List.Forall_cons_iff in Hl. destruct Hl as [(n & Hy) Hl].
  intros Hd. specialize (IH Hl (confidenceDescending_tail _ _ Hd)).
  cbn [sort_insert]. rewrite (byConfidence_gtb x y m n Hx Hy).
  destruct (Z.ltb_spec m n) as [L|L].
  - destruct l as [|z l].
    + cbn [sort_insert]. rewrite confidenceDescending_cons, (geb_scored y x n m Hy Hx).
      apply andb_true_iff. split; [apply Z.leb_le; lia|reflexivity].
    + apply List.Forall_cons_iff in Hl. destruct Hl as [(k & Hz) Hl].
      rewrite confidenceDescending_cons in Hd. apply andb_true_iff in Hd.
      destruct Hd as [Hyz Hd].
      cbn [sort_insert] in *. rewrite (byConfidence_gtb x z m k Hx Hz) in *.
      destruct (m <? k)%Z.
      * rewrite confidenceDescending_cons, Hyz, IH. reflexivity.
      * rewrite confidenceDescending_cons, IH, (geb_scored y x n m Hy Hx).
        apply andb_true_iff. split; [apply Z.leb_le; lia|reflexivity].
  - rewrite confidenceDescending_cons, Hd, (geb_scored x y m n Hx Hy).
    apply andb_true_iff. split; [apply Z.leb_le; lia|reflexivity].
Qed.

Lemma sort_descending l :
  allScored l -> confidenceDescending (sort byConfidence l) = true.
Proof.
  induction l as [|x l IH]; intros Hall; [reflexivity|].
  cbn [sort fold_right]. fold (sort byConfidence l).
  pose proof Hall as Hall'. apply List.Forall_cons_iff in Hall'. destruct Hall' as [Hx Hl].
  apply sort_insert_descending; [|apply IH; exact Hl].
  constructor; [exact Hx|].
  eapply Permutation_Forall; [|exact Hl]. apply Permutation_sym, sort_perm.
Qed.

(** An element moves behind another only when its confidence is smaller, so
    the elements of one confidence keep their order. *)
Lemma sort_insert_stable n x l :
  allScored (x :: l) ->
  withConfidence n (sort_insert byConfidence x l) = withConfidence n (x :: l).
Proof.
  intros Hall. apply List.Forall_cons_iff in Hall. destruct Hall as [(m & Hx) Hl].
  induction l as [|y l IH]; [reflexivity|].
  apply List.Forall_cons_iff in Hl. destruct Hl as [(k & Hy) Hl].
  cbn [sort_insert]. rewrite (byConfidence_gtb x y m k Hx Hy).
  destruct (Z.ltb_spec m k) as [L|L]; [|reflexivity].
  unfold withConfidence in *. cbn [List.filter] in *. rewrite (IH Hl).
  rewrite (strict_eqb_scored x m n Hx), (strict_eqb_scored y k n Hy).
  destruct (Z.eqb_spec m n), (Z.eqb_spec k n); try reflexivity. lia.
Qed.

Lemma sort_stable n l :
  allScored l -> withConfidence n (sort byConfidence l) = withConfidence n l.
Proof.
  induction l as [|x l IH]; intros Hall; [reflexivity|].
  cbn [sort fold_right]. fold (sort byConfidence l).
  pose proof Hall as Hall'. apply List.Forall_cons_iff in Hall'. destruct Hall' as [Hx Hl].
  rewrite sort_insert_stable.
  - unfold withConfidence in *. cbn [List.filter]. rewrite (IH Hl). reflexivity.
  - constructor; [exact Hx|].
    eapply Permutation_Forall; [|exact Hl]. apply Permutation_sym, sort_perm.
Qed.

(** ** Callbacks that may throw *)

Lemma filterC_Normal {A : Type} (f : A -> completion bool) (g : A -> bool) l :
  (forall x, f x = Normal (g x)) -> filterC f l = Normal (List.filter g l).
Proof.
  intros Hf. induction l as [|x l IH]; simpl; [reflexivity|].
  rewrite Hf, IH. simpl. reflexivity.
Qed.

Lemma mapC_Normal {A B : Type} (f : A -> completion B) (g : A -> B) l :
  (forall x, f x = Normal (g x)) -> mapC f l = Normal (List.map g l).
Proof.
  intros Hf. induction l as [|x l IH]; simpl; [reflexivity|].
  rewrite Hf, IH. simpl. reflexivity.
Qed.

(** A callback that throws on the elements that pass [p] and rejects the
    others. *)
Lemma filterC_Throw {A : Type} (p : A -> bool) (e : exn) l :
  filterC (fun x => if p x then Throw e else Normal false) l
  = if existsb p l then Throw e else Normal [].
Proof.
  induction l as [|x l IH]; simpl; [reflexivity|].
  destruct (p x); simpl; [reflexivity|]. rewrite IH. destruct (existsb p l); reflexivity.
Qed.

Lemma filterC_map {A B : Type} (f : B -> completion bool) (g : A -> B) (p : A -> bool) l :
  (forall x, In x l -> f (g x) = Normal (p x)) ->
  filterC f (List.map g l) = Normal (List.map g (List.filter p l)).
Proof.
  induction l as [|x l IH]; intros Hf; [reflexivity|].
  cbn [List.map filterC List.filter]. rewrite (Hf x (or_introl eq_refl)).
  rewrite IH by (intros y Hy; apply Hf; now right).
  cbn [bind]. now destruct (p x).
Qed.

Lemma mapC_map {A B C : Type} (f : B -> completion C) (g : A -> B) (h : A -> C) l :
  (forall x, In x l -> f (g x) = Normal (h x)) ->
  mapC f (List.map g l) = Normal (List.map h l).
Proof.
  induction l as [|x l IH]; intros Hf; [reflexivity|].
  cbn [List.map mapC]. rewrite (Hf x (or_introl eq_refl)).
  rewrite IH by (intros y Hy; apply Hf; now right). reflexivity.
Qed.

(** A callback that throws on the elements that pass [p]. *)
Lemma filterC_map_Throw {A B : Type} (f : B -> completion bool) (g : A -> B)
    (p q : A -> bool) l :
  (forall x, In x l -> f (g x) = if p x then Throw TypeError else Normal (q x)) ->
  filterC f (List.map g l)
  = if existsb p l then Throw TypeError else Normal (List.map g (List.filter q l)).
Proof.
  induction l as [|x l IH]; intros Hf; [reflexivity|].
  cbn [List.map filterC List.filter existsb]. rewrite (Hf x (or_introl eq_refl)).
  destruct (p x); [reflexivity|]. cbn [bind orb].
  rewrite IH by (intros y Hy; apply Hf; now right).
  destruct (existsb p l); [reflexivity|]. cbn [bind]. now destruct (q x).
Qed.

Lemma mapC_Throw {A B : Type} (f : A -> completion B) l :
  (forall x, In x l -> f x = Throw TypeError) ->
  mapC f l = match l with [] => Normal [] | _ :: _ => Throw TypeError end.
Proof.
  destruct l as [|x l]; intros Hf; [reflexivity|].
  cbn [mapC]. now rewrite (Hf x (or_introl eq_refl)).
Qed.

Lemma bind_Normal {A B : Type} (c : completion A) (k : A -> completion B) r :
  bind c k = Normal r -> exists a, c = Normal a /\ k a = Normal r.
Proof. destruct c as [a|e]; cbn; [|discriminate]. intros H. now exists a. Qed.

Lemma filterC_inv {A : Type} (f : A -> completion bool) l r :
  filterC f l = Normal r ->
  forall x, In x l -> exists b, f x = Normal b /\ (b = true -> In x r).
Proof.
  revert r. induction l as [|y l IH]; intros r H x Hx; [destruct Hx|].
  cbn [filterC] in H. apply bind_Normal in H. destruct H as (b & Hb & H).
  apply bind_Normal in H. destruct H as (r' & Hr' & H). injection H as <-.
  destruct Hx as [->|Hx].
  - exists b. split; [exact Hb|]. intros ->. now left.
  - destruct (IH r' Hr' x Hx) as (b' & Hb' & Hin). exists b'. split; [exact Hb'|].
    intros E. specialize (Hin E). destruct b; [now right|exact Hin].
Qed.

Lemma filterC_inv_In {A : Type} (f : A -> completion bool) l r :
  filterC f l = Normal r -> forall x, In x r -> In x l /\ f x = Normal true.
Proof.
  revert r. induction l as [|y l IH]; intros r H x Hx.
  - injection H as <-. destruct Hx.
  - cbn [filterC] in H. apply bind_Normal in H. destruct H as (b & Hb & H).
    apply bind_Normal in H. destruct H as (r' & Hr' & H). injection H as <-.
    destruct b.
    + destruct Hx as [->|Hx]; [split; [now left|exact Hb]|].
      destruct (IH r' Hr' x Hx). split; [now right|assumption].
    + destruct (IH r' Hr' x Hx). split; [now right|assumption].
Qed.

Lemma mapC_inv {A B : Type} (f : A -> completion B) l r :
  mapC f l = Normal r -> forall x, In x l -> exists y, f x = Normal y.
Proof.
  revert r. induction l as [|z l IH]; intros r H x Hx; [destruct Hx|].
  cbn [mapC] in H. apply bind_Normal in H. destruct H as (y & Hy & H).
  apply bind_Normal in H. destruct H as (r' & Hr' & H).
  destruct Hx as [->|Hx]; [now exists y|]. now apply (IH r').
Qed.

Lemma not_Normal {A : Type} (c : completion A) :
  (forall r, c <> Normal r) -> c = Throw TypeError.
Proof. destruct c as [r|[]]; [intros H; now destruct (H r)|reflexivity]. Qed.

Lemma find_map_ofDrug i pool :
  List.find (fun o => same_string (DrugObject.id o) (Some i)) (List.map ofDrug pool)
  = option_map ofDrug (List.find (fun d => (Drug.id d =? i)%string) pool).
Proof.
  induction pool as [|d pool IH]; [reflexivity|].
  cbn [List.map List.find ofDrug DrugObject.id same_string].
  destruct (Drug.id d =? i)%string; [reflexivity|exact IH].
Qed.

Lemma sort_map {A B : Type} (f : A -> B) (cmp : A -> A -> number) (cmp' : B -> B -> number) l :
  (forall a b, cmp' (f a) (f b) = cmp a b) ->
  sort cmp' (List.map f l) = List.map f (sort cmp l).
Proof.
  intros Hc. induction l as [|x l IH]; [reflexivity|].
  cbn [List.map sort fold_right]. fold (sort cmp' (List.map f l)). fold (sort cmp l).
  rewrite IH. generalize (sort cmp l). intros r.
  induction r as [|y r IHr]; [reflexivity|].
  cbn [List.map sort_insert]. rewrite Hc. destruct (gtb _ _); [|reflexivity].
  cbn [List.map]. now rewrite IHr.
Qed.

Lemma filter_unseenJS_map seen l :
  filter_unseenJS (set_map (D := gset (option string)) Some seen) (List.map ofSuggestion l)
  = List.map ofSuggestion (filter_unseen seen l).
Proof.
  revert seen. induction l as [|s l IH]; intros seen; [reflexivity|].
  cbn [List.map filter_unseenJS filter_unseen ofSuggestion SuggestionObject.drug
       ofDrug DrugObject.id].
  assert (Hiff : Some (Drug.id (drug s)) ∈ set_map (D := gset (option string)) Some seen
                 <-> Drug.id (drug s) ∈ seen).
  { rewrite elem_of_map. split; [intros (x & [= <-] & Hx); exact Hx|].
    intros Hx. now exists (Drug.id (drug s)). }
  destruct (bool_decide_reflect (Drug.id (drug s) ∈ seen)) as [Hin|Hin].
  - rewrite bool_decide_eq_true_2 by now apply Hiff. apply IH.
  - rewrite bool_decide_eq_false_2 by (intros H; now apply Hin, Hiff).
    cbn [List.map]. f_equal.
    rewrite <- IH. f_equal. now rewrite set_map_union_L, set_map_singleton_L.
Qed.

Lemma deduplicateAndSortJS_map l :
  deduplicateAndSortJS (List.map ofSuggestion l) = List.map ofSuggestion (deduplicateAndSort l).
Proof.
  unfold deduplicateAndSortJS, deduplicateAndSort.
  assert (He : (∅ : gset (option string)) = set_map Some (∅ : gset string))
    by (symmetry; apply set_map_empty).
  rewrite He, filter_unseenJS_map. now apply sort_map.
Qed.

Lemma first_with_key_exists l k :
  In k (map key l) -> exists s, first_with_key l s /\ key s = k.
Proof.
  induction l as [|x l IH]; cbn; [tauto|].
  intros Hk. destruct (String.string_dec (key x) k) as [Heq|Hne].
  - exists x. split; [|exact Heq]. apply first_with_key_cons. now left.
  - destruct Hk as [Hk|Hk]; [contradiction|].
    destruct (IH Hk) as (s & Hs & Hks). exists s. split; [|exact Hks].
    apply first_with_key_cons. right. split; [congruence|exact Hs].
Qed.

Lemma unique_id (l : list Drug.t) d d' :
  List.NoDup (map Drug.id l) -> In d l -> In d' l -> Drug.id d = Drug.id d' -> d = d'.
Proof.
  induction l as [|x l IH]; cbn; [tauto|].
  intros Hnd Hd Hd' Hid. inversion Hnd as [|? ? Hx Hl]; subst.
  destruct Hd as [->|Hd], Hd' as [->|Hd']; auto.
  - exfalso. apply Hx. rewrite Hid. now apply in_map.
  - exfalso. apply Hx. rewrite <- Hid. now apply in_map.
Qed.


Lemma filter_all {A : Type} (p : A -> bool) l :
  (forall x, In x l -> p x = true) -> List.filter p l = l.
Proof.
  induction l as [|x l IH]; intros H; [reflexivity|].
  cbn [List.filter]. rewrite (H x (or_introl eq_refl)). f_equal.
  apply IH. intros y Hy. apply H. now right.
Qed.

(** ** The engine *)

Section Properties.
Context `{printer : NumberToString}.

Lemma findSubstitutes_passes this t a :
  findSubstitutes this t a = deduplicateAndSort (allSuggestions this t a).
Proof.
  unfold findSubstitutes, allSuggestions. cbn zeta.
  rewrite app_nil_l, <- !app_assoc. reflexivity.
Qed.

Lemma searchPool_In this t a d :
  In d (searchPool this t a) ->
  In d (drugs this) /\ (Drug.id d =? Drug.id t)%string = false.
Proof.
  unfold searchPool. destruct (default true a); rewrite filter_In.
  - intros [H1 H2]. apply andb_true_iff in H2. destruct H2 as [_ H2].
    apply negb_true_iff in H2. auto.
  - intros [H1 H2]. apply negb_true_iff in H2. auto.
Qed.

Lemma resolveRules_In rules pool s :
  In s (resolveRules rules pool) ->
  exists rule d, In rule rules /\ In d pool /\ s = ruleSuggestion rule d.
Proof.
  unfold resolveRules. rewrite in_flat_map. intros (rule & Hr & Hs).
  rewrite in_flat_map in Hs. destruct Hs as (i & Hi & Hs).
  destruct (find _ pool) as [d|] eqn:Hf; [|destruct Hs].
  destruct Hs as [<-|[]]. apply find_some in Hf. exists rule, d. tauto.
Qed.

Lemma exactSuggestions_In this t a s :
  In s (exactSuggestions this t a) ->
  exists d, In d (searchPool this t a) /\ isExactMatch t d = true /\ s = exactSuggestion d.
Proof.
  unfold exactSuggestions, exactMatches. rewrite in_map_iff. intros (d & <- & Hd).
  apply filter_In in Hd. exists d. tauto.
Qed.

Lemma equivalentSuggestions_In this t a s :
  In s (equivalentSuggestions this t a) ->
  exists d, In d (searchPool this t a) /\ s = equivalentSuggestion t d.
Proof.
  unfold equivalentSuggestions, equivalentMatches. rewrite in_map_iff. intros (d & <- & Hd).
  apply filter_In in Hd. exists d. tauto.
Qed.

Lemma similarSuggestions_In this t a s :
  In s (similarSuggestions this t a) ->
  exists d, In d (searchPool this t a)
    /\ s = similarSuggestion (d, calculateTherapeuticSimilarity t d).
Proof.
  unfold similarSuggestions, findSimilarByTherapeuticClass. rewrite in_map_iff.
  intros ([d sim] & <- & Hd). apply filter_In in Hd. destruct Hd as [Hd _].
  apply in_map_iff in Hd. destruct Hd as (d' & [= -> <-] & Hd).
  apply filter_In in Hd. exists d. tauto.
Qed.

Lemma ruleBasedSuggestions_In this t a s :
  In s (ruleBasedSuggestions this t a) ->
  exists rule d, In d (searchPool this t a) /\ s = ruleSuggestion rule d.
Proof.
  unfold ruleBasedSuggestions, applySubstitutionRules. intros Hs.
  apply resolveRules_In in Hs. destruct Hs as (rule & d & _ & Hd & ->). eauto.
Qed.

Lemma allSuggestions_drug this t a s :
  In s (allSuggestions this t a) -> In (drug s) (searchPool this t a).
Proof.
  unfold allSuggestions. rewrite !in_app_iff. intros [Hs|[Hs|[Hs|Hs]]].
  - apply exactSuggestions_In in Hs. destruct Hs as (d & Hd & _ & ->). exact Hd.
  - apply equivalentSuggestions_In in Hs. destruct Hs as (d & Hd & ->). exact Hd.
  - apply similarSuggestions_In in Hs. destruct Hs as (d & Hd & ->). exact Hd.
  - apply ruleBasedSuggestions_In in Hs. destruct Hs as (rule & d & Hd & ->). exact Hd.
Qed.

Lemma findSubstitutes_In this t a s :
  In s (findSubstitutes this t a) <-> first_with_key (allSuggestions this t a) s.
Proof. rewrite findSubstitutes_passes. apply deduplicateAndSort_In. Qed.

(** [exactMatches.includes(drug)] compares references; on a drug of the
    pool it answers whether the drug is an exact match, as its comparison by
    value does. *)
Lemma includes_exactMatches this t a d :
  In d (searchPool this t a) ->
  bool_decide (d ∈ exactMatches this t a) = isExactMatch t d.
Proof.
  intros Hd. unfold exactMatches.
  destruct (isExactMatch t d) eqn:He.
  - apply bool_decide_eq_true. apply list_elem_of_In, filter_In. tauto.
  - apply bool_decide_eq_false. intros Hin. apply list_elem_of_In, filter_In in Hin.
    destruct Hin as [_ Hin]. congruence.
Qed.

(** A suggestion of the rules differs from every suggestion of pass 1 and
    pass 2: by its match type or by its warnings. *)
Lemma ruleSuggestion_not_earlier this t a rule d :
  ~ In (ruleSuggestion rule d) (exactSuggestions this t a ++ equivalentSuggestions this t a).
Proof.
  rewrite in_app_iff. intros [Hs|Hs].
  - apply exactSuggestions_In in Hs. destruct Hs as (d' & _ & _ & E).
    apply (f_equal matchType) in E. discriminate.
  - apply equivalentSuggestions_In in Hs. destruct Hs as (d' & _ & E).
    apply (f_equal warnings) in E. discriminate.
Qed.

Lemma similarSuggestions_scored this t a s :
  In s (similarSuggestions this t a) -> similarScored t s.
Proof.
  unfold similarSuggestions. rewrite in_map_iff. intros ([d sim] & <- & Hd).
  unfold findSimilarByTherapeuticClass in Hd. apply filter_In in Hd.
  destruct Hd as [Hd Hge]. apply in_map_iff in Hd. destruct Hd as (d' & [= -> <-] & _).
  destruct (calculateTherapeuticSimilarity_formula t d) as (Hf & n & Hn & Hc).
  unfold similarScored. cbn [similarSuggestion matchType warnings confidence drug].
  repeat split; try assumption. exists n. split; [lia|assumption].
Qed.

(** Unless the strength of the target is infinite, every suggestion of the
    four passes has an integer confidence. *)
Lemma allSuggestions_scored this t a :
  parseStrength (Drug.dosage t) <> Some PosInf -> allScored (allSuggestions this t a).
Proof.
  intros Hfin. apply List.Forall_forall. intros s Hs.
  unfold allSuggestions in Hs. rewrite !in_app_iff in Hs. destruct Hs as [Hs|[Hs|[Hs|Hs]]].
  - apply exactSuggestions_In in Hs. destruct Hs as (d & _ & _ & ->).
    exists 95%Z. split; [reflexivity|lia].
  - apply equivalentSuggestions_In in Hs. destruct Hs as (d & _ & ->).
    destruct (calculateEquivalentConfidence_cases t d) as [[[Hinf _] _]|(_ & _ & n & Hn & Hc)];
      [contradiction|].
    exists n. split; [exact Hc|lia].
  - apply similarSuggestions_scored in Hs. destruct Hs as (_ & _ & _ & _ & n & Hn & Hc).
    exists n. split; [exact Hc|lia].
  - apply ruleBasedSuggestions_In in Hs. destruct Hs as (rule & d & _ & ->).
    exists 85%Z. split; [reflexivity|lia].
Qed.

(** *** The engine on the objects of run time *)

Lemma calculateEquivalentConfidenceJS_complete t c :
  calculateEquivalentConfidenceJS (ofDrug t) (ofDrug c)
  = Normal (calculateEquivalentConfidence t c).
Proof.
  unfold calculateEquivalentConfidenceJS, calculateEquivalentConfidence. cbn.
  destruct (Drug.brandName t =? "")%string, (Drug.brandName c =? "")%string; reflexivity.
Qed.

Lemma calculateDosageAdjustmentJS_complete t c :
  calculateDosageAdjustmentJS (ofDrug t) (ofDrug c) = Normal (calculateDosageAdjustment t c).
Proof. reflexivity. Qed.

Lemma getSubstitutionWarningsJS_complete t c :
  getSubstitutionWarningsJS (ofDrug t) (ofDrug c) = Normal (getSubstitutionWarnings t c).
Proof.
  unfold getSubstitutionWarningsJS, getSubstitutionWarnings. cbn.
  destruct (Drug.manufacturer t =? Drug.manufacturer c)%string; reflexivity.
Qed.

Lemma calculateTherapeuticSimilarityJS_complete t c :
  calculateTherapeuticSimilarityJS (ofDrug t) (ofDrug c)
  = Normal (calculateTherapeuticSimilarity t c).
Proof. reflexivity. Qed.

Lemma equivalentSuggestionJS_complete t d :
  equivalentSuggestionJS (ofDrug t) (ofDrug d) = Normal (ofSuggestion (equivalentSuggestion t d)).
Proof.
  unfold equivalentSuggestionJS.
  rewrite calculateEquivalentConfidenceJS_complete, calculateDosageAdjustmentJS_complete,
    getSubstitutionWarningsJS_complete. reflexivity.
Qed.

Lemma resolveRulesJS_complete rules pool :
  resolveRulesJS rules (List.map ofDrug pool) = List.map ofSuggestion (resolveRules rules pool).
Proof.
  unfold resolveRulesJS, resolveRules.
  induction rules as [|rule rules IH]; [reflexivity|].
  cbn [flat_map]. rewrite map_app, IH. f_equal.
  induction (SubstitutionRule.equivalentDrugs rule) as [|i ids IHi]; [reflexivity|].
  cbn [flat_map]. rewrite map_app, IHi, find_map_ofDrug. f_equal.
  now destruct (List.find _ pool).
Qed.

Lemma findSimilarByTherapeuticClassJS_complete t pool :
  findSimilarByTherapeuticClassJS (Some (ofDrug t)) (List.map ofDrug pool)
  = Normal (List.map (fun item => (ofDrug (fst item), snd item))
              (findSimilarByTherapeuticClass t pool)).
Proof.
  unfold findSimilarByTherapeuticClassJS, findSimilarByTherapeuticClass.
  erewrite filterC_map
    with (p := fun drug =>
                 (toLowerCase (Drug.category drug) =? toLowerCase (Drug.category t))%string
                 && negb (toLowerCase (Drug.activeMolecule drug)
                            =? toLowerCase (Drug.activeMolecule t))%string).
  2:{ intros d _. cbn. now destruct (_ =? _)%string. }
  cbn [bind].
  erewrite mapC_map with (h := fun d => (ofDrug d, calculateTherapeuticSimilarity t d))
    by (intros; reflexivity).
  cbn [bind]. f_equal.
  generalize (List.filter
                (fun drug =>
                   (toLowerCase (Drug.category drug) =? toLowerCase (Drug.category t))%string
                   && negb (toLowerCase (Drug.activeMolecule drug)
                              =? toLowerCase (Drug.activeMolecule t))%string) pool).
  intros l. induction l as [|d l IH]; [reflexivity|].
  cbn [List.map List.filter snd]. destruct (geb _ _); cbn [List.map fst snd]; now rewrite IH.
Qed.

Lemma applySubstitutionRulesJS_complete this t pool :
  applySubstitutionRulesJS (objectsOf this) (Some (ofDrug t)) (List.map ofDrug pool)
  = Normal (List.map ofSuggestion (applySubstitutionRules this t pool)).
Proof.
  unfold applySubstitutionRulesJS, applySubstitutionRules. cbn [objectsOf Runtime.substitutionRules].
  erewrite filterC_Normal.
  - cbn [bind]. now rewrite resolveRulesJS_complete.
  - intros rule. cbn. destruct (SubstitutionRule.isActive rule); [|reflexivity].
    cbn. destruct (_ =? _)%string; [|reflexivity]. cbn.
    destruct (_ =? _)%string; reflexivity.
Qed.

Lemma isExactMatch_ofDrug t d d' : ofDrug d' = ofDrug d -> isExactMatch t d' = isExactMatch t d.
Proof. unfold isExactMatch. intros [= _ _ _ -> -> -> _ _ _ _]. reflexivity. Qed.

Lemma includes_exact_objects t pool d :
  In d pool ->
  bool_decide (ofDrug d ∈ List.map ofDrug (List.filter (isExactMatch t) pool))
  = isExactMatch t d.
Proof.
  intros Hd. destruct (isExactMatch t d) eqn:He.
  - apply bool_decide_eq_true_2. apply list_elem_of_In, in_map, filter_In. now split.
  - apply bool_decide_eq_false_2. intros H. apply list_elem_of_In, in_map_iff in H.
    destruct H as (d' & Heq & Hd'). apply filter_In in Hd'. destruct Hd' as [_ He'].
    rewrite (isExactMatch_ofDrug t d d' Heq) in He'. congruence.
Qed.

(** On objects that have every property the calls of run time return what
    the methods on the declared types return. *)
Lemma findSubstitutesJS_complete this t a :
  findSubstitutesJS (objectsOf this) (Some (ofDrug t)) a
  = Normal (List.map ofSuggestion (findSubstitutes this t a)).
Proof.
  rewrite findSubstitutes_passes.
  unfold findSubstitutesJS. cbn zeta.
  assert (Hpool :
    (if default true a
     then filterC
            (fun drug =>
               if above_zero (DrugObject.stockLevel drug)
               then t0 <- deref (Some (ofDrug t)) ;;
                    Normal (negb (same_string (DrugObject.id drug) (DrugObject.id t0)))
               else Normal false)
            (Runtime.drugs (objectsOf this))
     else filterC
            (fun drug =>
               t0 <- deref (Some (ofDrug t)) ;;
               Normal (negb (same_string (DrugObject.id drug) (DrugObject.id t0))))
            (Runtime.drugs (objectsOf this)))
    = Normal (List.map ofDrug (searchPool this t a))).
  { unfold searchPool. cbn [objectsOf Runtime.drugs]. destruct (default true a).
    - apply filterC_map. intros d _. cbn. now destruct (gtb _ _).
    - apply filterC_map. intros d _. reflexivity. }
  rewrite Hpool. cbn [bind].
  erewrite filterC_map with (p := isExactMatch t).
  2:{ intros d _. unfold isExactMatch. cbn.
      destruct (_ =? _)%string; [|reflexivity]. cbn.
      destruct (_ =? _)%string; reflexivity. }
  cbn [bind].
  erewrite filterC_map
    with (p := fun drug =>
                 (toLowerCase (Drug.activeMolecule drug)
                    =? toLowerCase (Drug.activeMolecule t))%string
                 && negb (bool_decide (drug ∈ exactMatches this t a))).
  2:{ intros d Hd. cbn. rewrite (includes_exact_objects t _ d Hd).
      now rewrite (includes_exactMatches this t a d Hd). }
  cbn [bind].
  erewrite mapC_map with (h := fun d => ofSuggestion (equivalentSuggestion t d))
    by (intros d _; cbn [deref bind]; apply equivalentSuggestionJS_complete).
  cbn [bind].
  rewrite findSimilarByTherapeuticClassJS_complete. cbn [bind].
  rewrite applySubstitutionRulesJS_complete. cbn [bind].
  f_equal. rewrite <- deduplicateAndSortJS_map. f_equal.
  unfold allSuggestions, exactSuggestions, equivalentSuggestions, similarSuggestions,
    ruleBasedSuggestions, exactMatches, equivalentMatches.
  cbn [app]. rewrite !map_app, !map_map, <- !app_assoc.
  repeat apply (f_equal2 (@app _)); try reflexivity.
  apply map_ext. now intros [d s].
Qed.

Lemma filterC_Throw_ext {A : Type} (f : A -> completion bool) (p : A -> bool) l :
  (forall x, f x = if p x then Throw TypeError else Normal false) ->
  filterC f l = if existsb p l then Throw TypeError else Normal [].
Proof.
  intros Hf. induction l as [|x l IH]; [reflexivity|].
  cbn [filterC existsb]. rewrite Hf. destruct (p x); [reflexivity|].
  cbn [bind orb]. rewrite IH. now destruct (existsb p l).
Qed.

Lemma mapC_filter_Throw {A B C : Type} (f : B -> completion C) (g : A -> B) (p : A -> bool) l :
  (forall x, f (g x) = Throw TypeError) ->
  mapC f (List.map g (List.filter p l))
  = if existsb p l then Throw TypeError else Normal [].
Proof.
  intros Hf. induction l as [|x l IH]; [reflexivity|].
  cbn [List.filter existsb]. destruct (p x); cbn [List.map mapC orb].
  - now rewrite Hf.
  - exact IH.
Qed.

Lemma filter_none {A : Type} (l : list A) : List.filter (fun _ => false) l = [].
Proof. induction l; [reflexivity|assumption]. Qed.

(** A missing target. *)
Lemma findSubstitutesJS_None this a :
  findSubstitutesJS this None a = if readsTarget this a then Throw TypeError else Normal [].
Proof.
  unfold findSubstitutesJS, readsTarget. cbn zeta.
  assert (Hrules : applySubstitutionRulesJS this None []
                   = if existsb SubstitutionRule.isActive (Runtime.substitutionRules this)
                     then Throw TypeError else Normal []).
  { unfold applySubstitutionRulesJS.
    rewrite (filterC_Throw_ext _ SubstitutionRule.isActive)
      by (intros rule; now destruct (SubstitutionRule.isActive rule)).
    now destruct (existsb _ _). }
  destruct (default true a).
  - rewrite (filterC_Throw_ext _ (fun drug => above_zero (DrugObject.stockLevel drug)))
      by (intros d; now destruct (above_zero _)).
    destruct (existsb _ (Runtime.drugs this)); [reflexivity|].
    cbn. rewrite Hrules. now destruct (existsb _ _).
  - rewrite (filterC_Throw_ext _ (fun _ => true)) by reflexivity.
    destruct (existsb _ (Runtime.drugs this)); [reflexivity|].
    cbn. rewrite Hrules. now destruct (existsb _ _).
Qed.

(** A target without [dosageForm] on a catalog of complete drugs. *)
Lemma findSubstitutesJS_withoutDosageForm this t a :
  findSubstitutesJS (objectsOf this) (Some (withoutDosageForm (ofDrug t))) a
  = if readsDosageForm this t a then Throw TypeError else Normal [].
Proof.
  unfold findSubstitutesJS, readsDosageForm. cbn zeta.
  set (T := withoutDosageForm (ofDrug t)).
  assert (Hpool :
    (if default true a
     then filterC
            (fun drug =>
               if above_zero (DrugObject.stockLevel drug)
               then t0 <- deref (Some T) ;;
                    Normal (negb (same_string (DrugObject.id drug) (DrugObject.id t0)))
               else Normal false)
            (Runtime.drugs (objectsOf this))
     else filterC
            (fun drug =>
               t0 <- deref (Some T) ;;
               Normal (negb (same_string (DrugObject.id drug) (DrugObject.id t0))))
            (Runtime.drugs (objectsOf this)))
    = Normal (List.map ofDrug (searchPool this t a))).
  { unfold searchPool. cbn [objectsOf Runtime.drugs]. destruct (default true a).
    - apply filterC_map. intros d _. cbn. now destruct (gtb _ _).
    - apply filterC_map. intros d _. reflexivity. }
  rewrite Hpool. cbn [bind]. clear Hpool.
  set (pool := searchPool this t a).
  (* pass 1 *)
  rewrite (filterC_map_Throw _ ofDrug
             (fun d => sameMolecule t d && (Drug.dosage d =? Drug.dosage t)%string)
             (fun _ => false)).
  2:{ intros d _. unfold sameMolecule. cbn.
      destruct (_ =? _)%string; reflexivity. }
  destruct (existsb (fun d => sameMolecule t d && (Drug.dosage d =? Drug.dosage t)%string) pool)
    eqn:Hexact.
  { assert (Hmol : existsb (sameMolecule t) pool = true).
    { apply existsb_exists in Hexact. destruct Hexact as (d & Hd & H).
      apply andb_true_iff in H. apply existsb_exists. exists d. tauto. }
    now rewrite Hmol. }
  rewrite filter_none. cbn [bind List.map app].
  (* pass 2 *)
  rewrite (filterC_map _ ofDrug (sameMolecule t)).
  2:{ intros d _. unfold sameMolecule. cbn.
      rewrite bool_decide_eq_false_2 by apply not_elem_of_nil.
      now rewrite andb_true_r. }
  cbn [bind].
  rewrite (mapC_filter_Throw _ ofDrug (sameMolecule t)) by reflexivity.
  destruct (existsb (sameMolecule t) pool); [reflexivity|]. cbn [bind app orb].
  (* pass 3 *)
  unfold findSimilarByTherapeuticClassJS.
  rewrite (filterC_map _ ofDrug (fun d => sameCategory t d && negb (sameMolecule t d))).
  2:{ intros d _. unfold sameCategory, sameMolecule. cbn. now destruct (_ =? _)%string. }
  cbn [bind].
  rewrite (mapC_filter_Throw _ ofDrug (fun d => sameCategory t d && negb (sameMolecule t d)))
    by reflexivity.
  destruct (existsb (fun d => sameCategory t d && negb (sameMolecule t d)) pool);
    [reflexivity|].
  cbn [bind List.filter List.map app orb].
  (* pass 4 *)
  unfold applySubstitutionRulesJS. cbn [objectsOf Runtime.substitutionRules].
  rewrite (filterC_Throw_ext _ (fun rule => ruleReachesForm rule t)).
  2:{ intros rule. unfold ruleReachesForm. destruct (SubstitutionRule.isActive rule); [|reflexivity].
      cbn. destruct (_ =? _)%string; [|reflexivity]. cbn. now destruct (_ =? _)%string. }
  now destruct (existsb _ (substitutionRules this)).
Qed.

(** A drug of the catalog without [dosageForm] that passes the filter of
    the pool and has the molecule of a complete target. *)
Lemma findSubstitutesJS_incomplete_drug this t a d m :
  In d (Runtime.drugs this) ->
  (default true a = true -> above_zero (DrugObject.stockLevel d) = true) ->
  same_string (DrugObject.id d) (Some (Drug.id t)) = false ->
  DrugObject.activeMolecule d = Some m ->
  toLowerCase m = toLowerCase (Drug.activeMolecule t) ->
  DrugObject.dosageForm d = None ->
  findSubstitutesJS this (Some (ofDrug t)) a = Throw TypeError.
Proof.
  intros Hd Hstock Hid Hm Hlow Hform. apply not_Normal. intros r H.
  unfold findSubstitutesJS in H. cbn zeta in H.
  apply bind_Normal in H. destruct H as (pool & Hpool & H).
  apply bind_Normal in H. destruct H as (exact & Hexact & H).
  apply bind_Normal in H. destruct H as (equivalent & Hequivalent & H).
  apply bind_Normal in H. destruct H as (suggestions & Hsuggestions & _).
  assert (Hmol : sameMoleculeJS d (Some (ofDrug t)) = Normal true).
  { unfold sameMoleculeJS. rewrite Hm. cbn. rewrite Hlow. now rewrite String.eqb_refl. }
  assert (Hin : In d pool).
  { destruct (default true a).
    - destruct (filterC_inv _ _ _ Hpool d Hd) as (b & Hb & Hin). apply Hin.
      rewrite (Hstock eq_refl) in Hb. cbn in Hb. rewrite Hid in Hb. cbn in Hb. congruence.
    - destruct (filterC_inv _ _ _ Hpool d Hd) as (b & Hb & Hin). apply Hin.
      cbn in Hb. rewrite Hid in Hb. cbn in Hb. congruence. }
  assert (Hnot : ~ In d exact).
  { intros Hex. destruct (filterC_inv_In _ _ _ Hexact d Hex) as [_ Hb].
    rewrite Hmol in Hb. cbn in Hb. rewrite Hform in Hb.
    cbn in Hb. destruct (same_string (DrugObject.dosage d) _); discriminate. }
  assert (Hineq : In d equivalent).
  { destruct (filterC_inv _ _ _ Hequivalent d Hin) as (b & Hb & Hi). apply Hi.
    rewrite Hmol in Hb. cbn in Hb.
    rewrite bool_decide_eq_false_2 in Hb by (intros E; now apply Hnot, list_elem_of_In).
    cbn in Hb. congruence. }
  destruct (mapC_inv _ _ _ Hsuggestions d Hineq) as (y & Hy).
  cbn in Hy. unfold equivalentSuggestionJS, calculateEquivalentConfidenceJS in Hy.
  rewrite Hform in Hy. discriminate.
Qed.

Lemma resolveRules_empty_pool rules : resolveRules rules [] = [].
Proof.
  unfold resolveRules. induction rules as [|r rules IH]; [reflexivity|].
  cbn [flat_map]. rewrite IH, app_nil_r.
  induction (SubstitutionRule.equivalentDrugs r) as [|i ids IHi]; [reflexivity|].
  cbn [flat_map List.find app]. exact IHi.
Qed.

Lemma resolveRules_In_iff rules pool s :
  In s (resolveRules rules pool) <->
  exists rule drugId d,
    In rule rules /\ In drugId (SubstitutionRule.equivalentDrugs rule)
    /\ List.find (fun d => (Drug.id d =? drugId)%string) pool = Some d
    /\ s = ruleSuggestion rule d.
Proof.
  unfold resolveRules. rewrite in_flat_map. split.
  - intros (rule & Hr & Hs). apply in_flat_map in Hs. destruct Hs as (i & Hi & Hs).
    destruct (List.find _ pool) as [d|] eqn:Hf; cbn in Hs; [|tauto].
    destruct Hs as [<-|[]]. now exists rule, i, d.
  - intros (rule & i & d & Hr & Hi & Hf & ->). exists rule. split; [exact Hr|].
    apply in_flat_map. exists i. split; [exact Hi|]. rewrite Hf. now left.
Qed.

Lemma resolveRules_length rules pool :
  length (resolveRules rules pool)
  <= length (flat_map SubstitutionRule.equivalentDrugs rules).
Proof.
  unfold resolveRules. induction rules as [|rule rules IH]; cbn; [lia|].
  rewrite !length_app.
  assert (H : forall ids,
             length (flat_map
                       (fun drugId =>
                          match List.find (fun d => (Drug.id d =? drugId)%string) pool with
                          | Some drug => [ruleSuggestion rule drug]
                          | None => []
                          end) ids) <= length ids).
  { induction ids as [|i ids IHi]; cbn; [lia|].
    destruct (List.find _ pool); cbn; lia. }
  specialize (H (SubstitutionRule.equivalentDrugs rule)). lia.
Qed.

Lemma searchPool_all this t a d :
  In d (searchPool this t a) -> In d (searchPool this t (Some false)).
Proof.
  unfold searchPool. cbn. destruct (default true a); rewrite !filter_In; [|tauto].
  intros [Hd H]. apply andb_true_iff in H. tauto.
Qed.

Lemma searchPool_stock this t a d :
  In d (searchPool this t a) -> default true a = true ->
  gtb (Drug.stockLevel d) (int 0) = true.
Proof.
  unfold searchPool. intros H Ha. rewrite Ha in H. apply filter_In in H.
  destruct H as [_ H]. apply andb_true_iff in H. tauto.
Qed.

Lemma exactSuggestions_intro this t a d :
  In d (searchPool this t a) -> isExactMatch t d = true ->
  In (exactSuggestion d) (exactSuggestions this t a).
Proof.
  intros Hd He. unfold exactSuggestions, exactMatches. apply in_map. now apply filter_In.
Qed.

Lemma equivalentSuggestions_iff this t a s :
  In s (equivalentSuggestions this t a) <->
  exists d, In d (searchPool this t a) /\ sameMolecule t d = true
            /\ isExactMatch t d = false /\ s = equivalentSuggestion t d.
Proof.
  unfold equivalentSuggestions, equivalentMatches. rewrite in_map_iff. split.
  - intros (d & <- & Hd). apply filter_In in Hd. destruct Hd as [Hd H].
    apply andb_true_iff in H. destruct H as [Hm Hn].
    rewrite (includes_exactMatches this t a d Hd) in Hn.
    exists d. repeat split; auto. now apply negb_true_iff.
  - intros (d & Hd & Hm & He & ->). exists d. split; [reflexivity|].
    apply filter_In. split; [exact Hd|]. apply andb_true_iff. split; [exact Hm|].
    rewrite (includes_exactMatches this t a d Hd). now apply negb_true_iff.
Qed.

Lemma findSimilar_incl t pool pool' :
  incl pool pool' ->
  incl (findSimilarByTherapeuticClass t pool) (findSimilarByTherapeuticClass t pool').
Proof.
  intros Hi item. unfold findSimilarByTherapeuticClass. rewrite !filter_In, !in_map_iff.
  intros [(d & <- & Hd) Hg]. split; [|exact Hg]. exists d. split; [reflexivity|].
  apply filter_In in Hd. apply filter_In. destruct Hd. split; auto.
Qed.

Lemma ruleBasedSuggestions_iff this t a s :
  In s (ruleBasedSuggestions this t a) <->
  exists rule drugId d,
    In rule (substitutionRules this) /\ SubstitutionRule.isActive rule = true
    /\ ruleMatches rule t = true
    /\ In drugId (SubstitutionRule.equivalentDrugs rule)
    /\ List.find (fun d => (Drug.id d =? drugId)%string) (searchPool this t a) = Some d
    /\ s = ruleSuggestion rule d.
Proof.
  unfold ruleBasedSuggestions, applySubstitutionRules. rewrite resolveRules_In_iff.
  split.
  - intros (rule & i & d & Hr & Hi & Hf & ->). apply filter_In in Hr.
    destruct Hr as [Hr Hc]. exists rule, i, d.
    unfold ruleMatches. rewrite !andb_true_iff in Hc. rewrite !andb_true_iff. tauto.
  - intros (rule & i & d & Hr & Hact & Hm & Hi & Hf & ->). exists rule, i, d.
    repeat split; auto. apply filter_In. split; [exact Hr|].
    unfold ruleMatches in Hm. rewrite !andb_true_iff in Hm. rewrite !andb_true_iff. tauto.
Qed.

Lemma allSuggestions_key_all this t a s :
  In s (allSuggestions this t a) ->
  In (key s) (map key (allSuggestions this t (Some false))).
Proof.
  unfold allSuggestions. rewrite !in_app_iff, !map_app, !in_app_iff.
  intros [H|[H|[H|H]]].
  - apply exactSuggestions_In in H. destruct H as (d & Hd & He & ->).
    left. apply in_map. apply exactSuggestions_intro; [|exact He].
    now apply searchPool_all with a.
  - apply equivalentSuggestions_iff in H. destruct H as (d & Hd & Hm & He & ->).
    right; left. apply in_map. apply equivalentSuggestions_iff. exists d.
    repeat split; auto. now apply searchPool_all with a.
  - right; right; left. apply in_map. unfold similarSuggestions in *.
    apply in_map_iff in H. destruct H as (item & <- & Hitem). apply in_map.
    revert Hitem. apply findSimilar_incl. intros d. apply searchPool_all.
  - right; right; right. apply ruleBasedSuggestions_iff in H.
    destruct H as (rule & i & d & Hr & Hact & Hm & Hi & Hf & ->).
    destruct (List.find (fun d => (Drug.id d =? i)%string) (searchPool this t (Some false)))
      as [d'|] eqn:Hf'.
    + apply in_map_iff. exists (ruleSuggestion rule d'). split.
      * apply find_some in Hf. apply find_some in Hf'. destruct Hf as [_ Hf], Hf' as [_ Hf'].
        apply String.eqb_eq in Hf, Hf'. unfold key. cbn. congruence.
      * apply ruleBasedSuggestions_iff. now exists rule, i, d'.
    + exfalso. apply find_some in Hf. destruct Hf as [Hd Hid].
      apply searchPool_all in Hd. apply (find_none _ _ Hf') in Hd. cbn in Hd. congruence.
Qed.

(** *** What the passes find *)

Lemma nil_iff {A : Type} (l : list A) : l = [] <-> forall x, ~ In x l.
Proof.
  split; [intros -> x []|]. destruct l as [|x l]; [reflexivity|].
  intros H. destruct (H x). now left.
Qed.

Lemma isExactMatch_sameMolecule t d : isExactMatch t d = true -> sameMolecule t d = true.
Proof. unfold isExactMatch, sameMolecule. rewrite !andb_true_iff. tauto. Qed.

Lemma similarity_at_least_30 t d : geb (calculateTherapeuticSimilarity t d) (int 30) = true.
Proof.
  destruct (calculateTherapeuticSimilarity_formula t d) as (_ & n & Hn & ->).
  change (int 30) with (Finite (inject_Z 30)).
  unfold geb, leb, compare. rewrite Qcompare_inject_Z.
  destruct (Z.compare_spec 30 n); auto; lia.
Qed.

Lemma similarity_values t d :
  In (calculateTherapeuticSimilarity t d) [int 40; int 55; int 60; int 75].
Proof.
  destruct (calculateTherapeuticSimilarity_formula t d) as [-> _].
  destruct (sameDosageForm t d), (haveSimilarNames _ _); cbn; auto 6.
Qed.

(** Pass 3 keeps every drug of the pool with the category of the target and
    another molecule: no score is below 30. *)
Lemma similarSuggestions_all this t a :
  similarSuggestions this t a
  = List.map (fun d => similarSuggestion (d, calculateTherapeuticSimilarity t d))
      (List.filter (fun d => sameCategory t d && negb (sameMolecule t d))
         (searchPool this t a)).
Proof.
  unfold similarSuggestions, findSimilarByTherapeuticClass.
  rewrite filter_all.
  - now rewrite map_map.
  - intros item Hi. apply in_map_iff in Hi. destruct Hi as (d & <- & _).
    apply similarity_at_least_30.
Qed.

Lemma similarSuggestions_iff this t a s :
  In s (similarSuggestions this t a) <->
  exists d, In d (searchPool this t a) /\ sameCategory t d = true
            /\ sameMolecule t d = false
            /\ s = similarSuggestion (d, calculateTherapeuticSimilarity t d).
Proof.
  rewrite similarSuggestions_all, in_map_iff. split.
  - intros (d & <- & Hd). apply filter_In in Hd. destruct Hd as [Hd H].
    apply andb_true_iff in H. destruct H as [Hc Hm]. apply negb_true_iff in Hm.
    now exists d.
  - intros (d & Hd & Hc & Hm & ->). exists d. split; [reflexivity|].
    apply filter_In. split; [exact Hd|]. now rewrite Hc, Hm.
Qed.

Lemma exactSuggestions_iff this t a s :
  In s (exactSuggestions this t a) <->
  exists d, In d (searchPool this t a) /\ isExactMatch t d = true /\ s = exactSuggestion d.
Proof.
  split; [apply exactSuggestions_In|].
  intros (d & Hd & He & ->). now apply exactSuggestions_intro.
Qed.

(** An identifier that some pass suggests is in the result. *)
Lemma suggested_key this t a s :
  In s (allSuggestions this t a) -> In (key s) (List.map key (findSubstitutes this t a)).
Proof.
  intros Hs. apply (in_map key) in Hs.
  destruct (first_with_key_exists _ _ Hs) as (s' & Hs' & Hk).
  apply in_map_iff. exists s'. split; [exact Hk|]. now apply findSubstitutes_In.
Qed.

(** What a suggestion of the result is, by the pass that gave it. *)
Lemma findSubstitutes_kinds this t a s :
  In s (findSubstitutes this t a) ->
  (isExactMatch t (drug s) = true /\ s = exactSuggestion (drug s))
  \/ (sameMolecule t (drug s) = true /\ isExactMatch t (drug s) = false
      /\ s = equivalentSuggestion t (drug s))
  \/ (sameCategory t (drug s) = true /\ sameMolecule t (drug s) = false
      /\ s = similarSuggestion (drug s, calculateTherapeuticSimilarity t (drug s)))
  \/ (sameMolecule t (drug s) = false /\ sameCategory t (drug s) = false
      /\ exists rule,
           In rule (substitutionRules this) /\ SubstitutionRule.isActive rule = true
           /\ ruleMatches rule t = true
           /\ In (key s) (SubstitutionRule.equivalentDrugs rule)
           /\ s = ruleSuggestion rule (drug s)).
Proof.
  intros Hs. apply findSubstitutes_In in Hs. pose proof (first_with_key_In _ _ Hs) as Hin.
  unfold allSuggestions in Hin. rewrite !in_app_iff in Hin.
  destruct Hin as [H|[H|[H|H]]].
  - apply exactSuggestions_In in H. destruct H as (d & _ & He & ->). now left.
  - apply equivalentSuggestions_iff in H. destruct H as (d & _ & Hm & He & ->).
    right. now left.
  - apply similarSuggestions_iff in H. destruct H as (d & _ & Hc & Hm & ->).
    right. right. now left.
  - apply ruleBasedSuggestions_iff in H.
    destruct H as (rule & i & d & Hr & Hact & Hrm & Hi & Hf & ->).
    apply find_some in Hf. destruct Hf as [Hd Hid]. apply String.eqb_eq in Hid.
    right. right. right. cbn [drug ruleSuggestion].
    assert (Hmol : sameMolecule t d = false).
    { apply not_true_is_false. intros Hm.
      assert (Hk : In (key (ruleSuggestion rule d))
                     (List.map key (exactSuggestions this t a ++ equivalentSuggestions this t a))).
      { rewrite map_app, in_app_iff. destruct (isExactMatch t d) eqn:He.
        - left. change (key (ruleSuggestion rule d)) with (key (exactSuggestion d)).
          apply in_map. now apply exactSuggestions_intro.
        - right. change (key (ruleSuggestion rule d)) with (key (equivalentSuggestion t d)).
          apply in_map, equivalentSuggestions_iff. now exists d. }
      unfold allSuggestions in Hs. rewrite app_assoc in Hs.
      apply first_with_key_prefix in Hs; [|exact Hk].
      apply first_with_key_In in Hs. revert Hs. apply ruleSuggestion_not_earlier. }
    split; [exact Hmol|]. split.
    + apply not_true_is_false. intros Hc.
      assert (Hk : In (key (ruleSuggestion rule d))
                     (List.map key (exactSuggestions this t a ++ equivalentSuggestions this t a
                                    ++ similarSuggestions this t a))).
      { rewrite !map_app, !in_app_iff. right. right.
        change (key (ruleSuggestion rule d))
          with (key (similarSuggestion (d, calculateTherapeuticSimilarity t d))).
        apply in_map, similarSuggestions_iff. now exists d. }
      unfold allSuggestions in Hs.
      replace (exactSuggestions this t a ++ equivalentSuggestions this t a
               ++ similarSuggestions this t a ++ ruleBasedSuggestions this t a)
        with ((exactSuggestions this t a ++ equivalentSuggestions this t a
               ++ similarSuggestions this t a) ++ ruleBasedSuggestions this t a) in Hs
        by now rewrite <- !app_assoc.
      apply first_with_key_prefix in Hs; [|exact Hk].
      apply first_with_key_In in Hs. rewrite !in_app_iff in Hs.
      destruct Hs as [Hs|[Hs|Hs]].
      * apply exactSuggestions_In in Hs. destruct Hs as (? & _ & _ & [=]).
      * apply equivalentSuggestions_In in Hs. destruct Hs as (? & _ & [=]).
      * apply similarSuggestions_In in Hs. destruct Hs as (? & _ & [=]).
    + exists rule. unfold key. cbn [drug ruleSuggestion]. rewrite Hid. auto.
Qed.

Lemma noMatches_spec this t a :
  noMatches this t a = true <->
  (forall d, In d (searchPool this t a) -> sameMolecule t d = false /\ sameCategory t d = false)
  /\ (forall rule i d,
        In rule (substitutionRules this) -> SubstitutionRule.isActive rule = true ->
        ruleMatches rule t = true -> In i (SubstitutionRule.equivalentDrugs rule) ->
        In d (searchPool this t a) -> (Drug.id d =? i)%string = false).
Proof.
  unfold noMatches. rewrite andb_true_iff, !forallb_forall. split.
  - intros [Hp Hr]. split.
    + intros d Hd. specialize (Hp d Hd). rewrite andb_true_iff, !negb_true_iff in Hp. exact Hp.
    + intros rule i d Hrule Hact Hm Hi Hd. specialize (Hr rule Hrule).
      rewrite Hact, Hm in Hr. cbn in Hr. rewrite forallb_forall in Hr.
      specialize (Hr i Hi). apply negb_true_iff in Hr.
      destruct (Drug.id d =? i)%string eqn:E; [|reflexivity].
      assert (existsb (fun d => (Drug.id d =? i)%string) (searchPool this t a) = true)
        by (apply existsb_exists; now exists d).
      congruence.
  - intros [Hp Hr]. split.
    + intros d Hd. destruct (Hp d Hd) as [-> ->]. reflexivity.
    + intros rule Hrule.
      destruct (SubstitutionRule.isActive rule) eqn:Hact; [|reflexivity].
      destruct (ruleMatches rule t) eqn:Hm; [|reflexivity].
      cbn. apply forallb_forall. intros i Hi. apply negb_true_iff, not_true_is_false.
      intros H. apply existsb_exists in H. destruct H as (d & Hd & H).
      rewrite (Hr rule i d Hrule Hact Hm Hi Hd) in H. discriminate.
Qed.

(** The result is empty exactly when no pass finds a candidate. *)
Lemma findSubstitutes_empty this t a :
  findSubstitutes this t a = [] <-> noMatches this t a = true.
Proof.
  rewrite noMatches_spec. split.
  - intros Hnil.
    assert (Hall : forall s, ~ In s (allSuggestions this t a)).
    { intros s Hs. apply suggested_key in Hs. rewrite Hnil in Hs. destruct Hs. }
    split.
    + intros d Hd. split.
      * apply not_true_is_false. intros Hm. destruct (isExactMatch t d) eqn:He.
        -- apply (Hall (exactSuggestion d)). unfold allSuggestions. rewrite !in_app_iff.
           left. now apply exactSuggestions_intro.
        -- apply (Hall (equivalentSuggestion t d)). unfold allSuggestions.
           rewrite !in_app_iff. right. left. apply equivalentSuggestions_iff. now exists d.
      * apply not_true_is_false. intros Hc. destruct (sameMolecule t d) eqn:Hm.
        -- destruct (isExactMatch t d) eqn:He.
           ++ apply (Hall (exactSuggestion d)). unfold allSuggestions. rewrite !in_app_iff.
              left. now apply exactSuggestions_intro.
           ++ apply (Hall (equivalentSuggestion t d)). unfold allSuggestions.
              rewrite !in_app_iff. right. left. apply equivalentSuggestions_iff. now exists d.
        -- apply (Hall (similarSuggestion (d, calculateTherapeuticSimilarity t d))).
           unfold allSuggestions. rewrite !in_app_iff. right. right. left.
           apply similarSuggestions_iff. now exists d.
    + intros rule i d Hrule Hact Hm Hi Hd. apply not_true_is_false. intros Hid.
      destruct (List.find (fun d => (Drug.id d =? i)%string) (searchPool this t a))
        as [d'|] eqn:Hf.
      * apply (Hall (ruleSuggestion rule d')). unfold allSuggestions. rewrite !in_app_iff.
        right. right. right. apply ruleBasedSuggestions_iff. now exists rule, i, d'.
      * apply (find_none _ _ Hf) in Hd. cbn in Hd. congruence.
  - intros [Hp Hr]. apply nil_iff. intros s Hs.
    destruct (findSubstitutes_kinds this t a s Hs) as [[He _]|[[Hm _]|[[Hc _]|H]]];
      apply findSubstitutes_In, first_with_key_In, allSuggestions_drug in Hs.
    + apply isExactMatch_sameMolecule in He. destruct (Hp _ Hs). congruence.
    + destruct (Hp _ Hs). congruence.
    + destruct (Hp _ Hs). congruence.
    + destruct H as (_ & _ & rule & Hrule & Hact & Hm & Hi & _).
      specialize (Hr rule _ _ Hrule Hact Hm Hi Hs). unfold key in Hr.
      now rewrite String.eqb_refl in Hr.
Qed.

Lemma filter_partition {A : Type} (p q : A -> bool) l :
  (forall x, p x = true -> q x = true) ->
  Permutation (List.filter p l ++ List.filter (fun x => q x && negb (p x)) l)
    (List.filter q l).
Proof.
  intros Hpq. induction l as [|x l IH]; [constructor|].
  cbn [List.filter]. specialize (Hpq x).
  destruct (p x) eqn:Hp.
  - rewrite (Hpq eq_refl). cbn. now constructor.
  - destruct (q x); cbn; [|exact IH].
    etransitivity; [apply Permutation_sym, Permutation_middle|]. now constructor.
Qed.

(** *** The claims *)

(** C1. No suggestion of [findSubstitutes] is about the target: the search
    pool holds no drug with the identifier of the target, whatever
    [availableOnly] is, and the suggestions of the rules are resolved in that
    pool like those of the three other passes. *)
Theorem findSubstitutes_excludes_target this t a :
  Forall (fun d => Drug.id d <> Drug.id t) (searchPool this t a)
  /\ Forall (fun s => Drug.id (drug s) <> Drug.id t) (ruleBasedSuggestions this t a)
  /\ Forall (fun s => Drug.id (drug s) <> Drug.id t) (findSubstitutes this t a).
Proof.
  assert (forall d, In d (searchPool this t a) -> Drug.id d <> Drug.id t) as Hpool.
  { intros d Hd. apply searchPool_In in Hd. destruct Hd as [_ Hd].
    apply String.eqb_neq. exact Hd. }
  repeat split; apply List.Forall_forall.
  - exact Hpool.
  - intros s Hs. apply Hpool, allSuggestions_drug.
    unfold allSuggestions. rewrite !in_app_iff. tauto.
  - intros s Hs. apply Hpool, allSuggestions_drug.
    apply findSubstitutes_In, first_with_key_In in Hs. exact Hs.
Qed.

(** C2. Each identifier occurs at most once in the result of
    [findSubstitutes]; the suggestion kept for an identifier is the first one
    with it in the concatenation exact, equivalent, similar, rule-based; and
    a suggestion of the rules about a drug that pass 2 suggests is not in the
    result. *)
Theorem findSubstitutes_first_per_identifier this t a :
  List.NoDup (map key (findSubstitutes this t a))
  /\ (forall s, In s (findSubstitutes this t a)
                <-> first_with_key
                      (exactSuggestions this t a ++ equivalentSuggestions this t a
                         ++ similarSuggestions this t a ++ ruleBasedSuggestions this t a) s)
  /\ (forall r, In r (ruleBasedSuggestions this t a) ->
                In (key r) (map key (equivalentSuggestions this t a)) ->
                ~ In r (findSubstitutes this t a)).
Proof.
  split; [rewrite findSubstitutes_passes; apply deduplicateAndSort_NoDup|].
  split; [intros s; apply findSubstitutes_In|].
  intros r Hr Hk Hin.
  apply ruleBasedSuggestions_In in Hr. destruct Hr as (rule & d & _ & ->).
  apply findSubstitutes_In in Hin. unfold allSuggestions in Hin.
  rewrite app_assoc in Hin. apply first_with_key_prefix in Hin.
  - apply first_with_key_In in Hin. revert Hin. apply ruleSuggestion_not_earlier.
  - rewrite map_app, in_app_iff. right. exact Hk.
Qed.

(** C4, as the code has it.  [findSubstitutes] checks nothing and has no
    condition of its own to raise.  When the target and the drugs of the
    catalog have every property the engine reads, the call returns what the
    method on the declared types returns, and the result is empty exactly
    when no pass finds a candidate.  A missing target throws [TypeError]
    when a drug of the catalog reaches the comparison of identifiers or a
    rule is active, and gives the empty list otherwise.  A target without
    [dosageForm], the object [AddDrugModal] builds, throws [TypeError] when
    a candidate or a rule reaches the comparison of the forms, and gives the
    empty list otherwise.  A drug of the catalog without [dosageForm] that
    is in the pool and has the molecule of the target makes the call on a
    complete target throw [TypeError]. *)
Theorem findSubstitutes_never_validates this t a :
  findSubstitutesJS (objectsOf this) (Some (ofDrug t)) a
  = Normal (List.map ofSuggestion (findSubstitutes this t a))
  /\ (findSubstitutes this t a = [] <-> noMatches this t a = true)
  /\ (forall objects,
        findSubstitutesJS objects None a
        = if readsTarget objects a then Throw TypeError else Normal [])
  /\ findSubstitutesJS (objectsOf this) (Some (withoutDosageForm (ofDrug t))) a
     = (if readsDosageForm this t a then Throw TypeError else Normal [])
  /\ (forall objects d m,
        In d (Runtime.drugs objects) ->
        (default true a = true -> above_zero (DrugObject.stockLevel d) = true) ->
        same_string (DrugObject.id d) (Some (Drug.id t)) = false ->
        DrugObject.activeMolecule d = Some m ->
        toLowerCase m = toLowerCase (Drug.activeMolecule t) ->
        DrugObject.dosageForm d = None ->
        findSubstitutesJS objects (Some (ofDrug t)) a = Throw TypeError).
Proof.
  split; [apply findSubstitutesJS_complete|].
  split; [apply findSubstitutes_empty|].
  split; [intros objects; apply findSubstitutesJS_None|].
  split; [apply findSubstitutesJS_withoutDosageForm|].
  intros objects d m. apply findSubstitutesJS_incomplete_drug.
Qed.

(** C5, as the code has it.  Unless both dosages parse to [Infinity], the
    confidence of an equivalent match is the formula of the specification
    with the strength bonus present when both strengths parse and neither is
    zero, and it is an integer from 80 to 90.  The bonus is the one the code
    computes on doubles, [ratioBonus]: the quotient and the product are
    rounded, so it can be one more than the floor of the exact value
    ([ratioBonus_rounds]). *)
Theorem equivalent_confidence_amended t c :
  ~ bothInfinite t c ->
  calculateEquivalentConfidence t c = equivalentConfidenceAmended t c
  /\ exists n, (80 <= n <= 90)%Z /\ calculateEquivalentConfidence t c = Finite (inject_Z n).
Proof.
  intros Hfin.
  destruct (calculateEquivalentConfidence_cases t c) as [[Hinf _]|[_ Hc]].
  - contradiction.
  - exact Hc.
Qed.

(** C6. Pass 3 suggests every drug of the pool that has the category of the
    target, up to case, and another molecule, each with match type
    [similar], the single warning, and the score: 40, plus 20 when the
    dosage forms match, plus 15 when the generic names are similar, capped
    at 75.  The score of every pair is one of 40, 55, 60 and 75, so the test
    against 30 excludes nothing and every score is within 30 and 75.  A
    suggestion of type [similar] in the result of [findSubstitutes] is one
    of these, and each drug pass 3 suggests has its identifier in the
    result; when the identifiers of the catalog are distinct the result
    holds the suggestion of pass 3 itself. *)
Theorem similar_suggestions_scored this t a :
  similarSuggestions this t a
  = List.map (fun d => similarSuggestion (d, calculateTherapeuticSimilarity t d))
      (List.filter (fun d => sameCategory t d && negb (sameMolecule t d))
         (searchPool this t a))
  /\ (forall c,
        calculateTherapeuticSimilarity t c
        = similarityFormula (sameDosageForm t c)
            (haveSimilarNames (Drug.genericName t) (Drug.genericName c))
        /\ In (calculateTherapeuticSimilarity t c) [int 40; int 55; int 60; int 75])
  /\ Forall (similarScored t) (similarSuggestions this t a)
  /\ Forall (fun s => matchType s = MatchType.similar -> similarScored t s)
       (findSubstitutes this t a)
  /\ Forall (fun item => geb (snd item) (int 30) = true)
       (findSimilarByTherapeuticClass t (searchPool this t a))
  /\ (forall d,
        In d (searchPool this t a) -> sameCategory t d = true -> sameMolecule t d = false ->
        In (Drug.id d) (List.map key (findSubstitutes this t a))
        /\ (List.NoDup (List.map Drug.id (drugs this)) ->
            In (similarSuggestion (d, calculateTherapeuticSimilarity t d))
              (findSubstitutes this t a))).
Proof.
  split; [apply similarSuggestions_all|].
  split; [intros c; split;
          [apply calculateTherapeuticSimilarity_formula|apply similarity_values]|].
  split; [apply List.Forall_forall; intros s Hs; eapply similarSuggestions_scored; eassumption|].
  split.
  { apply List.Forall_forall. intros s Hs Hm.
    apply findSubstitutes_In, first_with_key_In in Hs.
    unfold allSuggestions in Hs. rewrite !in_app_iff in Hs. destruct Hs as [Hs|[Hs|[Hs|Hs]]].
    - apply exactSuggestions_In in Hs. destruct Hs as (d & _ & _ & ->). discriminate.
    - apply equivalentSuggestions_In in Hs. destruct Hs as (d & _ & ->). discriminate.
    - eapply similarSuggestions_scored; eassumption.
    - apply ruleBasedSuggestions_In in Hs. destruct Hs as (rule & d & _ & ->). discriminate. }
  split.
  { apply List.Forall_forall. intros item Hi. unfold findSimilarByTherapeuticClass in Hi.
    apply filter_In in Hi. tauto. }
  intros d Hd Hc Hm.
  set (s := similarSuggestion (d, calculateTherapeuticSimilarity t d)).
  assert (Hs : In s (similarSuggestions this t a))
    by (apply similarSuggestions_iff; now exists d).
  assert (Hall : In s (allSuggestions this t a))
    by (unfold allSuggestions; rewrite !in_app_iff; tauto).
  split; [apply (suggested_key this t a s Hall)|].
  intros Hnd. pose proof (suggested_key this t a s Hall) as Hk.
  apply in_map_iff in Hk. destruct Hk as (s' & Hk & Hs').
  assert (Hdrug : drug s' = d).
  { apply (unique_id (drugs this)); auto.
    - apply findSubstitutes_In, first_with_key_In, allSuggestions_drug in Hs'.
      now destruct (searchPool_In this t a _ Hs').
    - now destruct (searchPool_In this t a _ Hd). }
  destruct (findSubstitutes_kinds this t a s' Hs') as [[He _]|[[Hm' _]|[(_ & _ & E)|(_ & Hc' & _)]]];
    rewrite Hdrug in *.
  - apply isExactMatch_sameMolecule in He. congruence.
  - congruence.
  - now rewrite E in Hs'.
  - congruence.
Qed.

(** C7. The five strengths of the specification, and what a dosage without
    strength does to a pair: the suggestion of pass 2 is built all the same,
    its adjustment is [undefined], and its confidence is the formula without
    the strength bonus. *)
Theorem parseStrength_examples :
  parseStrength "500mg" = Some (int 500)
  /\ parseStrength "1g" = Some (int 1000)
  /\ parseStrength "50mcg" = Some (round64 (5 # 100))
  /\ parseStrength "5ml" = Some (int 5)
  /\ parseStrength "as needed" = None
  /\ forall t c,
       parseStrength (Drug.dosage t) = None \/ parseStrength (Drug.dosage c) = None ->
       calculateDosageAdjustment t c = None
       /\ dosageAdjustment (equivalentSuggestion t c) = None
       /\ confidence (equivalentSuggestion t c)
          = confidenceFormula (if sameDosageForm t c then int 10 else int 0) (int 0)
              (if brandsAlike t c then int 5 else int 0)
       /\ exists n, (80 <= n <= 90)%Z
            /\ calculateEquivalentConfidence t c = Finite (inject_Z n).
Proof.
  do 5 (split; [vm_compute; reflexivity|]).
  intros t c Hnone.
  cbn [equivalentSuggestion dosageAdjustment confidence].
  rewrite calculateEquivalentConfidence_steps. unfold calculateDosageAdjustment.
  destruct (confidenceSteps_skip (sameDosageForm t c) (brandsAlike t c)) as (n & Hn & Hs & Hf).
  destruct (parseStrength (Drug.dosage t)) as [x|], (parseStrength (Drug.dosage c)) as [y|];
    try (destruct Hnone; discriminate);
    rewrite Hf, Hs; repeat (split; [reflexivity|]); exists n; auto.
Qed.

(** C9. [updateData] with the rules left out binds the empty rule set:
    afterwards no rule applies, and [findSubstitutes] answers as an engine
    built from the new catalog alone. *)
Theorem updateData_resets_rules this newDrugs :
  updateData this newDrugs None = {| drugs := newDrugs; substitutionRules := [] |}
  /\ (forall newRules,
        updateData this newDrugs (Some newRules)
        = {| drugs := newDrugs; substitutionRules := newRules |})
  /\ (forall t pool, applySubstitutionRules (updateData this newDrugs None) t pool = [])
  /\ (forall t a,
        findSubstitutes (updateData this newDrugs None) t a
        = findSubstitutes (new newDrugs None) t a).
Proof. repeat split. Qed.

(** C10. When the cleaned generic name of one of two drugs is empty,
    [haveSimilarNames] answers true, and the similarity holds the bonus of
    15: it is 55, or 75 when the dosage forms match. *)
Theorem empty_clean_name_is_similar t c :
  strip_non_letters (toLowerCase (Drug.genericName t)) = ""
  \/ strip_non_letters (toLowerCase (Drug.genericName c)) = "" ->
  haveSimilarNames (Drug.genericName t) (Drug.genericName c) = true
  /\ calculateTherapeuticSimilarity t c = similarityFormula (sameDosageForm t c) true
  /\ calculateTherapeuticSimilarity t c = (if sameDosageForm t c then int 75 else int 55).
Proof.
  intros Hclean.
  assert (haveSimilarNames (Drug.genericName t) (Drug.genericName c) = true) as Hsim.
  { unfold haveSimilarNames. destruct Hclean as [-> | ->]; cbn [substring_to String.substring].
    - rewrite includes_empty. apply orb_true_r.
    - rewrite includes_empty. reflexivity. }
  split; [exact Hsim|].
  destruct (calculateTherapeuticSimilarity_formula t c) as [-> _]. rewrite Hsim.
  split; [reflexivity|]. destruct (sameDosageForm t c); reflexivity.
Qed.

(** *** Further properties *)

(** X1. When the strength of the target is not infinite, the result of
    [findSubstitutes] is in descending order of confidence, and the
    suggestions of one confidence stand in the order in which the passes
    found them. *)
Theorem findSubstitutes_sorted_stable this t a :
  parseStrength (Drug.dosage t) <> Some PosInf ->
  confidenceDescending (findSubstitutes this t a) = true
  /\ forall n, withConfidence n (findSubstitutes this t a)
               = withConfidence n (filter_unseen ∅ (allSuggestions this t a)).
Proof.
  intros Hfin. rewrite findSubstitutes_passes. unfold deduplicateAndSort.
  assert (allScored (filter_unseen ∅ (allSuggestions this t a))) as Hall.
  { apply List.Forall_forall. intros s Hs. apply filter_unseen_first in Hs.
    destruct Hs as [Hs _]. apply first_with_key_In in Hs.
    pose proof (allSuggestions_scored this t a Hfin) as Hsc.
    unfold allScored in Hsc. rewrite List.Forall_forall in Hsc. apply Hsc. exact Hs. }
  split.
  - apply (sort_descending _ Hall).
  - intros n. apply (sort_stable n _ Hall).
Qed.

(** X2. A strength that is zero counts as a strength that did not parse: the
    adjustment is [undefined] and the confidence has no strength bonus.  When
    both strengths are used, the two divisors, [Math.max] of the two and the
    strength of the candidate, are not zero. *)
Theorem zero_strength_is_skipped t c :
  usable (parseStrength (Drug.dosage t)) && usable (parseStrength (Drug.dosage c)) = false ->
  calculateDosageAdjustment t c = None
  /\ calculateEquivalentConfidence t c
     = confidenceFormula (if sameDosageForm t c then int 10 else int 0) (int 0)
         (if brandsAlike t c then int 5 else int 0).
Proof.
  intros Hskip. rewrite calculateEquivalentConfidence_steps. unfold calculateDosageAdjustment.
  destruct (confidenceSteps_skip (sameDosageForm t c) (brandsAlike t c)) as (n & Hn & Hs & Hf).
  rewrite Hf.
  destruct (parseStrength (Drug.dosage t)) as [x|], (parseStrength (Drug.dosage c)) as [y|];
    cbn [usable] in Hskip; try (split; [reflexivity|exact Hs]).
  rewrite Hskip. split; [|exact Hs].
  apply andb_false_iff in Hskip. destruct Hskip as [-> | ->]; [reflexivity|].
  rewrite orb_true_r. reflexivity.
Qed.

(** X3. When both strengths of a pair are used, the divisors of the two ratios,
    [Math.max] of the two strengths and the strength of the candidate, are
    above zero. *)
Theorem used_strengths_divisors t c x y :
  parseStrength (Drug.dosage t) = Some x -> parseStrength (Drug.dosage c) = Some y ->
  ToBoolean x = true -> ToBoolean y = true ->
  ToBoolean (max x y) = true /\ sign (max x y) = Gt /\ sign y = Gt.
Proof.
  intros Hx Hy Htx Hty.
  apply parseStrength_nonneg in Hx. apply parseStrength_nonneg in Hy.
  assert (forall z, nonneg z -> ToBoolean z = true -> sign z = Gt) as Hsign.
  { intros [r| | |] Hz Hz'; try contradiction; try discriminate; [|reflexivity].
    apply Qsign_pos, truthy_pos; assumption. }
  assert (max x y = x \/ max x y = y) as [-> | ->].
  { unfold max. destruct x, y; try discriminate; cbn [compare]; try tauto.
    destruct (Qcompare _ _); tauto. }
  - auto.
  - auto.
Qed.

(** X4. What each suggestion of the result is.  A suggestion of type
    [exact] is the object of pass 1 for a drug that passes the exact test,
    with confidence 95, no adjustment and no warnings.  A suggestion of type
    [equivalent] with warnings is the object of pass 2 for a drug with the
    molecule of the target that is no exact match.  A suggestion of type
    [similar] is the object of pass 3.  A suggestion of type [equivalent]
    without warnings comes from a rule, has confidence 85, and is about a
    drug that has neither the molecule nor the category of the target: for
    any other drug an earlier pass has taken the identifier.  Each
    identifier that a rule that applies lists and the pool holds is in the
    result. *)
Theorem suggestions_by_pass this t a :
  Forall (fun s =>
            match matchType s, warnings s with
            | MatchType.exact, _ =>
                isExactMatch t (drug s) = true /\ s = exactSuggestion (drug s)
                /\ confidence s = int 95 /\ dosageAdjustment s = None /\ warnings s = None
            | MatchType.equivalent, Some _ =>
                sameMolecule t (drug s) = true /\ isExactMatch t (drug s) = false
                /\ s = equivalentSuggestion t (drug s)
            | MatchType.equivalent, None =>
                sameMolecule t (drug s) = false /\ sameCategory t (drug s) = false
                /\ confidence s = int 85
                /\ exists rule,
                     In rule (substitutionRules this)
                     /\ SubstitutionRule.isActive rule = true
                     /\ ruleMatches rule t = true
                     /\ In (key s) (SubstitutionRule.equivalentDrugs rule)
                     /\ s = ruleSuggestion rule (drug s)
            | MatchType.similar, _ =>
                sameCategory t (drug s) = true /\ sameMolecule t (drug s) = false
                /\ s = similarSuggestion (drug s, calculateTherapeuticSimilarity t (drug s))
            end)
    (findSubstitutes this t a)
  /\ (forall rule i,
        In rule (substitutionRules this) -> SubstitutionRule.isActive rule = true ->
        ruleMatches rule t = true -> In i (SubstitutionRule.equivalentDrugs rule) ->
        In i (List.map Drug.id (searchPool this t a)) ->
        In i (List.map key (findSubstitutes this t a))).
Proof.
  split.
  - apply List.Forall_forall. intros s Hs.
    destruct (findSubstitutes_kinds this t a s Hs)
      as [[He E]|[(Hm & He & E)|[(Hc & Hm & E)|(Hm & Hc & rule & Hr)]]].
    + assert (Hk : matchType s = MatchType.exact) by (rewrite E; reflexivity).
      rewrite Hk. repeat split; auto; rewrite E; reflexivity.
    + assert (Hk : matchType s = MatchType.equivalent) by (rewrite E; reflexivity).
      assert (Hw : exists w, warnings s = Some w) by (rewrite E; eexists; reflexivity).
      destruct Hw as [w Hw]. rewrite Hk, Hw. auto.
    + assert (Hk : matchType s = MatchType.similar) by (rewrite E; reflexivity).
      rewrite Hk. auto.
    + destruct Hr as (Hrule & Hact & Hrm & Hi & E).
      assert (Hk : matchType s = MatchType.equivalent) by (rewrite E; reflexivity).
      assert (Hw : warnings s = None) by (rewrite E; reflexivity).
      rewrite Hk, Hw. repeat split; auto; [now rewrite E|]. now exists rule.
  - intros rule i Hrule Hact Hm Hi Hpool.
    destruct (List.find (fun d => (Drug.id d =? i)%string) (searchPool this t a))
      as [d|] eqn:Hf.
    + pose proof Hf as Hf'. apply find_some in Hf'. destruct Hf' as [_ Hid].
      apply String.eqb_eq in Hid. rewrite <- Hid.
      change (Drug.id d) with (key (ruleSuggestion rule d)). apply suggested_key.
      unfold allSuggestions. rewrite !in_app_iff. right. right. right.
      apply ruleBasedSuggestions_iff. now exists rule, i, d.
    + apply in_map_iff in Hpool. destruct Hpool as (d & Hid & Hd).
      apply (find_none _ _ Hf) in Hd. cbn in Hd. rewrite Hid, String.eqb_refl in Hd.
      discriminate.
Qed.

(** X5. Pass 1 and pass 2 split the drugs of the pool that have the molecule
    of the target: each of them is an exact match or an equivalent match,
    and none is both. *)
Theorem molecule_matches_partition this t a :
  Permutation (exactMatches this t a ++ equivalentMatches this t a)
    (List.filter (sameMolecule t) (searchPool this t a))
  /\ Forall (fun d => ~ In d (equivalentMatches this t a)) (exactMatches this t a)
  /\ Forall (fun d => sameMolecule t d = true /\ isExactMatch t d = false)
       (equivalentMatches this t a).
Proof.
  assert (Heq : equivalentMatches this t a
                = List.filter (fun d => sameMolecule t d && negb (isExactMatch t d))
                    (searchPool this t a)).
  { unfold equivalentMatches. apply filter_ext_in. intros d Hd.
    now rewrite (includes_exactMatches this t a d Hd). }
  rewrite Heq. unfold exactMatches. split; [|split].
  - apply filter_partition. apply isExactMatch_sameMolecule.
  - apply List.Forall_forall. intros d Hd Hd'. apply filter_In in Hd, Hd'.
    destruct Hd as [_ He], Hd' as [_ H]. rewrite He, andb_false_r in H. discriminate.
  - apply List.Forall_forall. intros d Hd. apply filter_In in Hd. destruct Hd as [_ H].
    apply andb_true_iff in H. now rewrite negb_true_iff in H.
Qed.

(** X6. The scenario of the specification: a candidate of 250mg for a target
    of 500mg. *)
Theorem dosage_adjustment_scenario :
  calculateDosageAdjustment Sample.panadol Sample.paracetamol250
  = Some "Take 2.0x the usual dose (250mg → equivalent to 500mg)".
Proof. vm_compute. reflexivity. Qed.

End Properties.

(** ** The claims on the sample data *)

(** The rule of the sample engine lists "d3", which pass 2 suggests for
    Panadol: the identifiers of the result are distinct and the suggestion of
    the rule is not among them. *)
Lemma findSubstitutes_first_per_identifier_witness :
  List.NoDup
    (map key (findSubstitutes (printer := Sample.integerToString)
                Sample.engine Sample.panadol None))
  /\ ~ In (ruleSuggestion (printer := Sample.integerToString)
             Sample.panadolRule Sample.paracetamol250)
         (findSubstitutes (printer := Sample.integerToString)
            Sample.engine Sample.panadol None).
Proof.
  split.
  - apply (proj1 (findSubstitutes_first_per_identifier
             (printer := Sample.integerToString) Sample.engine Sample.panadol None)).
  - apply (proj2 (proj2 (findSubstitutes_first_per_identifier
             (printer := Sample.integerToString) Sample.engine Sample.panadol None))).
    + vm_compute. left. reflexivity.
    + vm_compute. left. reflexivity.
Defined.

(** The result for Panadol in the sample engine: the rule lists the target
    itself ("d1"), which the pool does not hold. *)
Example findSubstitutes_sample :
  map (fun s => (key s, matchType s, confidence s))
    (findSubstitutes (printer := Sample.integerToString) Sample.engine Sample.panadol None)
  = [("d2", MatchType.exact, int 95);
     ("d3", MatchType.equivalent, int 90);
     ("d5", MatchType.equivalent, int 80);
     ("d4", MatchType.similar, int 60);
     ("d6", MatchType.similar, int 55)].
Proof. vm_compute. reflexivity. Qed.

(** C3, on the failing input: the result holds a confidence of 95 followed
    by a confidence that is NaN; it is not in descending order, and neither
    is the other order of its two suggestions. *)
Theorem findSubstitutes_unsorted_on_overflow :
  map (fun s => (key s, confidence s))
    (findSubstitutes (printer := Sample.integerToString)
       Sample.hugeEngine Sample.hugeTarget None)
  = [("h2", int 95); ("h3", NaN)]
  /\ confidenceDescending
       (findSubstitutes (printer := Sample.integerToString)
          Sample.hugeEngine Sample.hugeTarget None)
     = false
  /\ confidenceDescending
       (rev (findSubstitutes (printer := Sample.integerToString)
               Sample.hugeEngine Sample.hugeTarget None))
     = false.
Proof. vm_compute. repeat split. Qed.

(** C4, as stated, fails.  With an empty catalog and no rule a call on a
    missing target raises nothing and returns the empty list; on a target
    without identifier the call on the sample catalog computes its six
    suggestions, the target's own drug among them. *)
Lemma findSubstitutes_invalid_target_returns :
  findSubstitutesJS (printer := Sample.integerToString) (Runtime.new [] None) None None
  = Normal []
  /\ returned (findSubstitutesJS (printer := Sample.integerToString)
                 (objectsOf Sample.engine) (Some Shelf.panadolWithoutId) None)
     = Some 6.
Proof. split; vm_compute; reflexivity. Qed.

Lemma equivalent_confidence_amended_witness :
  calculateEquivalentConfidence Sample.panadol Sample.paracetamol250
  = equivalentConfidenceAmended Sample.panadol Sample.paracetamol250
  /\ exists n, (80 <= n <= 90)%Z
       /\ calculateEquivalentConfidence Sample.panadol Sample.paracetamol250
          = Finite (inject_Z n).
Proof.
  apply equivalent_confidence_amended.
  intros [Hinf _]. vm_compute in Hinf. discriminate.
Defined.

(** C5, as stated, fails.  On two dosages "0mg" both strengths parse, the
    formula of the specification divides zero by zero, and the code gives
    85.  On two dosages above the largest double the confidence is NaN, which
    is not within 80 and 90. *)
Lemma equivalent_confidence_zero_strengths :
  (parseStrength (Drug.dosage Sample.zeroTablet) = Some (int 0)
   /\ parseStrength (Drug.dosage Sample.zeroSyrup) = Some (int 0)
   /\ equivalentConfidenceAsStated Sample.zeroTablet Sample.zeroSyrup = NaN
   /\ calculateEquivalentConfidence Sample.zeroTablet Sample.zeroSyrup = int 85)
  /\ (calculateEquivalentConfidence Sample.hugeTarget Sample.hugeOther = NaN
      /\ geb (calculateEquivalentConfidence Sample.hugeTarget Sample.hugeOther) (int 80)
         = false).
Proof. vm_compute. repeat split. Qed.

Lemma parseStrength_examples_witness :
  calculateDosageAdjustment (printer := Sample.integerToString)
    Sample.panadol Sample.paracetamolSyrup = None
  /\ dosageAdjustment
       (equivalentSuggestion (printer := Sample.integerToString)
          Sample.panadol Sample.paracetamolSyrup) = None
  /\ confidence
       (equivalentSuggestion (printer := Sample.integerToString)
          Sample.panadol Sample.paracetamolSyrup)
     = confidenceFormula
         (if sameDosageForm Sample.panadol Sample.paracetamolSyrup then int 10 else int 0)
         (int 0)
         (if brandsAlike Sample.panadol Sample.paracetamolSyrup then int 5 else int 0)
  /\ exists n, (80 <= n <= 90)%Z
       /\ calculateEquivalentConfidence Sample.panadol Sample.paracetamolSyrup
          = Finite (inject_Z n).
Proof.
  apply (proj2 (proj2 (proj2 (proj2 (proj2 (parseStrength_examples
           (printer := Sample.integerToString))))))).
  right. vm_compute. reflexivity.
Defined.

(** C8, on the failing input: two dosages of 309 digits parse to
    [Infinity], both pass the test of truth, and the ratio
    [Infinity / Infinity] makes the confidence NaN. *)
Theorem equivalent_confidence_NaN_on_overflow :
  parseStrength (Drug.dosage Sample.hugeTarget) = Some PosInf
  /\ parseStrength (Drug.dosage Sample.hugeOther) = Some PosInf
  /\ ToBoolean PosInf = true
  /\ div (min PosInf PosInf) (max PosInf PosInf) = NaN
  /\ calculateEquivalentConfidence Sample.hugeTarget Sample.hugeOther = NaN.
Proof. vm_compute. repeat split. Qed.

Lemma empty_clean_name_is_similar_witness :
  haveSimilarNames (Drug.genericName Sample.panadol) (Drug.genericName Sample.unnamedAnalgesic)
  = true
  /\ calculateTherapeuticSimilarity Sample.panadol Sample.unnamedAnalgesic
     = similarityFormula (sameDosageForm Sample.panadol Sample.unnamedAnalgesic) true
  /\ calculateTherapeuticSimilarity Sample.panadol Sample.unnamedAnalgesic
     = (if sameDosageForm Sample.panadol Sample.unnamedAnalgesic then int 75 else int 55).
Proof.
  apply empty_clean_name_is_similar.
  right. vm_compute. reflexivity.
Defined.

Lemma findSubstitutes_sorted_stable_witness :
  confidenceDescending
    (findSubstitutes (printer := Sample.integerToString) Sample.engine Sample.panadol None)
  = true
  /\ forall n,
       withConfidence n
         (findSubstitutes (printer := Sample.integerToString) Sample.engine Sample.panadol None)
       = withConfidence n
           (filter_unseen ∅
              (allSuggestions (printer := Sample.integerToString)
                 Sample.engine Sample.panadol None)).
Proof.
  apply findSubstitutes_sorted_stable.
  vm_compute. discriminate.
Defined.

Lemma zero_strength_is_skipped_witness :
  calculateDosageAdjustment (printer := Sample.integerToString)
    Sample.zeroTablet Sample.zeroSyrup = None
  /\ calculateEquivalentConfidence Sample.zeroTablet Sample.zeroSyrup
     = confidenceFormula
         (if sameDosageForm Sample.zeroTablet Sample.zeroSyrup then int 10 else int 0)
         (int 0)
         (if brandsAlike Sample.zeroTablet Sample.zeroSyrup then int 5 else int 0).
Proof.
  apply zero_strength_is_skipped.
  vm_compute. reflexivity.
Defined.

Lemma used_strengths_divisors_witness :
  ToBoolean (max (int 500) (int 250)) = true
  /\ sign (max (int 500) (int 250)) = Gt
  /\ sign (int 250) = Gt.
Proof.
  apply (used_strengths_divisors Sample.panadol Sample.paracetamol250).
  - vm_compute. reflexivity.
  - vm_compute. reflexivity.
  - reflexivity.
  - reflexivity.
Defined.

Lemma similar_suggestions_scored_witness :
  In (Drug.id Sample.ibuprofen)
    (List.map key (findSubstitutes (printer := Sample.integerToString)
                     Sample.engine Sample.panadol None))
  /\ (List.NoDup (List.map Drug.id (drugs Sample.engine)) ->
      In (similarSuggestion
            (Sample.ibuprofen, calculateTherapeuticSimilarity Sample.panadol Sample.ibuprofen))
        (findSubstitutes (printer := Sample.integerToString)
           Sample.engine Sample.panadol None)).
Proof.
  apply (proj2 (proj2 (proj2 (proj2 (proj2
           (similar_suggestions_scored (printer := Sample.integerToString)
              Sample.engine Sample.panadol None)))))).
  - unfold searchPool. apply filter_In. split; [|vm_compute; reflexivity].
    right. right. right. left. reflexivity.
  - vm_compute. reflexivity.
  - vm_compute. reflexivity.
Defined.

Lemma suggestions_by_pass_witness :
  In "d9" (List.map key (findSubstitutes (printer := Sample.integerToString)
                           Shelf.engine Sample.panadol None)).
Proof.
  apply (proj2 (suggestions_by_pass (printer := Sample.integerToString)
                  Shelf.engine Sample.panadol None) Shelf.codeineRule "d9").
  - left. reflexivity.
  - reflexivity.
  - vm_compute. reflexivity.
  - left. reflexivity.
  - vm_compute. tauto.
Defined.

(** The result with the rule for codeine: its suggestion has confidence 85
    and stands between the two suggestions of pass 2. *)
Example findSubstitutes_rule_sample :
  List.map (fun s => (key s, matchType s, confidence s))
    (findSubstitutes (printer := Sample.integerToString) Shelf.engine Sample.panadol None)
  = [("d2", MatchType.exact, int 95); ("d3", MatchType.equivalent, int 90);
     ("d9", MatchType.equivalent, int 85); ("d5", MatchType.equivalent, int 80);
     ("d4", MatchType.similar, int 60); ("d6", MatchType.similar, int 55)].
Proof. vm_compute. reflexivity. Qed.
(** ** Further facts on numbers and strings *)

Lemma round64_not_NaN q : round64 q <> NaN.
Proof.
  unfold round64. destruct (Qnum q); [discriminate| |];
    destruct (round_magnitude _ _); discriminate.
Qed.

Lemma atLeastZero_iff x : atLeastZero x <-> nonneg x /\ x <> NaN.
Proof.
  destruct x; cbn; split; try tauto; intros; try split; try discriminate; tauto.
Qed.

Lemma round_magnitude_self n : round_magnitude n n = Some 1%Q.
Proof.
  assert (He : floor_log2 n n = 0%Z).
  { unfold floor_log2. rewrite Z.sub_diag. unfold pow2_leb. cbn [Z.leb Z.compare].
    change (2 ^ 0)%Z with 1%Z. rewrite Z.mul_1_r, Z.leb_refl. reflexivity. }
  unfold round_magnitude. rewrite He.
  change (Z.max 0 (-1022) - 52)%Z with (-52)%Z. cbn [Z.leb Z.compare Z.opp].
  unfold round_half_even.
  rewrite (Z.mul_comm (Zpos n)), Z.div_mul, Z.mod_mul by discriminate.
  cbn [Z.mul Z.compare]. reflexivity.
Qed.

Lemma div_self x : (0 < x)%Q -> div (Finite x) (Finite x) = Finite 1.
Proof.
  destruct x as [n d]. unfold Qlt. cbn [Qnum Qden]. rewrite Z.mul_1_r.
  destruct n as [|p|p]; cbn [Z.mul]; try lia. intros _.
  unfold div, Qsign. cbn [Qnum Z.compare].
  unfold Qdiv, Qinv, Qmult, round64. cbn [Qnum Qden Z.mul].
  change (Z.pos p * Z.pos d)%Z with (Z.pos (p * d)).
  rewrite (Pos.mul_comm d p), round_magnitude_self. reflexivity.
Qed.

Lemma ratioBonus_sym a b :
  atLeastZero a -> atLeastZero b -> ToBoolean a = true -> ToBoolean b = true ->
  ratioBonus a b = ratioBonus b a.
Proof.
  intros Ha Hb Ta Tb. unfold ratioBonus.
  destruct a as [x| | |], b as [y| | |]; try contradiction; try reflexivity.
  pose proof (truthy_pos x Ha Ta) as Hx. pose proof (truthy_pos y Hb Tb) as Hy.
  unfold min, max, compare. rewrite <- (Qcompare_antisym x y).
  destruct (x ?= y)%Q; cbn [CompOpp]; try reflexivity.
  now rewrite !div_self.
Qed.

Lemma span_digits_head s c i r :
  span_digits s = (String c i, r) -> is_digit c = true.
Proof.
  destruct s as [|c' s]; cbn; [discriminate|].
  destruct (is_digit c') eqn:Hc; [|discriminate].
  destruct (span_digits s). intros [= <- _ _]. exact Hc.
Qed.

Lemma match_strength_here_digit s m1 m2 :
  match_strength_here s = Some (m1, m2) ->
  exists c m, m1 = String c m /\ is_digit c = true.
Proof.
  unfold match_strength_here. destruct (span_digits s) as [i r1] eqn:Hs.
  destruct i as [|c i]; [discriminate|]. apply span_digits_head in Hs.
  intros H.
  assert (Hn : exists m, m1 = String c m).
  { destruct r1 as [|c1 r]; [|destruct (Ascii.eqb_spec c1 "."%char) as [->|Hne]].
    - destruct (match_unit _); [|discriminate]. injection H as <- _. now exists i.
    - destruct (span_digits r) as [f r']. destruct f as [|cf f].
      + destruct (match_unit _); [|discriminate]. injection H as <- _. now exists i.
      + destruct (match_unit _); [|discriminate]. injection H as <- _.
        cbn. now eexists.
    - assert (Hm : match match_unit (skip_whitespace (String c1 r)) with
                   | Some u => Some (String c i, u)
                   | None => None
                   end = Some (m1, m2)).
      { revert H. destruct c1 as [[] [] [] [] [] [] [] []]; try exact (fun H => H).
        now contradiction Hne. }
      destruct (match_unit _); [|discriminate]. injection Hm as <- _. now exists i. }
  destruct Hn as [m ->]. now exists c, m.
Qed.

Lemma match_strength_digit s m1 m2 :
  match_strength s = Some (m1, m2) ->
  exists c m, m1 = String c m /\ is_digit c = true.
Proof.
  induction s as [|c s IH]; cbn [match_strength].
  - destruct (match_strength_here "") as [[a b]|] eqn:H; [|discriminate].
    intros [= <- <-]. now apply match_strength_here_digit in H.
  - destruct (match_strength_here (String c s)) as [[a b]|] eqn:H; [|exact IH].
    intros [= <- <-]. now apply match_strength_here_digit in H.
Qed.

Lemma parseFloat_digit c m : is_digit c = true -> parseFloat (String c m) <> NaN.
Proof.
  intros Hc. unfold parseFloat. cbn [span_digits]. rewrite Hc.
  destruct (span_digits m) as [i r]. apply round64_not_NaN.
Qed.

Lemma mul_1000_not_NaN x : nonneg x -> x <> NaN -> mul x (int 1000) <> NaN.
Proof.
  rewrite int_1000. destruct x as [r| | |]; cbn; try discriminate; try tauto.
  intros _ _. apply round64_not_NaN.
Qed.

Lemma div_1000_not_NaN x : nonneg x -> x <> NaN -> div x (int 1000) <> NaN.
Proof.
  rewrite int_1000. destruct x as [r| | |]; cbn; try discriminate; try tauto.
  intros _ _. apply round64_not_NaN.
Qed.

Lemma parseStrength_atLeastZero d s : parseStrength d = Some s -> atLeastZero s.
Proof.
  intros H. apply atLeastZero_iff. split; [now apply parseStrength_nonneg with d|].
  revert H. unfold parseStrength. destruct (match_strength d) as [[m1 m2]|] eqn:Hm; [|discriminate].
  apply match_strength_digit in Hm. destruct Hm as (c & m & -> & Hc).
  pose proof (parseFloat_digit c m Hc) as Hp. pose proof (parseFloat_nonneg (String c m)) as Hn.
  intros [= <-].
  destruct (_ =? _)%string; [now apply mul_1000_not_NaN|].
  destruct (_ || _); [now apply div_1000_not_NaN|exact Hp].
Qed.

Lemma prefix_substring n s : String.prefix (String.substring 0 n s) s = true.
Proof.
  revert n. induction s as [|c s IH]; intros [|n]; cbn; try reflexivity.
  destruct (ascii_dec c c); [apply IH|congruence].
Qed.

Lemma includes_prefix n s : includes s (substring_to n s) = true.
Proof.
  unfold substring_to. destruct s; cbn [includes]; now rewrite prefix_substring.
Qed.

Lemma haveSimilarNames_sym n1 n2 : haveSimilarNames n1 n2 = haveSimilarNames n2 n1.
Proof. unfold haveSimilarNames. apply orb_comm. Qed.

Lemma sameDosageForm_sym t c : sameDosageForm t c = sameDosageForm c t.
Proof. unfold sameDosageForm. apply String.eqb_sym. Qed.

Lemma getConfidenceColor_integer n :
  getConfidenceColor (Finite (inject_Z n))
  = if (90 <=? n)%Z then "text-green-600"
    else if (70 <=? n)%Z then "text-blue-600"
    else if (50 <=? n)%Z then "text-yellow-600"
    else "text-red-600".
Proof.
  assert (H : forall k, (0 <= k <= 100)%Z -> int k = Finite (inject_Z k) ->
                        geb (Finite (inject_Z n)) (int k) = (k <=? n)%Z).
  { intros k _ ->. unfold geb, leb, compare. rewrite Qcompare_inject_Z.
    unfold Z.leb. now destruct (k ?= n)%Z. }
  unfold getConfidenceColor.
  rewrite !H by (try lia; vm_compute; reflexivity). reflexivity.
Qed.
(** ** Strengths, scores and warnings *)

(** X7. A dosage that parses gives a strength that is zero or above or
    [Infinity], never NaN and never negative, in each of its units. *)
Theorem parseStrength_range d :
  match parseStrength d with
  | Some s => atLeastZero s /\ is_NaN s = false
  | None => match_strength d = None
  end.
Proof.
  destruct (parseStrength d) as [s|] eqn:H.
  - apply parseStrength_atLeastZero in H. split; [exact H|]. now destruct s.
  - unfold parseStrength in H. now destruct (match_strength d) as [[m1 m2]|].
Qed.

(** X8. The two scores do not depend on the direction of the
    substitution: the confidence of an equivalent match and the similarity
    of a similar match are the same for a candidate against a target as for
    the target against the candidate. *)
Theorem scores_symmetric t c :
  calculateEquivalentConfidence t c = calculateEquivalentConfidence c t
  /\ calculateTherapeuticSimilarity t c = calculateTherapeuticSimilarity c t.
Proof.
  split.
  - rewrite !calculateEquivalentConfidence_steps.
    rewrite (sameDosageForm_sym t c).
    replace (brandsAlike c t) with (brandsAlike t c)
      by (unfold brandsAlike;
          destruct (Drug.brandName t =? "")%string, (Drug.brandName c =? "")%string;
          reflexivity).
    f_equal.
    destruct (parseStrength (Drug.dosage t)) as [a|] eqn:Ha,
             (parseStrength (Drug.dosage c)) as [b|] eqn:Hb; try reflexivity.
    apply parseStrength_atLeastZero in Ha, Hb.
    destruct (ToBoolean a) eqn:Ta, (ToBoolean b) eqn:Tb; try reflexivity.
    cbn. f_equal. now apply ratioBonus_sym.
  - destruct (calculateTherapeuticSimilarity_formula t c) as [-> _].
    destruct (calculateTherapeuticSimilarity_formula c t) as [-> _].
    now rewrite sameDosageForm_sym, haveSimilarNames_sym.
Qed.

(** X9. Two generic names that are equal once put in lower case and
    stripped of everything but the letters a to z are similar names; with
    the same dosage form the similarity is then 75, the cap. *)
Theorem same_clean_name_similarity t c :
  strip_non_letters (toLowerCase (Drug.genericName t))
  = strip_non_letters (toLowerCase (Drug.genericName c)) ->
  haveSimilarNames (Drug.genericName t) (Drug.genericName c) = true
  /\ (sameDosageForm t c = true -> calculateTherapeuticSimilarity t c = int 75)
  /\ (sameDosageForm t c = false -> calculateTherapeuticSimilarity t c = int 55).
Proof.
  intros Heq.
  assert (Hn : haveSimilarNames (Drug.genericName t) (Drug.genericName c) = true).
  { unfold haveSimilarNames. rewrite Heq, includes_prefix. reflexivity. }
  split; [exact Hn|].
  destruct (calculateTherapeuticSimilarity_formula t c) as [-> _]. rewrite Hn.
  split; intros ->; reflexivity.
Qed.

(** X10. A pair of drugs gets no warning exactly when the dosage forms
    agree up to case, neither drug is controlled, and the manufacturers are
    equal or the target's category does not contain "cardiac"; there are at
    most three warnings, and the warning on controlled substances is among
    them exactly when one of the two drugs is controlled. *)
Theorem getSubstitutionWarnings_cases t c :
  (getSubstitutionWarnings t c = [] <->
   sameDosageForm t c = true
   /\ Drug.isControlled t = false /\ Drug.isControlled c = false
   /\ (Drug.manufacturer t = Drug.manufacturer c
       \/ includes (toLowerCase (Drug.category t)) "cardiac" = false))
  /\ length (getSubstitutionWarnings t c) <= 3
  /\ (In "Controlled substance - verify prescription requirements"
        (getSubstitutionWarnings t c)
      <-> Drug.isControlled t || Drug.isControlled c = true).
Proof.
  unfold getSubstitutionWarnings, sameDosageForm.
  destruct (toLowerCase (Drug.dosageForm t) =? toLowerCase (Drug.dosageForm c))%string;
    destruct (Drug.isControlled t), (Drug.isControlled c);
    destruct (String.eqb_spec (Drug.manufacturer t) (Drug.manufacturer c)) as [Hm|Hm];
    destruct (includes (toLowerCase (Drug.category t)) "cardiac");
    cbn; (split; [|split; [lia|]]);
    (split; [intros H|intros H]);
    try reflexivity; try discriminate; try tauto;
    try (repeat split; try reflexivity; tauto);
    try (destruct H as (? & ? & ? & [?|?]); congruence);
    try (destruct H as (? & ? & ? & ?); discriminate);
    try (repeat (destruct H as [H|H]; try discriminate H); tauto).
Qed.
(** ** Further properties of the engine *)

Section MoreProperties.
Context `{printer : NumberToString}.

(** X11. Every suggestion is about a drug of the catalog, given as the
    catalog holds it; unless the caller passes [availableOnly = false], each
    suggested drug has a stock level above zero. *)
Theorem findSubstitutes_catalog_in_stock this t a :
  Forall (fun s => In (drug s) (drugs this)
                   /\ (default true a = true
                       -> gtb (Drug.stockLevel (drug s)) (int 0) = true))
    (findSubstitutes this t a).
Proof.
  apply List.Forall_forall. intros s Hs.
  apply findSubstitutes_In, first_with_key_In, allSuggestions_drug in Hs. split.
  - now destruct (searchPool_In this t a _ Hs).
  - intros Ha. now apply (searchPool_stock this t a).
Qed.

(** X12. There are never more suggestions than drugs in the search pool, and
    so never more than drugs in the catalog, whatever the rules list. *)
Theorem findSubstitutes_length this t a :
  length (findSubstitutes this t a) <= length (searchPool this t a)
  /\ length (searchPool this t a) <= length (drugs this).
Proof.
  split.
  - rewrite <- (length_map key), <- (length_map Drug.id (searchPool this t a)).
    apply List.NoDup_incl_length.
    + rewrite findSubstitutes_passes. apply deduplicateAndSort_NoDup.
    + intros k Hk. apply in_map_iff in Hk. destruct Hk as (s & <- & Hs).
      apply findSubstitutes_In, first_with_key_In, allSuggestions_drug in Hs.
      unfold key. now apply in_map.
  - unfold searchPool. destruct (default true a); apply List.filter_length_le.
Qed.

(** X13. No drug with the target's molecule is left out: for each drug of
    the search pool whose active molecule is the target's, up to case, the
    result has a suggestion with its identifier, of type exact or
    equivalent; of type exact with confidence 95 when dosage and form match
    too.  When the identifiers of the catalog are distinct the suggestion
    holds that very drug. *)
Theorem same_molecule_is_suggested this t a d :
  In d (searchPool this t a) -> sameMolecule t d = true ->
  exists s, In s (findSubstitutes this t a) /\ key s = Drug.id d
    /\ matchType s <> MatchType.similar
    /\ (isExactMatch t d = true
        -> matchType s = MatchType.exact /\ confidence s = int 95)
    /\ (List.NoDup (map Drug.id (drugs this)) -> drug s = d).
Proof.
  intros Hd Hm.
  set (early := exactSuggestions this t a ++ equivalentSuggestions this t a).
  assert (Hall : allSuggestions this t a
                 = early ++ similarSuggestions this t a ++ ruleBasedSuggestions this t a).
  { unfold allSuggestions, early. now rewrite <- !app_assoc. }
  assert (Hearly : forall s, In s early -> matchType s <> MatchType.similar).
  { intros s Hs. apply in_app_or in Hs. destruct Hs as [Hs|Hs].
    - apply exactSuggestions_In in Hs. destruct Hs as (? & _ & _ & ->). discriminate.
    - apply equivalentSuggestions_In in Hs. destruct Hs as (? & _ & ->). discriminate. }
  destruct (isExactMatch t d) eqn:He.
  - assert (Hk : In (Drug.id d) (map key (exactSuggestions this t a))).
    { change (Drug.id d) with (key (exactSuggestion d)). apply in_map.
      now apply exactSuggestions_intro. }
    assert (Hk' : In (Drug.id d) (map key (allSuggestions this t a))).
    { unfold allSuggestions. rewrite map_app, in_app_iff. now left. }
    destruct (first_with_key_exists _ _ Hk') as (s & Hs & Hks).
    assert (Hex : In s (exactSuggestions this t a)).
    { apply first_with_key_In. apply first_with_key_prefix with
        (l2 := equivalentSuggestions this t a ++ similarSuggestions this t a
               ++ ruleBasedSuggestions this t a); [exact Hs|now rewrite Hks]. }
    exists s. split; [now apply findSubstitutes_In|]. split; [exact Hks|].
    apply exactSuggestions_In in Hex. destruct Hex as (d' & Hd' & _ & ->).
    split; [discriminate|]. split; [now split|].
    intros Hnd. cbn. apply (unique_id (drugs this)); auto.
    + now destruct (searchPool_In this t a _ Hd').
    + now destruct (searchPool_In this t a _ Hd).
  - assert (Hk : In (Drug.id d) (map key early)).
    { change (Drug.id d) with (key (equivalentSuggestion t d)). apply in_map.
      unfold early. apply in_or_app. right. apply equivalentSuggestions_iff.
      now exists d. }
    assert (Hk' : In (Drug.id d) (map key (allSuggestions this t a))).
    { rewrite Hall, map_app, in_app_iff. now left. }
    destruct (first_with_key_exists _ _ Hk') as (s & Hs & Hks).
    assert (Hin : In s early).
    { apply first_with_key_In. apply first_with_key_prefix with
        (l2 := similarSuggestions this t a ++ ruleBasedSuggestions this t a);
        [now rewrite <- Hall|now rewrite Hks]. }
    exists s. split; [now apply findSubstitutes_In|]. split; [exact Hks|].
    split; [now apply Hearly|]. split; [discriminate|].
    intros Hnd. apply (unique_id (drugs this)); auto.
    + apply first_with_key_In, allSuggestions_drug in Hs.
      now destruct (searchPool_In this t a _ Hs).
    + now destruct (searchPool_In this t a _ Hd).
Qed.

(** X14. Asking for unavailable drugs as well never loses a drug: every
    identifier suggested by a call is suggested by the call with
    [availableOnly = false] on the same engine and target. *)
Theorem findSubstitutes_available_subset this t a :
  Forall (fun k => In k (map key (findSubstitutes this t (Some false))))
    (map key (findSubstitutes this t a)).
Proof.
  apply List.Forall_forall. intros k Hk. apply in_map_iff in Hk. destruct Hk as (s & <- & Hs).
  apply findSubstitutes_In, first_with_key_In, allSuggestions_key_all in Hs.
  destruct (first_with_key_exists _ _ Hs) as (s' & Hs' & Hks').
  apply in_map_iff. exists s'. split; [exact Hks'|]. now apply findSubstitutes_In.
Qed.

(** X15. A rule gives suggestions only when it is active and names the
    target's molecule (up to case), dosage (exactly) and form (up to case);
    it suggests only drugs of the pool it lists by identifier, an identifier
    the pool lacks being skipped without error; so there are at most as many
    rule suggestions as identifiers listed by active rules. *)
Theorem applySubstitutionRules_sound this t pool :
  Forall (fun s => exists rule,
            In rule (substitutionRules this)
            /\ SubstitutionRule.isActive rule = true
            /\ ruleMatches rule t = true
            /\ In (key s) (SubstitutionRule.equivalentDrugs rule)
            /\ In (drug s) pool
            /\ s = ruleSuggestion rule (drug s))
    (applySubstitutionRules this t pool)
  /\ length (applySubstitutionRules this t pool)
     <= length (flat_map SubstitutionRule.equivalentDrugs
                  (List.filter SubstitutionRule.isActive (substitutionRules this))).
Proof.
  split.
  - apply List.Forall_forall. intros s Hs. unfold applySubstitutionRules in Hs.
    apply resolveRules_In_iff in Hs. destruct Hs as (rule & i & d & Hr & Hi & Hf & ->).
    apply filter_In in Hr. destruct Hr as [Hr Hc]. rewrite !andb_true_iff in Hc.
    apply find_some in Hf. destruct Hf as [Hd Hid]. apply String.eqb_eq in Hid.
    exists rule. unfold ruleMatches, key. cbn. rewrite !andb_true_iff, Hid. tauto.
  - unfold applySubstitutionRules.
    etransitivity; [apply resolveRules_length|].
    induction (substitutionRules this) as [|rule rules IH]; cbn; [lia|].
    destruct (SubstitutionRule.isActive rule); cbn; [|exact IH].
    rewrite length_app.
    match goal with |- context [if ?c then _ else _] => destruct c end; cbn;
      rewrite ?length_app; lia.
Qed.

(** X16. Two dosages that parse to the same strength, as "1g" and "1000mg"
    do, need no adjustment of the dose, provided the strength is not
    [Infinity]. *)
Theorem same_strength_no_adjustment t c :
  parseStrength (Drug.dosage t) = parseStrength (Drug.dosage c) ->
  parseStrength (Drug.dosage t) <> Some PosInf ->
  calculateDosageAdjustment t c = None.
Proof.
  intros Heq Hinf. unfold calculateDosageAdjustment. rewrite <- Heq.
  destruct (parseStrength (Drug.dosage t)) as [a|] eqn:Ha; [|reflexivity].
  apply parseStrength_atLeastZero in Ha.
  destruct (ToBoolean a) eqn:Ta; [|reflexivity]. cbn [negb orb].
  destruct a as [x| | |]; try contradiction.
  rewrite div_self by now apply truthy_pos. reflexivity.
Qed.

(** X17. When both dosages parse to [Infinity] the ratio is NaN and the
    adjustment reads "Take NaNx less". *)
Theorem infinite_strengths_adjustment t c :
  bothInfinite t c ->
  calculateDosageAdjustment t c
  = Some ("Take NaNx less (" +:+ Drug.dosage c +:+ " → equivalent to " +:+ Drug.dosage t
            +:+ ")").
Proof.
  intros [Ht Hc]. unfold calculateDosageAdjustment. rewrite Ht, Hc. reflexivity.
Qed.


(** X19. The colour of the confidence follows the kind of match: for a
    target whose strength is not [Infinity] an exact match is shown in
    green, an equivalent match in green or blue, and a similar match in
    blue, yellow or red, never in green. *)
Theorem confidence_colors this t a :
  parseStrength (Drug.dosage t) <> Some PosInf ->
  Forall (fun s =>
            In (getConfidenceColor (confidence s))
              match matchType s with
              | MatchType.exact => ["text-green-600"]
              | MatchType.equivalent => ["text-green-600"; "text-blue-600"]
              | MatchType.similar => ["text-blue-600"; "text-yellow-600"; "text-red-600"]
              end)
    (findSubstitutes this t a).
Proof.
  intros Hinf. apply List.Forall_forall. intros s Hs.
  apply findSubstitutes_In, first_with_key_In in Hs.
  unfold allSuggestions in Hs. rewrite !in_app_iff in Hs.
  destruct Hs as [H|[H|[H|H]]].
  - apply exactSuggestions_In in H. destruct H as (d & _ & _ & ->). now left.
  - apply equivalentSuggestions_In in H. destruct H as (d & _ & ->).
    cbn [matchType confidence equivalentSuggestion].
    destruct (calculateEquivalentConfidence_cases t d) as [[[Ht _] _]|(_ & _ & n & Hn & ->)];
      [contradiction|].
    rewrite getConfidenceColor_integer.
    destruct (90 <=? n)%Z; [now left|].
    destruct (Z.leb_spec 70 n); [right; now left|lia].
  - apply similarSuggestions_scored in H. destruct H as (-> & _ & _ & _ & n & Hn & ->).
    rewrite getConfidenceColor_integer.
    destruct (Z.leb_spec 90 n); [lia|].
    destruct (70 <=? n)%Z; [now left|].
    destruct (50 <=? n)%Z; [right; now left|right; right; now left].
  - apply ruleBasedSuggestions_In in H. destruct H as (rule & d & _ & ->). right. now left.
Qed.

End MoreProperties.
(** ** The order of strings and the default sort *)

Lemma byte_inj a b : byte a = byte b -> a = b.
Proof.
  unfold byte. intros H.
  rewrite <- (ascii_N_embedding a), <- (ascii_N_embedding b). now rewrite H.
Qed.

Lemma unitKey_inj a b : unitKey a = unitKey b -> a = b.
Proof.
  intros H. apply byte_inj. revert H. unfold unitKey.
  generalize (byte a) (byte b). intros m n.
  destruct (N.eqb_spec m 0xEE), (N.eqb_spec m 0xEF), (N.eqb_spec n 0xEE), (N.eqb_spec n 0xEF);
    cbn [orb];
    destruct (N.leb_spec 0xF0 m), (N.leb_spec m 0xF4),
             (N.leb_spec 0xF0 n), (N.leb_spec n 0xF4); cbn [andb]; lia.
Qed.

Lemma stringCompare_antisym x y : stringCompare y x = CompOpp (stringCompare x y).
Proof.
  revert y. induction x as [|a x IH]; intros [|b y]; cbn; try reflexivity.
  rewrite (N.compare_antisym (unitKey a) (unitKey b)).
  destruct (unitKey a ?= unitKey b)%N; cbn; auto.
Qed.

Lemma stringCompare_eq x y : stringCompare x y = Eq -> x = y.
Proof.
  revert y. induction x as [|a x IH]; intros [|b y]; cbn; try discriminate; auto.
  destruct (N.compare_spec (unitKey a) (unitKey b)) as [E|L|L]; try discriminate.
  intros H. apply unitKey_inj in E. apply IH in H. congruence.
Qed.

Lemma stringCompare_trans x y z :
  stringCompare x y = Lt -> stringCompare y z = Lt -> stringCompare x z = Lt.
Proof.
  revert y z. induction x as [|a x IH]; intros [|b y] [|c z]; cbn; try discriminate; auto.
  destruct (N.compare_spec (unitKey a) (unitKey b)),
           (N.compare_spec (unitKey b) (unitKey c)),
           (N.compare_spec (unitKey a) (unitKey c));
    try discriminate; try lia; eauto.
Qed.

Lemma stringLt_trans x y z : stringLt x y = true -> stringLt y z = true -> stringLt x z = true.
Proof.
  unfold stringLt. intros H1 H2.
  destruct (stringCompare x y) eqn:E1; try discriminate.
  destruct (stringCompare y z) eqn:E2; try discriminate.
  now rewrite (stringCompare_trans x y z E1 E2).
Qed.

Lemma stringLt_irrefl x : stringLt x x = false.
Proof.
  unfold stringLt. pose proof (stringCompare_antisym x x) as H.
  destruct (stringCompare x x); cbn in H; try discriminate; reflexivity.
Qed.

Lemma stringLt_total x y : x <> y -> stringLt y x = false -> stringLt x y = true.
Proof.
  unfold stringLt. intros Hne. rewrite (stringCompare_antisym x y).
  destruct (stringCompare x y) eqn:E; cbn; try discriminate; auto.
  now apply stringCompare_eq in E.
Qed.

Lemma stringLt_asym x y : stringLt x y = true -> stringLt y x = false.
Proof.
  unfold stringLt. rewrite (stringCompare_antisym x y).
  destruct (stringCompare x y); cbn; try discriminate; auto.
Qed.

Lemma defaultCompare_gtb x y : gtb (defaultCompare x y) (int 0) = stringLt y x.
Proof.
  unfold defaultCompare. destruct (stringLt x y) eqn:E.
  - now rewrite (stringLt_asym x y E).
  - now destruct (stringLt y x).
Qed.

Lemma increasing_cons a b l :
  increasing (a :: b :: l) = stringLt a b && increasing (b :: l).
Proof. reflexivity. Qed.

Lemma increasing_tail a l : increasing (a :: l) = true -> increasing l = true.
Proof.
  destruct l as [|b l]; [reflexivity|]. rewrite increasing_cons.
  intros H. apply andb_true_iff in H. tauto.
Qed.

Lemma sort_insert_increasing x l :
  ~ In x l -> increasing l = true -> increasing (sort_insert defaultCompare x l) = true.
Proof.
  induction l as [|y l IH]; [reflexivity|].
  intros Hx Hd. cbn [sort_insert]. rewrite defaultCompare_gtb.
  assert (Hxy : x <> y) by (intros ->; apply Hx; now left).
  assert (Hxl : ~ In x l) by (intros H; apply Hx; now right).
  specialize (IH Hxl (increasing_tail _ _ Hd)).
  destruct (stringLt y x) eqn:L.
  - destruct l as [|z l].
    + cbn [sort_insert]. now rewrite increasing_cons, L.
    + rewrite increasing_cons in Hd. apply andb_true_iff in Hd. destruct Hd as [Hyz Hd].
      cbn [sort_insert] in *. rewrite defaultCompare_gtb in *.
      destruct (stringLt z x).
      * now rewrite increasing_cons, Hyz, IH.
      * now rewrite increasing_cons, L, IH.
  - now rewrite increasing_cons, (stringLt_total x y Hxy L), Hd.
Qed.

Lemma sort_increasing l :
  List.NoDup l -> increasing (sort defaultCompare l) = true.
Proof.
  induction l as [|x l IH]; intros Hnd; [reflexivity|].
  inversion Hnd as [|? ? Hx Hl]; subst.
  cbn [sort fold_right]. fold (sort defaultCompare l).
  apply sort_insert_increasing; [|now apply IH].
  intros H. apply Hx. revert H. apply Permutation_in, sort_perm.
Qed.

Lemma distinct_In seen l x : In x (distinct seen l) <-> In x l /\ x ∉ seen.
Proof.
  revert seen. induction l as [|y l IH]; intros seen; cbn; [tauto|].
  destruct (bool_decide_reflect (y ∈ seen)) as [Hy|Hy].
  - rewrite IH. split; [tauto|]. intros [[->|H] Hn]; [contradiction|tauto].
  - cbn. rewrite IH, not_elem_of_union, not_elem_of_singleton.
    split.
    + intros [->|(H & Hne & Hn)]; tauto.
    + intros [[->|H] Hn]; [now left|].
      destruct (String.string_dec y x) as [->|Hne]; [now left|].
      right. repeat split; auto.
Qed.

Lemma distinct_NoDup seen l : List.NoDup (distinct seen l).
Proof.
  revert seen. induction l as [|y l IH]; intros seen; cbn; [constructor|].
  destruct (bool_decide_reflect (y ∈ seen)) as [Hy|Hy]; [apply IH|].
  constructor; [|apply IH].
  rewrite distinct_In, not_elem_of_union, not_elem_of_singleton. intros (_ & Hne & _).
  now apply Hne.
Qed.

Lemma sorted_distinct l :
  let r := sort defaultCompare (distinct ∅ l) in
  increasing r = true /\ List.NoDup r /\ forall x, In x r <-> In x l.
Proof.
  cbn. split; [apply sort_increasing, distinct_NoDup|]. split.
  - eapply Permutation_NoDup; [apply Permutation_sym, sort_perm|apply distinct_NoDup].
  - intros x. split.
    + intros H. apply (Permutation_in _ (sort_perm defaultCompare _)) in H.
      now apply distinct_In in H.
    + intros H. apply (Permutation_in _ (Permutation_sym (sort_perm defaultCompare _))).
      apply distinct_In. split; [exact H|]. apply not_elem_of_empty.
Qed.

(** ** The inventory page *)

Lemma filter_length_split {A : Type} (p q : A -> bool) l :
  (forall x, In x l -> p x && q x = false) ->
  length (List.filter (fun x => p x || q x) l)
  = length (List.filter p l) + length (List.filter q l).
Proof.
  induction l as [|x l IH]; intros H; [reflexivity|].
  cbn [List.filter]. pose proof (H x (or_introl eq_refl)) as Hx.
  assert (IH' := IH (fun y Hy => H y (or_intror Hy))).
  destruct (p x), (q x); cbn in *; try discriminate; lia.
Qed.

Lemma filter_length_ext {A : Type} (p q : A -> bool) l :
  (forall x, In x l -> p x = q x) ->
  length (List.filter p l) = length (List.filter q l).
Proof.
  induction l as [|x l IH]; intros H; [reflexivity|].
  cbn [List.filter]. rewrite (H x (or_introl eq_refl)).
  assert (IH' := IH (fun y Hy => H y (or_intror Hy))).
  destruct (q x); cbn; lia.
Qed.

Lemma filter_length_imp {A : Type} (p q : A -> bool) l :
  (forall x, p x = true -> q x = true) ->
  length (List.filter p l) <= length (List.filter q l).
Proof.
  intros H. induction l as [|x l IH]; [reflexivity|].
  cbn [List.filter]. specialize (H x).
  destruct (p x), (q x); cbn; lia.
Qed.

Lemma round64_atLeastZero q : (0 <= q)%Q -> atLeastZero (round64 q).
Proof.
  intros H. apply atLeastZero_iff. split; [now apply round64_nonneg|apply round64_not_NaN].
Qed.

Lemma add_atLeastZero a b : atLeastZero a -> atLeastZero b -> atLeastZero (add a b).
Proof.
  destruct a as [x| | |], b as [y| | |]; cbn; try tauto.
  intros Hx Hy. apply round64_atLeastZero.
  change 0%Q with (0 + 0)%Q. now apply Qplus_le_compat.
Qed.

Lemma gtb_zero q : gtb (Finite q) (int 0) = true -> (0 < q)%Q.
Proof.
  change (int 0) with (Finite 0). unfold gtb, ltb, compare.
  destruct (Qcompare_spec 0 q); try discriminate. auto.
Qed.

Lemma strict_eqb_zero q : strict_eqb (Finite q) (int 0) = true -> (q == 0)%Q.
Proof.
  change (int 0) with (Finite 0). unfold strict_eqb, compare.
  destruct (Qcompare_spec q 0); try discriminate. auto.
Qed.

(** X20. The figures of the dashboard are consistent: the drugs low in
    stock are among those in stock, no drug is counted both in stock and
    out of stock, and when every stock level is a number that is zero or
    above each drug is counted exactly once as in stock or out of stock. *)
Theorem stats_consistent drugs :
  App.lowStock (App.stats drugs) <= App.inStock (App.stats drugs)
  /\ App.inStock (App.stats drugs) + App.outOfStock (App.stats drugs)
     <= App.totalDrugs (App.stats drugs)
  /\ (Forall (fun d => geb (Drug.stockLevel d) (int 0) = true) drugs
      -> App.inStock (App.stats drugs) + App.outOfStock (App.stats drugs)
         = App.totalDrugs (App.stats drugs)).
Proof.
  cbn [App.stats App.lowStock App.inStock App.outOfStock App.totalDrugs].
  assert (Hdis : forall d : Drug.t,
             gtb (Drug.stockLevel d) (int 0) && strict_eqb (Drug.stockLevel d) (int 0) = false).
  { intros d. change (int 0) with (Finite 0). unfold gtb, ltb, strict_eqb, compare.
    destruct (Drug.stockLevel d) as [q| | |]; try reflexivity.
    rewrite <- (Qcompare_antisym q 0). destruct (q ?= 0)%Q; reflexivity. }
  split; [|split].
  - apply filter_length_imp. intros d H. apply andb_true_iff in H. tauto.
  - rewrite <- filter_length_split by (intros; apply Hdis).
    apply List.filter_length_le.
  - intros Hall. rewrite <- filter_length_split by (intros; apply Hdis).
    f_equal. apply filter_all. intros d Hd.
    rewrite List.Forall_forall in Hall. specialize (Hall d Hd). revert Hall.
    change (int 0) with (Finite 0). unfold geb, leb, gtb, ltb, strict_eqb, compare.
    destruct (Drug.stockLevel d) as [q| | |]; try discriminate; try reflexivity.
    rewrite <- (Qcompare_antisym q 0). destruct (q ?= 0)%Q; cbn; auto.
Qed.

Lemma matches_onlyStockStatus status d :
  App.matchesFilters "" (onlyStockStatus status) d
  = if (status =? "in-stock")%string
    then gtb (Drug.stockLevel d) (Drug.minStockLevel d)
    else if (status =? "low-stock")%string
    then gtb (Drug.stockLevel d) (int 0) && leb (Drug.stockLevel d) (Drug.minStockLevel d)
    else if (status =? "out-of-stock")%string
    then strict_eqb (Drug.stockLevel d) (int 0)
    else true.
Proof.
  unfold App.matchesFilters, onlyStockStatus. cbn.
  now rewrite !andb_true_r.
Qed.

(** Comparisons of a stock level with a minimum level that is a number and
    is zero or above. *)
Lemma stock_levels_cases s m :
  geb m (int 0) = true ->
  gtb s (int 0) = gtb s m || (gtb s (int 0) && leb s m)
  /\ gtb s m && (gtb s (int 0) && leb s m) = false
  /\ (geb s (int 0) = true ->
      strict_eqb s (int 0) = negb (gtb s (int 0))
      /\ gtb s m = negb (strict_eqb s (int 0)) && negb (leb s m)).
Proof.
  change (int 0) with (Finite 0). unfold geb, leb, gtb, ltb, strict_eqb, compare.
  destruct s as [[sn sd]| | |], m as [[mn md]| | |]; cbn; try discriminate; auto;
    unfold Qcompare; cbn [Qnum Qden];
    repeat match goal with
           | |- context [(?a ?= ?b)%Z] => destruct (Z.compare_spec a b)
           end; cbn; try discriminate; auto; try (intros; exfalso; nia);
    try (intros _; repeat split; auto; intros; try discriminate; exfalso; nia).
Qed.

(** X21. The dashboard and the stock filter count the same drugs: "low
    stock" and "out of stock" are the numbers of drugs the filters
    [low-stock] and [out-of-stock] show on their own, and, when every
    minimum level is a number that is zero or above, "in stock" is the sum
    of the drugs shown by [in-stock] and by [low-stock]. *)
Theorem dashboard_matches_filters drugs :
  App.lowStock (App.stats drugs)
  = length (App.filteredDrugs drugs "" (onlyStockStatus "low-stock"))
  /\ App.outOfStock (App.stats drugs)
     = length (App.filteredDrugs drugs "" (onlyStockStatus "out-of-stock"))
  /\ (Forall (fun d => geb (Drug.minStockLevel d) (int 0) = true) drugs
      -> App.inStock (App.stats drugs)
         = length (App.filteredDrugs drugs "" (onlyStockStatus "in-stock"))
           + App.lowStock (App.stats drugs)).
Proof.
  cbn [App.stats App.lowStock App.inStock App.outOfStock]. unfold App.filteredDrugs.
  split; [|split].
  - apply filter_length_ext. intros d _. now rewrite matches_onlyStockStatus.
  - apply filter_length_ext. intros d _. now rewrite matches_onlyStockStatus.
  - intros Hall. rewrite List.Forall_forall in Hall.
    rewrite (filter_length_ext (App.matchesFilters "" (onlyStockStatus "in-stock"))
               (fun d => gtb (Drug.stockLevel d) (Drug.minStockLevel d)))
      by (intros d _; now rewrite matches_onlyStockStatus).
    rewrite <- filter_length_split.
    + apply filter_length_ext. intros d Hd.
      exact (proj1 (stock_levels_cases (Drug.stockLevel d) _ (Hall d Hd))).
    + intros d Hd.
      exact (proj1 (proj2 (stock_levels_cases (Drug.stockLevel d) _ (Hall d Hd)))).
Qed.

(** X22. [clearFilters] is the one setting that counts no active filter;
    with it and an empty search the page lists every drug, in the order of
    the catalog.  At most five filters are counted, and a filter only ever
    removes drugs from what the search alone shows. *)
Theorem filters_only_remove drugs term filters :
  App.activeFiltersCount clearFilters = 0
  /\ (App.activeFiltersCount filters = 0 -> filters = clearFilters)
  /\ App.activeFiltersCount filters <= 5
  /\ App.filteredDrugs drugs "" clearFilters = drugs
  /\ incl (App.filteredDrugs drugs term filters) (App.filteredDrugs drugs term clearFilters).
Proof.
  split; [reflexivity|]. split; [|split; [|split]].
  - destruct filters as [c s p i m]. unfold App.activeFiltersCount, clearFilters. cbn.
    destruct (String.eqb_spec c ""), (String.eqb_spec s ""), p, i, (String.eqb_spec m "");
      cbn; try discriminate. intros _. now subst.
  - unfold App.activeFiltersCount.
    destruct (negb _), (negb _), (SearchFilters.requiresPrescription filters),
      (SearchFilters.isControlled filters), (negb _); lia.
  - unfold App.filteredDrugs. apply filter_all. intros d _. reflexivity.
  - intros d. unfold App.filteredDrugs. rewrite !filter_In. intros [Hd H]. split; [exact Hd|].
    unfold App.matchesFilters in *. cbn.
    rewrite !andb_true_iff in H. rewrite !andb_true_r. tauto.
Qed.

(** X23. For a drug whose stock level and minimum level are numbers that
    are zero or above, the badge of its card and the stock filter agree:
    the filter [out-of-stock] shows it exactly when the badge is [out],
    [low-stock] exactly when it is [low], and [in-stock] exactly when it is
    [high] or [normal]; so exactly one of the three filters shows it. *)
Theorem badge_agrees_with_filter d :
  geb (Drug.stockLevel d) (int 0) = true ->
  geb (Drug.minStockLevel d) (int 0) = true ->
  App.matchesFilters "" (onlyStockStatus "out-of-stock") d
  = match DrugCard.getStockStatus d with DrugCard.out => true | _ => false end
  /\ App.matchesFilters "" (onlyStockStatus "low-stock") d
     = match DrugCard.getStockStatus d with DrugCard.low => true | _ => false end
  /\ App.matchesFilters "" (onlyStockStatus "in-stock") d
     = match DrugCard.getStockStatus d with
       | DrugCard.high | DrugCard.normal => true
       | _ => false
       end.
Proof.
  intros Hs Hm. rewrite !matches_onlyStockStatus. cbn [String.eqb Ascii.eqb Bool.eqb].
  destruct (stock_levels_cases (Drug.stockLevel d) _ Hm) as (_ & _ & H).
  destruct (H Hs) as [H0 H1]. unfold DrugCard.getStockStatus.
  assert (Hg : gtb (Drug.stockLevel d) (int 0) = negb (strict_eqb (Drug.stockLevel d) (int 0)))
    by (rewrite H0; now rewrite negb_involutive).
  rewrite H1, Hg.
  destruct (strict_eqb (Drug.stockLevel d) (int 0)); cbn; [auto|].
  destruct (leb (Drug.stockLevel d) (Drug.minStockLevel d)); cbn; [auto|].
  match goal with |- context [if ?c then DrugCard.high else _] => destruct c end; auto.
Qed.

(** X24. Updating a drug replaces every drug with its identifier and
    nothing else: the list keeps its length and its identifiers in order,
    each drug of the new list is the updated drug or an untouched drug with
    another identifier, an identifier that is not in the list leaves the
    list as it was, and a drug added before is replaced in its place at the
    end. *)
Theorem handleUpdateDrug_replaces prev u :
  let next := fst (App.handleUpdateDrug prev u) in
  map Drug.id next = map Drug.id prev
  /\ length next = length prev
  /\ (forall d, In d next <->
                (d = u /\ In (Drug.id u) (map Drug.id prev))
                \/ (In d prev /\ Drug.id d <> Drug.id u))
  /\ (~ In (Drug.id u) (map Drug.id prev) -> next = prev)
  /\ (forall d, fst (App.handleUpdateDrug (fst (App.handleAddDrug prev d)) u)
                = next ++ [if (Drug.id d =? Drug.id u)%string then u else d]).
Proof.
  cbn [App.handleUpdateDrug App.handleAddDrug fst].
  split; [|split; [|split; [|split]]].
  - rewrite map_map. apply map_ext. intros d.
    destruct (String.eqb_spec (Drug.id d) (Drug.id u)); congruence.
  - apply length_map.
  - intros d. rewrite in_map_iff. split.
    + intros (x & <- & Hx). destruct (String.eqb_spec (Drug.id x) (Drug.id u)) as [E|E].
      * left. split; [reflexivity|]. rewrite <- E. now apply in_map.
      * right. now split.
    + intros [[-> H]|[H Hne]].
      * apply in_map_iff in H. destruct H as (x & E & Hx). exists x. split; [|exact Hx].
        apply String.eqb_eq in E. now rewrite E.
      * exists d. split; [|exact H]. apply String.eqb_neq in Hne. now rewrite Hne.
  - intros Hn. rewrite <- (map_id prev) at 2. apply map_ext_in. intros d Hd.
    destruct (String.eqb_spec (Drug.id d) (Drug.id u)) as [E|E]; [|reflexivity].
    exfalso. apply Hn. rewrite <- E. now apply in_map.
  - intros d. now rewrite map_app.
Qed.

(** X25. The lists of categories and of manufacturers offered as filters
    hold exactly the values that occur in the catalog, each once, in
    strictly increasing order of their UTF-16 code units. *)
Theorem filter_choices_sorted drugs :
  (increasing (App.categories drugs) = true
   /\ List.NoDup (App.categories drugs)
   /\ forall c, In c (App.categories drugs) <-> exists d, In d drugs /\ Drug.category d = c)
  /\ (increasing (App.manufacturers drugs) = true
      /\ List.NoDup (App.manufacturers drugs)
      /\ forall m, In m (App.manufacturers drugs)
                   <-> exists d, In d drugs /\ Drug.manufacturer d = m).
Proof.
  unfold App.categories, App.manufacturers. split.
  - destruct (sorted_distinct (map Drug.category drugs)) as (H1 & H2 & H3).
    repeat split; auto.
    + intros H. apply H3, in_map_iff in H. destruct H as (d & <- & Hd). now exists d.
    + intros (d & Hd & <-). apply H3. now apply in_map.
  - destruct (sorted_distinct (map Drug.manufacturer drugs)) as (H1 & H2 & H3).
    repeat split; auto.
    + intros H. apply H3, in_map_iff in H. destruct H as (d & <- & Hd). now exists d.
    + intros (d & Hd & <-). apply H3. now apply in_map.
Qed.

(** X26. When every stock level and every unit price is a finite number
    that is zero or above, the total value of the inventory is a number that
    is zero or above, or [Infinity] when the sum overflows: it is never NaN
    and never negative. *)
Theorem totalValue_range drugs :
  Forall (fun d => finiteAtLeastZero (Drug.stockLevel d) = true
                   /\ finiteAtLeastZero (Drug.unitPrice d) = true) drugs ->
  isNumber (App.totalValue (App.stats drugs)) = true
  /\ atLeastZero (App.totalValue (App.stats drugs)).
Proof.
  intros Hall.
  assert (H : atLeastZero (App.totalValue (App.stats drugs))).
  { cbn [App.stats App.totalValue].
    assert (H0 : atLeastZero (int 0)) by (change (int 0) with (Finite 0); cbn; apply Qle_refl).
    revert H0. generalize (int 0). induction Hall as [|d l [Hs Hp] Hl IH]; intros acc Hacc.
    - exact Hacc.
    - cbn [fold_left]. apply IH. apply add_atLeastZero; [exact Hacc|].
      revert Hs Hp. unfold finiteAtLeastZero. change (int 0) with (Finite 0).
      unfold geb, leb, compare.
      destruct (Drug.stockLevel d) as [s| | |], (Drug.unitPrice d) as [p| | |];
        try discriminate; cbn.
      destruct (Qcompare_spec 0 s) as [E|L|L]; try discriminate;
        destruct (Qcompare_spec 0 p) as [E'|L'|L']; try discriminate; intros _ _;
        apply round64_atLeastZero; apply Qmult_le_0_compat;
        try (now apply Qlt_le_weak); try (rewrite <- E; apply Qle_refl);
        try (rewrite <- E'; apply Qle_refl). }
  split; [|exact H]. now destruct (App.totalValue (App.stats drugs)).
Qed.

Lemma prefix_refl s : String.prefix s s = true.
Proof. induction s as [|c s IH]; cbn; [reflexivity|]. now destruct (ascii_dec c c). Qed.

Lemma includes_refl s : includes s s = true.
Proof. destruct s; cbn [includes]; now rewrite prefix_refl. Qed.

(** X27. With no filter set, a search for the name of a drug, its generic
    name, its brand name, its active molecule or its manufacturer finds the
    drug, in whatever letter case the term is typed; so does the empty
    term. *)
Theorem search_finds_own_names drugs d term :
  In d drugs ->
  term = "" \/ In (toLowerCase term)
            (map toLowerCase
               [Drug.name d; Drug.genericName d; Drug.brandName d; Drug.activeMolecule d;
                Drug.manufacturer d]) ->
  In d (App.filteredDrugs drugs term clearFilters).
Proof.
  intros Hd Hterm. unfold App.filteredDrugs. apply filter_In. split; [exact Hd|].
  unfold App.matchesFilters. cbn. rewrite !andb_true_r.
  destruct Hterm as [->|Hterm]; [reflexivity|].
  cbn in Hterm.
  destruct Hterm as [H|[H|[H|[H|[H|[]]]]]]; rewrite <- H, includes_refl;
    rewrite ?orb_true_r; reflexivity.
Qed.

(** ** The further properties on the sample data *)

Lemma same_molecule_is_suggested_witness :
  exists s,
    In s (findSubstitutes (printer := Sample.integerToString)
            Sample.engine Sample.panadol None)
    /\ key s = Drug.id Sample.paracetamol250
    /\ matchType s <> MatchType.similar
    /\ (isExactMatch Sample.panadol Sample.paracetamol250 = true
        -> matchType s = MatchType.exact /\ confidence s = int 95)
    /\ (List.NoDup (map Drug.id (drugs Sample.engine)) -> drug s = Sample.paracetamol250).
Proof.
  apply same_molecule_is_suggested.
  - unfold searchPool. apply filter_In. split; [|vm_compute; reflexivity].
    right. right. left. reflexivity.
  - vm_compute. reflexivity.
Defined.

Lemma same_clean_name_similarity_witness :
  haveSimilarNames (Drug.genericName Sample.panadol) (Drug.genericName Shelf.paracetamol1000)
  = true
  /\ (sameDosageForm Sample.panadol Shelf.paracetamol1000 = true
      -> calculateTherapeuticSimilarity Sample.panadol Shelf.paracetamol1000 = int 75)
  /\ (sameDosageForm Sample.panadol Shelf.paracetamol1000 = false
      -> calculateTherapeuticSimilarity Sample.panadol Shelf.paracetamol1000 = int 55).
Proof.
  apply same_clean_name_similarity. vm_compute. reflexivity.
Defined.

Lemma same_strength_no_adjustment_witness :
  calculateDosageAdjustment (printer := Sample.integerToString)
    Shelf.paracetamolGram Shelf.paracetamol1000 = None.
Proof.
  apply same_strength_no_adjustment.
  - vm_compute. reflexivity.
  - intros H. vm_compute in H. discriminate.
Defined.

Lemma infinite_strengths_adjustment_witness :
  calculateDosageAdjustment (printer := Sample.integerToString)
    Sample.hugeTarget Sample.hugeOther
  = Some ("Take NaNx less (" +:+ Drug.dosage Sample.hugeOther +:+ " → equivalent to "
            +:+ Drug.dosage Sample.hugeTarget +:+ ")").
Proof.
  apply infinite_strengths_adjustment. split; vm_compute; reflexivity.
Defined.

Lemma badge_agrees_with_filter_witness :
  App.matchesFilters "" (onlyStockStatus "out-of-stock") Shelf.paracetamolGram
  = match DrugCard.getStockStatus Shelf.paracetamolGram with
    | DrugCard.out => true
    | _ => false
    end
  /\ App.matchesFilters "" (onlyStockStatus "low-stock") Shelf.paracetamolGram
     = match DrugCard.getStockStatus Shelf.paracetamolGram with
       | DrugCard.low => true
       | _ => false
       end
  /\ App.matchesFilters "" (onlyStockStatus "in-stock") Shelf.paracetamolGram
     = match DrugCard.getStockStatus Shelf.paracetamolGram with
       | DrugCard.high | DrugCard.normal => true
       | _ => false
       end.
Proof.
  apply badge_agrees_with_filter; vm_compute; reflexivity.
Defined.

Lemma totalValue_range_witness :
  isNumber (App.totalValue (App.stats Sample.catalog)) = true
  /\ atLeastZero (App.totalValue (App.stats Sample.catalog)).
Proof.
  apply totalValue_range.
  repeat constructor; vm_compute; reflexivity.
Defined.

Lemma confidence_colors_witness :
  Forall (fun s =>
            In (getConfidenceColor (confidence s))
              match matchType s with
              | MatchType.exact => ["text-green-600"]
              | MatchType.equivalent => ["text-green-600"; "text-blue-600"]
              | MatchType.similar => ["text-blue-600"; "text-yellow-600"; "text-red-600"]
              end)
    (findSubstitutes (printer := Sample.integerToString) Sample.engine Sample.panadol None).
Proof.
  apply confidence_colors. intros H. vm_compute in H. discriminate.
Defined.

Lemma search_finds_own_names_witness :
  In Sample.panadol (App.filteredDrugs Sample.catalog "PANADOL" clearFilters).
Proof.
  apply search_finds_own_names.
  - left. reflexivity.
  - right. right. right. left. vm_compute. reflexivity.
Defined.

